(** * MaaS key manager v2: policy and entity lifecycle engine

    A shallow embedding of the Go sources
      key-manager-v2/internal/policies/dynamic-policies.go   (package policies)
      key-manager-v2 main.go                                 (package main)
    together with a reference model of the two external stores the code
    talks to (Kubernetes Secrets through client-go, Kuadrant policy
    objects through the dynamic client).

    Conventions.
    - Go [int] is [Z]; no arithmetic is performed on the modelled limits,
      so no wrap-around arises.
    - Go [string] is [string] (a byte sequence); [map[string]string] is
      [gmap string string].
    - A Go function [(T, error)] that talks to a store is a function
      [World -> Run (T + error)]: explicit state passing, with [Run]
      separating a normal return from running out of fuel (unbounded
      recursion) and from a run-time panic. *)

From Stdlib Require Import ZArith NArith String Ascii List Lia Bool.
From Stdlib.Strings Require Import Byte.
From stdpp Require Import base option list gmap strings pretty.

Local Open Scope Z_scope.

(** ** Go primitives *)

(** [strings.Contains]. *)
Fixpoint strings_Contains (s substr : string) : bool :=
  if String.prefix substr s then true
  else match s with
       | EmptyString => false
       | String _ s' => strings_Contains s' substr
       end.

(** [strings.Join]. *)
Definition strings_Join (elems : list string) (sep : string) : string :=
  String.concat sep elems.

(** Slice expression [s[:n]] on a string: panics (here [None]) when [n]
    exceeds [len(s)] or is negative. *)
Definition slice_to (s : string) (n : Z) : option string :=
  if (0 <=? n) && (n <=? Z.of_nat (String.length s))
  then Some (String.substring 0 (Z.to_nat n) s)
  else None.

(** [fmt.Sprintf("%d", n)]. *)
Definition Sprintf_d (n : Z) : string :=
  match n with
  | Z0 => "0"
  | Zpos p => pretty (Npos p)
  | Zneg p => "-" +:+ pretty (Npos p)
  end.

(** Go errors.  [fmt.Errorf("ctx: %w", err)] keeps the wrapped error
    reachable; [Error()] renders the chain. *)
Inductive error : Type :=
| errorString (msg : string)
| wrapError (ctx : string) (err : error).

Fixpoint Error (e : error) : string :=
  match e with
  | errorString msg => msg
  | wrapError ctx err => ctx +:+ Error err
  end.

(** [errors.Unwrap], iterated: the innermost error of a chain. *)
Fixpoint rootCause (e : error) : error :=
  match e with
  | errorString _ => e
  | wrapError _ err => rootCause err
  end.

(** [errors.Is(e, target)] for the comparable errors used here. *)
Fixpoint errors_Is (e target : error) : Prop :=
  e = target \/
  match e with
  | errorString _ => False
  | wrapError _ err => errors_Is err target
  end.

(** The process environment, [os.Getenv]. *)
Definition Environ := gmap string string.

Definition os_Getenv (env : Environ) (key : string) : string :=
  default EmptyString (env !! key).

(** [getEnvOrDefault] (both packages carry the same helper). *)
Definition getEnvOrDefault (env : Environ) (key defaultValue : string) : string :=
  let value := os_Getenv env key in
  if decide (value <> EmptyString) then value else defaultValue.

(** Outcome of running a Go function: it returns; or the model ran out
    of fuel; or it does not return normally, because of a panic or of a
    fatal error of the runtime, which ends the process ([msg] is the
    message). *)
Inductive Run (A : Type) : Type :=
| Returns (a : A)
| OutOfFuel
| Panics (msg : string).
Arguments Returns {A} a.
Arguments OutOfFuel {A}.
Arguments Panics {A} msg.


(** ** The external stores

    Reference model of the two stores behind client-go (section 6 of the
    specification: create, get-by-name, update with an opaque version
    token, delete-by-name, delete and list by label selector).  Objects are
    kept in finite maps keyed by name; a call fails either because the
    store's own rules say so (missing or duplicate name, stale version
    token) or because a fault is injected for that call, which stands for
    an unreachable or refusing server.  Every call is appended to a trace,
    so that "the engine issues a delete" is a statement about the trace. *)

Definition dquote : string := String (ascii_of_nat 34) EmptyString.

Definition quoted (s : string) : string := dquote +:+ s +:+ dquote.

Record Secret : Type := mkSecret {
  secretName : string;
  secretLabels : gmap string string;
  secretAnnotations : gmap string string;
  secretStringData : gmap string string
}.

(** [schema.GroupVersionResource]: group, version, resource. *)
Definition GroupVersionResource : Type := string * string * string.

Definition gvrResource (gvr : GroupVersionResource) : string := gvr.2.
Definition gvrGroup (gvr : GroupVersionResource) : string := gvr.1.1.

Record Rate : Type := mkRate { rateLimit : Z; rateWindow : string }.

Record LimitDefinition : Type := mkLimitDefinition {
  rates : list Rate;
  counters : list string;
  when : list string
}.

(** The [unstructured.Unstructured] policy objects the engine builds. *)
Record Policy : Type := mkPolicy {
  apiVersion : string;
  kind : string;
  policyName : string;
  policyNamespace : string;
  policyLabels : gmap string string;
  policyAnnotations : gmap string string;
  resourceVersion : string;
  uid : string;
  targetRef : string * string * string;
  limits : list (string * LimitDefinition)
}.

Definition SetResourceVersion (p : Policy) (rv : string) : Policy :=
  {| apiVersion := apiVersion p; kind := kind p; policyName := policyName p;
     policyNamespace := policyNamespace p; policyLabels := policyLabels p;
     policyAnnotations := policyAnnotations p;
     resourceVersion := rv; uid := uid p;
     targetRef := targetRef p; limits := limits p |}.

Definition SetUID (p : Policy) (u : string) : Policy :=
  {| apiVersion := apiVersion p; kind := kind p; policyName := policyName p;
     policyNamespace := policyNamespace p; policyLabels := policyLabels p;
     policyAnnotations := policyAnnotations p;
     resourceVersion := resourceVersion p; uid := u;
     targetRef := targetRef p; limits := limits p |}.

(** A label selector as the conjunction of equality requirements that
    [fmt.Sprintf("k1=%s,k2=%s", ...)] spells when the pasted values are
    label values (letters, digits, hyphens, underscores, dots).  The API
    server parses the string: a pasted value holding a comma, an
    exclamation mark, an equals sign, a parenthesis or a blank spells other
    requirements, which this type does not represent.  The ids that pass
    isValidUserID, the ids of existing team records and the hexadecimal
    fingerprints are label values. *)
Definition Selector : Type := list (string * string).

Definition matchesSelector (sel : Selector) (labels : gmap string string) : bool :=
  forallb (fun kv => bool_decide (labels !! kv.1 = Some kv.2)) sel.

Inductive Call : Type :=
| SecretGet (name : string)
| SecretCreate (name : string)
| SecretDelete (name : string)
| SecretList (sel : Selector)
| SecretDeleteCollection (sel : Selector)
| PolicyCreate (gvr : GroupVersionResource) (name : string)
| PolicyGet (gvr : GroupVersionResource) (name : string)
| PolicyUpdate (gvr : GroupVersionResource) (name : string) (rv u : string)
| PolicyDelete (gvr : GroupVersionResource) (name : string).

(** What the Go runtime of the process does at its limits: the largest
    byte slice [make] serves (beyond it [make] panics with "makeslice: len
    out of range", or the runtime dies of "out of memory"), and whether a
    failed read of [crypto/rand] ends the process with a fatal error (Go
    1.24 and later) instead of returning an error (earlier toolchains).
    The repository pins no toolchain and no platform. *)
Record GoRuntime : Type := mkGoRuntime {
  maxAlloc : Z;
  randReadFatal : bool
}.

Record World : Type := mkWorld {
  secrets : gmap string Secret;
  policyObjects : gmap (GroupVersionResource * string) Policy;
  faults : Call -> option error;
  revision : N;
  entropy : list byte;
  clock : string;
  trace : list Call;
  runtime : GoRuntime
}.

Definition withSecrets (w : World) (m : gmap string Secret) : World :=
  {| secrets := m; policyObjects := policyObjects w; faults := faults w;
     revision := revision w; entropy := entropy w; clock := clock w;
     trace := trace w; runtime := runtime w |}.

Definition withPolicyObjects (w : World)
    (m : gmap (GroupVersionResource * string) Policy) : World :=
  {| secrets := secrets w; policyObjects := m; faults := faults w;
     revision := N.succ (revision w); entropy := entropy w; clock := clock w;
     trace := trace w; runtime := runtime w |}.

Definition withEntropy (w : World) (e : list byte) : World :=
  {| secrets := secrets w; policyObjects := policyObjects w; faults := faults w;
     revision := revision w; entropy := e; clock := clock w;
     trace := trace w; runtime := runtime w |}.

Definition record (c : Call) (w : World) : World :=
  {| secrets := secrets w; policyObjects := policyObjects w; faults := faults w;
     revision := revision w; entropy := entropy w; clock := clock w;
     trace := trace w ++ [c]; runtime := runtime w |}.

(** State passing: a computation takes the world and either returns a
    value with the new world, or does not return normally. *)
Definition M (A : Type) : Type := World -> Run (A * World).

Definition ret {A : Type} (a : A) : M A := fun w => Returns (a, w).

Definition bind {A B : Type} (m : M A) (k : A -> M B) : M B :=
  fun w =>
    match m w with
    | Returns (a, w') => k a w'
    | OutOfFuel => OutOfFuel
    | Panics msg => Panics msg
    end.

Definition lift {A : Type} (r : Run A) : M A :=
  fun w =>
    match r with
    | Returns a => Returns (a, w)
    | OutOfFuel => OutOfFuel
    | Panics msg => Panics msg
    end.

Definition panic {A : Type} (msg : string) : M A := fun _ => Panics msg.

Notation "'let*' x ':=' m 'in' k" := (bind m (fun x => k))
  (at level 10, x pattern, m at level 100, k at level 200).

(** One store call: record it, then fail with the injected fault if there
    is one, else run the store's own rule [rule]. *)
Definition storeCall {A : Type} (c : Call)
    (rule : World -> (A + error) * World) : M (A + error) :=
  fun w =>
    let w1 := record c w in
    match faults w c with
    | Some e => Returns (inr e, w1)
    | None => Returns (rule w1)
    end.

Definition notFound (resource name : string) : error :=
  errorString (resource +:+ " " +:+ quoted name +:+ " not found").

Definition alreadyExists (resource name : string) : error :=
  errorString (resource +:+ " " +:+ quoted name +:+ " already exists").

Definition conflict (resource name : string) : error :=
  errorString ("Operation cannot be fulfilled on " +:+ resource +:+ " "
               +:+ quoted name
               +:+ ": the object has been modified; please apply your changes to the latest version and try again").

Definition invalidUpdate (resource name : string) : error :=
  errorString (resource +:+ " " +:+ quoted name
               +:+ " is invalid: metadata.resourceVersion: Invalid value: 0x0: must be specified for an update").

(** *** Secrets: [km.clientset.CoreV1().Secrets(km.keyNamespace)] *)

Definition Secrets_Get (name : string) : M (Secret + error) :=
  storeCall (SecretGet name) (fun w =>
    match secrets w !! name with
    | Some s => (inl s, w)
    | None => (inr (notFound "secrets" name), w)
    end).

Definition Secrets_Create (s : Secret) : M (Secret + error) :=
  storeCall (SecretCreate (secretName s)) (fun w =>
    match secrets w !! secretName s with
    | Some _ => (inr (alreadyExists "secrets" (secretName s)), w)
    | None => (inl s, withSecrets w (<[secretName s := s]> (secrets w)))
    end).

Definition Secrets_Delete (name : string) : M (unit + error) :=
  storeCall (SecretDelete name) (fun w =>
    match secrets w !! name with
    | Some _ => (inl tt, withSecrets w (delete name (secrets w)))
    | None => (inr (notFound "secrets" name), w)
    end).

Definition selected (sel : Selector) (m : gmap string Secret) : list Secret :=
  filter (fun s => matchesSelector sel (secretLabels s) = true) (map_to_list m).*2.

Definition Secrets_List (sel : Selector) : M (list Secret + error) :=
  storeCall (SecretList sel) (fun w => (inl (selected sel (secrets w)), w)).

Definition Secrets_DeleteCollection (sel : Selector) : M (unit + error) :=
  storeCall (SecretDeleteCollection sel) (fun w =>
    (inl tt,
     withSecrets w
       (filter (fun kv => matchesSelector sel (secretLabels kv.2) = false)
               (secrets w)))).

(** *** Policy objects: [pe.KuadrantClient.Resource(gvr).Namespace(pe.Namespace)]

    Objects are addressed by the full group/version/resource and the name,
    as the dynamic client addresses them. *)

Definition qualifiedResource (gvr : GroupVersionResource) : string :=
  gvrResource gvr +:+ "." +:+ gvrGroup gvr.

Definition Policy_Create (gvr : GroupVersionResource) (p : Policy) : M (Policy + error) :=
  storeCall (PolicyCreate gvr (policyName p)) (fun w =>
    match policyObjects w !! (gvr, policyName p) with
    | Some _ => (inr (alreadyExists (qualifiedResource gvr) (policyName p)), w)
    | None =>
        let stored :=
          SetUID (SetResourceVersion p (pretty (revision w)))
                 ("uid-" +:+ pretty (revision w)) in
        (inl stored, withPolicyObjects w (<[(gvr, policyName p) := stored]> (policyObjects w)))
    end).

Definition Policy_Get (gvr : GroupVersionResource) (name : string) : M (Policy + error) :=
  storeCall (PolicyGet gvr name) (fun w =>
    match policyObjects w !! (gvr, name) with
    | Some p => (inl p, w)
    | None => (inr (notFound (qualifiedResource gvr) name), w)
    end).

Definition Policy_Update (gvr : GroupVersionResource) (p : Policy) : M (Policy + error) :=
  storeCall (PolicyUpdate gvr (policyName p) (resourceVersion p) (uid p)) (fun w =>
    match policyObjects w !! (gvr, policyName p) with
    | None => (inr (notFound (qualifiedResource gvr) (policyName p)), w)
    | Some old =>
        if decide (resourceVersion p = EmptyString)
        then (inr (invalidUpdate (qualifiedResource gvr) (policyName p)), w)
        else if decide (resourceVersion p = resourceVersion old
                        /\ (uid p = EmptyString \/ uid p = uid old))
        then
          let stored := SetUID (SetResourceVersion p (pretty (revision w))) (uid old) in
          (inl stored, withPolicyObjects w (<[(gvr, policyName p) := stored]> (policyObjects w)))
        else (inr (conflict (qualifiedResource gvr) (policyName p)), w)
    end).

Definition Policy_Delete (gvr : GroupVersionResource) (name : string) : M (unit + error) :=
  storeCall (PolicyDelete gvr name) (fun w =>
    match policyObjects w !! (gvr, name) with
    | Some _ => (inl tt, withPolicyObjects w (delete (gvr, name) (policyObjects w)))
    | None => (inr (notFound (qualifiedResource gvr) name), w)
    end).

(** *** The random source and the clock *)

(** [make([]byte, n)]: the runtime panics for a negative length and for
    one beyond what it can allocate. *)
Definition make_bytes (n : Z) : M unit :=
  fun w =>
    if (n <? 0) || (maxAlloc (runtime w) <? n)
    then Panics "makeslice: len out of range"
    else Returns (tt, w).

(** [crypto/rand.Read(b)]: fills [b] or fails; the source fails only when
    it cannot deliver the requested number of bytes.  Before Go 1.24 a
    failed read is an error return; from Go 1.24 on Read never returns an
    error, and a failed read ends the process with a fatal error. *)
Definition rand_Read (n : nat) : M (list byte + error) :=
  fun w =>
    if decide (n <= length (entropy w))%nat
    then Returns (inl (take n (entropy w)), withEntropy w (drop n (entropy w)))
    else if randReadFatal (runtime w)
    then Panics "fatal error: crypto/rand: failed to read random data"
    else Returns (inr (errorString "crypto/rand: entropy source exhausted"), w).

(** [time.Now().Format(time.RFC3339)]. *)
Definition time_Now_RFC3339 : M string := fun w => Returns (clock w, w).

(** ** Package policies: tiers *)

Module policies.

Record TierLimits : Type := mkTierLimits {
  TokenLimit : Z;
  TokenWindow : string;
  RequestLimit : Z;
  RequestWindow : string;
  ModelsAllowed : list string;
  TokenLimitPerHour : Z;
  TokenLimitPerDay : Z;
  MaxConcurrentRequests : Z
}.

(** GetDefaultTier returns the default tier from environment or fallback. *)
Definition GetDefaultTier (env : Environ) : string :=
  let defaultTier := getEnvOrDefault env "DEFAULT_TIER" EmptyString in
  if decide (defaultTier <> EmptyString) then defaultTier else "standard".

Definition freeLimits : TierLimits :=
  {| TokenLimit := 2000; TokenWindow := "1m";
     RequestLimit := 60; RequestWindow := "1m";
     ModelsAllowed := ["simulator-model"];
     TokenLimitPerHour := 10000; TokenLimitPerDay := 50000;
     MaxConcurrentRequests := 5 |}.

Definition standardLimits : TierLimits :=
  {| TokenLimit := 10000; TokenWindow := "1m";
     RequestLimit := 120; RequestWindow := "1m";
     ModelsAllowed := ["simulator-model"; "qwen3-0-6b-instruct"];
     TokenLimitPerHour := 50000; TokenLimitPerDay := 500000;
     MaxConcurrentRequests := 10 |}.

Definition premiumLimits : TierLimits :=
  {| TokenLimit := 50000; TokenWindow := "1m";
     RequestLimit := 600; RequestWindow := "1m";
     ModelsAllowed := ["simulator-model"; "qwen3-0-6b-instruct"; "premium-models"];
     TokenLimitPerHour := 200000; TokenLimitPerDay := 2000000;
     MaxConcurrentRequests := 25 |}.

Definition unlimitedLimits : TierLimits :=
  {| TokenLimit := -1; TokenWindow := "1h";
     RequestLimit := -1; RequestWindow := "1h";
     ModelsAllowed := ["*"];
     TokenLimitPerHour := -1; TokenLimitPerDay := -1;
     MaxConcurrentRequests := -1 |}.

(** The four [case] arms of the switch in GetTierLimits. *)
Definition tierCase (tier : string) : option TierLimits :=
  if decide (tier = "free") then Some freeLimits
  else if decide (tier = "standard") then Some standardLimits
  else if decide (tier = "premium") then Some premiumLimits
  else if decide (tier = "unlimited") then Some unlimitedLimits
  else None.

(** GetTierLimits returns the limits for a given tier with fallback to
    default.  The [default:] arm calls GetTierLimits again; each call
    consumes one unit of fuel, and [OutOfFuel] for every amount of fuel is
    unbounded recursion. *)
Fixpoint GetTierLimits (fuel : nat) (env : Environ) (tier : string) : Run TierLimits :=
  match fuel with
  | O => OutOfFuel
  | S fuel' =>
      let tier := if decide (tier = EmptyString) then GetDefaultTier env else tier in
      match tierCase tier with
      | Some limits => Returns limits
      | None => GetTierLimits fuel' env (GetDefaultTier env)
      end
  end.

(** ** Package policies: the publisher *)

(** PolicyEngine manages Kuadrant policy generation. *)
Record PolicyEngine : Type := mkPolicyEngine {
  Namespace : string;
  GatewayName : string;
  GatewayNamespace : string
}.

Definition tokenRateLimitGVR : GroupVersionResource :=
  ("kuadrant.io", "v1alpha1", "tokenratelimitpolicies").

(** The GVR CreateTeamRequestRateLimit builds. *)
Definition rateLimitGVR : GroupVersionResource :=
  ("kuadrant.io", "v1", "ratelimitpolicies").

(** The GVR DeleteTeamRequestRateLimit builds. *)
Definition rateLimitGVR_delete : GroupVersionResource :=
  ("kuadrant.io", "v1beta3", "ratelimitpolicies").

Definition teamPredicate (teamID : string) : string :=
  "has(auth.identity.metadata.labels) && auth.identity.metadata.labels["
  +:+ quoted "maas/team-id" +:+ "] == " +:+ quoted teamID.

(** The policy manifest of CreateTeamTokenRateLimit. *)
Definition tokenPolicyManifest (pe : PolicyEngine) (teamID policyName now : string)
    (limits : TierLimits) : Policy :=
  {| apiVersion := "kuadrant.io/v1alpha1";
     kind := "TokenRateLimitPolicy";
     policyName := policyName;
     policyNamespace := Namespace pe;
     policyLabels :=
       {[ "maas/managed-by" := "key-manager";
          "maas/team-id" := teamID;
          "maas/resource-type" := "team-rate-limit" ]};
     policyAnnotations :=
       {[ "maas/created-at" := now;
          "maas/description" := "Rate limiting policy for team " +:+ teamID ]};
     resourceVersion := EmptyString;
     uid := EmptyString;
     targetRef := ("gateway.networking.k8s.io", "Gateway", GatewayName pe);
     limits :=
       [ ("team-" +:+ teamID +:+ "-tokens",
          {| rates := [ {| rateLimit := TokenLimit limits;
                           rateWindow := TokenWindow limits |} ];
             counters := [ "auth.identity.userid" ];
             when := [ teamPredicate teamID ] |}) ] |}.

(** The policy manifest of CreateTeamRequestRateLimit. *)
Definition requestPolicyManifest (pe : PolicyEngine) (teamID policyName now : string)
    (limits : TierLimits) : Policy :=
  {| apiVersion := "kuadrant.io/v1";
     kind := "RateLimitPolicy";
     policyName := policyName;
     policyNamespace := Namespace pe;
     policyLabels :=
       {[ "maas/managed-by" := "key-manager";
          "maas/team-id" := teamID;
          "maas/resource-type" := "team-request-limit" ]};
     policyAnnotations :=
       {[ "maas/created-at" := now;
          "maas/description" := "Request rate limiting policy for team " +:+ teamID ]};
     resourceVersion := EmptyString;
     uid := EmptyString;
     targetRef := ("gateway.networking.k8s.io", "Gateway", GatewayName pe);
     limits :=
       [ ("team-" +:+ teamID +:+ "-requests",
          {| rates := [ {| rateLimit := RequestLimit limits;
                           rateWindow := RequestWindow limits |} ];
             counters := [ "auth.identity.userid" ];
             when := [ teamPredicate teamID ] |}) ] |}.

(** The create-or-update tail shared, statement for statement, by
    CreateTeamTokenRateLimit and CreateTeamRequestRateLimit: create the
    policy; if the create fails with a message containing "already
    exists", get the existing object, preserve its resource version and
    UID, and update; any other create failure is returned wrapped.
    [what] is the Go type name used in the messages. *)
Definition createOrUpdate (gvr : GroupVersionResource) (what : string)
    (policy : Policy) : M (option error) :=
  let* r := Policy_Create gvr policy in
  match r with
  | inr err =>
      if strings_Contains (Error err) "already exists" then
        let* g := Policy_Get gvr (policyName policy) in
        match g with
        | inr getErr =>
            ret (Some (wrapError ("failed to get existing " +:+ what +:+ " for update: ") getErr))
        | inl existing =>
            let policy := SetResourceVersion policy (resourceVersion existing) in
            let policy := SetUID policy (uid existing) in
            let* u := Policy_Update gvr policy in
            match u with
            | inr updateErr =>
                ret (Some (wrapError ("failed to update existing " +:+ what +:+ ": ") updateErr))
            | inl _ => ret None
            end
        end
      else ret (Some (wrapError ("failed to create " +:+ what +:+ ": ") err))
  | inl _ => ret None
  end.

(** CreateTeamTokenRateLimit creates a team-specific TokenRateLimitPolicy. *)
Definition CreateTeamTokenRateLimit (pe : PolicyEngine) (teamID policyName : string)
    (limits : TierLimits) : M (option error) :=
  if decide (TokenLimit limits = -1) then ret None
  else if decide (teamID = "default") then ret None
  else
    let* now := time_Now_RFC3339 in
    createOrUpdate tokenRateLimitGVR "TokenRateLimitPolicy"
      (tokenPolicyManifest pe teamID policyName now limits).

(** CreateTeamRequestRateLimit creates a team-specific RateLimitPolicy for
    request-based limits. *)
Definition CreateTeamRequestRateLimit (pe : PolicyEngine) (teamID policyName : string)
    (limits : TierLimits) : M (option error) :=
  if decide (RequestLimit limits = -1) then ret None
  else if decide (teamID = "default") then ret None
  else
    let* now := time_Now_RFC3339 in
    createOrUpdate rateLimitGVR "RateLimitPolicy"
      (requestPolicyManifest pe teamID policyName now limits).

Definition tokenPolicyNameOf (teamID : string) : string :=
  "team-" +:+ teamID +:+ "-token-limits".

Definition requestPolicyNameOf (teamID : string) : string :=
  "team-" +:+ teamID +:+ "-request-limits".

(** CreateTeamRateLimitPolicies creates both TokenRateLimitPolicy and
    RateLimitPolicy for a team. *)
Definition CreateTeamRateLimitPolicies (pe : PolicyEngine) (teamID : string)
    (limits : TierLimits) : M (option error) :=
  let* r := CreateTeamTokenRateLimit pe teamID (tokenPolicyNameOf teamID) limits in
  match r with
  | Some err => ret (Some (wrapError "failed to create token rate limit policy: " err))
  | None =>
      let* r := CreateTeamRequestRateLimit pe teamID (requestPolicyNameOf teamID) limits in
      match r with
      | Some err => ret (Some (wrapError "failed to create request rate limit policy: " err))
      | None => ret None
      end
  end.

(** DeleteTeamTokenRateLimit deletes a team TokenRateLimitPolicy. *)
Definition DeleteTeamTokenRateLimit (pe : PolicyEngine) (policyName : string)
    : M (option error) :=
  let* r := Policy_Delete tokenRateLimitGVR policyName in
  match r with
  | inr err => ret (Some (wrapError "failed to delete TokenRateLimitPolicy: " err))
  | inl _ => ret None
  end.

(** DeleteTeamRequestRateLimit deletes a team RateLimitPolicy. *)
Definition DeleteTeamRequestRateLimit (pe : PolicyEngine) (policyName : string)
    : M (option error) :=
  let* r := Policy_Delete rateLimitGVR_delete policyName in
  match r with
  | inr err => ret (Some (wrapError "failed to delete RateLimitPolicy: " err))
  | inl _ => ret None
  end.

(** DeleteTeamPolicies deletes all team-related policies; failures are
    logged as warnings and the function returns nil. *)
Definition DeleteTeamPolicies (pe : PolicyEngine) (teamID : string) : M (option error) :=
  let* _ := DeleteTeamTokenRateLimit pe (tokenPolicyNameOf teamID) in
  let* _ := DeleteTeamRequestRateLimit pe (requestPolicyNameOf teamID) in
  ret None.

(** [annotations[key] = value] on the object's metadata. *)
Definition SetAnnotation (p : Policy) (key value : string) : Policy :=
  {| apiVersion := apiVersion p; kind := kind p; policyName := policyName p;
     policyNamespace := policyNamespace p; policyLabels := policyLabels p;
     policyAnnotations := <[key := value]> (policyAnnotations p);
     resourceVersion := resourceVersion p; uid := uid p;
     targetRef := targetRef p; limits := limits p |}.

(** UpdateTeamTokenRateLimitUsers updates a team TokenRateLimitPolicy when
    users change: it stamps the annotation maas/updated-at on the stored
    object and writes it back.  A failed get is logged and reported as
    success.  The type assertion
    [metadata["annotations"].(map[string]interface{})] panics on an object
    that carries no annotations: the server omits an empty annotation map,
    so the field is absent exactly when the map is empty. *)
Definition UpdateTeamTokenRateLimitUsers (pe : PolicyEngine) (teamID policyName : string)
    : M (option error) :=
  let* got := Policy_Get tokenRateLimitGVR policyName in
  match got with
  | inr _ => ret None
  | inl policy =>
      if decide (policyAnnotations policy = ∅) then
        panic "interface conversion: interface {} is nil, not map[string]interface {}"
      else
        let* now := time_Now_RFC3339 in
        let policy := SetAnnotation policy "maas/updated-at" now in
        let* u := Policy_Update tokenRateLimitGVR policy in
        match u with
        | inr err => ret (Some (wrapError "failed to update TokenRateLimitPolicy: " err))
        | inl _ => ret None
        end
  end.

End policies.

(** ** Library functions of the Go runtime used by package main *)

(** [crypto/sha256] followed by [encoding/hex]: FIPS 180-4 on 32-bit words
    held in [N]. *)
Module sha256.
Local Open Scope N_scope.

Definition mask32 : N := 4294967295.

Definition add32 (a b : N) : N := N.land (a + b) mask32.

Definition rotr (n x : N) : N :=
  N.lor (N.shiftr x n) (N.land (N.shiftl x (32 - n)) mask32).

Definition Ch (x y z : N) : N :=
  N.lxor (N.land x y) (N.land (N.lxor x mask32) z).

Definition Maj (x y z : N) : N :=
  N.lxor (N.lxor (N.land x y) (N.land x z)) (N.land y z).

Definition bsig0 (x : N) : N := N.lxor (N.lxor (rotr 2 x) (rotr 13 x)) (rotr 22 x).
Definition bsig1 (x : N) : N := N.lxor (N.lxor (rotr 6 x) (rotr 11 x)) (rotr 25 x).
Definition ssig0 (x : N) : N := N.lxor (N.lxor (rotr 7 x) (rotr 18 x)) (N.shiftr x 3).
Definition ssig1 (x : N) : N := N.lxor (N.lxor (rotr 17 x) (rotr 19 x)) (N.shiftr x 10).

(** The first sixty-four primes. *)
Definition primes : list N :=
  [ 2; 3; 5; 7; 11; 13; 17; 19; 23; 29; 31; 37; 41; 43; 47; 53;
    59; 61; 67; 71; 73; 79; 83; 89; 97; 101; 103; 107; 109; 113; 127; 131;
    137; 139; 149; 151; 157; 163; 167; 173; 179; 181; 191; 193; 197; 199; 211; 223;
    227; 229; 233; 239; 241; 251; 257; 263; 269; 271; 277; 281; 283; 293; 307; 311 ].

(** Integer cube root by bisection on the bits of the result. *)
Fixpoint cbrtBits (bits : nat) (n r : N) : N :=
  match bits with
  | O => r
  | S bits' =>
      let c := r + N.shiftl 1 (N.of_nat bits') in
      cbrtBits bits' n (if c * c * c <=? n then c else r)
  end.

(** The first 32 bits of the fractional part of the cube root, and of the
    square root, of a prime: the round constants and the initial hash
    value are defined this way. *)
Definition fracCbrt32 (p : N) : N := N.land (cbrtBits 36 (N.shiftl p 96) 0) mask32.

Definition fracSqrt32 (p : N) : N := N.land (N.sqrt (N.shiftl p 64)) mask32.

Definition K : list N := List.map fracCbrt32 primes.

Record State : Type := mkState { ha : N; hb : N; hc : N; hd : N; he : N; hf : N; hg : N; hh : N }.

Definition H0 : State :=
  {| ha := fracSqrt32 2; hb := fracSqrt32 3; hc := fracSqrt32 5; hd := fracSqrt32 7;
     he := fracSqrt32 11; hf := fracSqrt32 13; hg := fracSqrt32 17; hh := fracSqrt32 19 |}.

(** Padding: the message, one 0x80 byte, zero bytes up to 56 modulo 64,
    and the bit length as eight big-endian bytes. *)
Definition bigEndian (width : nat) (x : N) : list N :=
  List.map (fun i => N.land (N.shiftr x (8 * N.of_nat (width - 1 - i))) 255) (seq 0 width).

Definition pad (msg : list N) : list N :=
  let len := N.of_nat (length msg) in
  let zeros := N.to_nat ((119 - len mod 64) mod 64) in
  msg ++ [128] ++ repeat 0 zeros ++ bigEndian 8 (8 * len).

Fixpoint wordsOf (n : nat) (bytes : list N) : list N :=
  match n, bytes with
  | S n', b0 :: b1 :: b2 :: b3 :: rest =>
      (N.shiftl b0 24 + N.shiftl b1 16 + N.shiftl b2 8 + b3) :: wordsOf n' rest
  | _, _ => []
  end.

Definition nthWord (ws : list N) (i : nat) : N := nth i ws 0.

(** The message schedule: sixteen block words extended to sixty-four. *)
Fixpoint extend (n : nat) (ws : list N) : list N :=
  match n with
  | O => ws
  | S n' =>
      let t := length ws in
      let w := add32 (add32 (ssig1 (nthWord ws (t - 2))) (nthWord ws (t - 7)))
                     (add32 (ssig0 (nthWord ws (t - 15))) (nthWord ws (t - 16))) in
      extend n' (ws ++ [w])
  end.

Definition round (st : State) (kw : N * N) : State :=
  let t1 := add32 (add32 (add32 (hh st) (bsig1 (he st))) (Ch (he st) (hf st) (hg st)))
                  (add32 kw.1 kw.2) in
  let t2 := add32 (bsig0 (ha st)) (Maj (ha st) (hb st) (hc st)) in
  {| ha := add32 t1 t2; hb := ha st; hc := hb st; hd := hc st;
     he := add32 (hd st) t1; hf := he st; hg := hf st; hh := hg st |}.

Definition compress (st : State) (block : list N) : State :=
  let ws := extend 48 (wordsOf 16 block) in
  let st' := fold_left round (zip K ws) st in
  {| ha := add32 (ha st) (ha st'); hb := add32 (hb st) (hb st');
     hc := add32 (hc st) (hc st'); hd := add32 (hd st) (hd st');
     he := add32 (he st) (he st'); hf := add32 (hf st) (hf st');
     hg := add32 (hg st) (hg st'); hh := add32 (hh st) (hh st') |}.

Fixpoint blocks (n : nat) (st : State) (bytes : list N) : State :=
  match n with
  | O => st
  | S n' => blocks n' (compress st (take 64 bytes)) (drop 64 bytes)
  end.

Definition digest (msg : list N) : State :=
  let padded := pad msg in
  blocks (length padded / 64) H0 padded.

Definition hexDigit (x : N) : ascii :=
  ascii_of_N (if x <? 10 then 48 + x else 87 + x).

Definition hexWord (w : N) : string :=
  String (hexDigit (N.land (N.shiftr w 28) 15))
  (String (hexDigit (N.land (N.shiftr w 24) 15))
  (String (hexDigit (N.land (N.shiftr w 20) 15))
  (String (hexDigit (N.land (N.shiftr w 16) 15))
  (String (hexDigit (N.land (N.shiftr w 12) 15))
  (String (hexDigit (N.land (N.shiftr w 8) 15))
  (String (hexDigit (N.land (N.shiftr w 4) 15))
  (String (hexDigit (N.land w 15)) EmptyString))))))).

Definition bytesOfString (s : string) : list N :=
  List.map N_of_ascii (list_ascii_of_string s).

(** [hex.EncodeToString(hasher.Sum(nil))] after [hasher.Write([]byte(s))]. *)
Definition hexSum (s : string) : string :=
  let st := digest (bytesOfString s) in
  hexWord (ha st) +:+ hexWord (hb st) +:+ hexWord (hc st) +:+ hexWord (hd st)
  +:+ hexWord (he st) +:+ hexWord (hf st) +:+ hexWord (hg st) +:+ hexWord (hh st).

End sha256.

(** [encoding/base64], [URLEncoding] (padded, alphabet A-Z a-z 0-9 - _). *)
Module base64.
Local Open Scope N_scope.

Definition encodeURLChar (x : N) : ascii :=
  ascii_of_N
    (if x <? 26 then 65 + x
     else if x <? 52 then 71 + x
     else if x <? 62 then x - 4
     else if x =? 62 then 45
     else 95).

Definition padChar : ascii := ascii_of_N 61.

Fixpoint EncodeToString (src : list byte) : string :=
  match src with
  | [] => EmptyString
  | [b0] =>
      let v := N.shiftl (Byte.to_N b0) 16 in
      String (encodeURLChar (N.land (N.shiftr v 18) 63))
      (String (encodeURLChar (N.land (N.shiftr v 12) 63))
      (String padChar (String padChar EmptyString)))
  | [b0; b1] =>
      let v := N.shiftl (Byte.to_N b0) 16 + N.shiftl (Byte.to_N b1) 8 in
      String (encodeURLChar (N.land (N.shiftr v 18) 63))
      (String (encodeURLChar (N.land (N.shiftr v 12) 63))
      (String (encodeURLChar (N.land (N.shiftr v 6) 63))
      (String padChar EmptyString)))
  | b0 :: b1 :: b2 :: rest =>
      let v := N.shiftl (Byte.to_N b0) 16 + N.shiftl (Byte.to_N b1) 8 + Byte.to_N b2 in
      String (encodeURLChar (N.land (N.shiftr v 18) 63))
      (String (encodeURLChar (N.land (N.shiftr v 12) 63))
      (String (encodeURLChar (N.land (N.shiftr v 6) 63))
      (String (encodeURLChar (N.land v 63))
      (EncodeToString rest))))
  end.

End base64.

(** ** Package main: data *)

(** The configuration half of [KeyManager], as [main()] fills it. *)
Record KeyManager : Type := mkKeyManager {
  keyNamespace : string;
  secretSelectorLabel : string;
  secretSelectorValue : string;
  gatewayName : string;
  gatewayNamespace : string;
  enablePolicyMgmt : bool;
  defaultTeamTier : string
}.

(** [km.policyEngine]: [main()] allocates the engine exactly when policy
    management is enabled, from the manager's own fields; otherwise the
    pointer stays nil. *)
Definition newPolicyEngine (km : KeyManager) : policies.PolicyEngine :=
  {| policies.Namespace := keyNamespace km;
     policies.GatewayName := gatewayName km;
     policies.GatewayNamespace := gatewayNamespace km |}.

Definition policyEngine (km : KeyManager) : option policies.PolicyEngine :=
  if enablePolicyMgmt km then Some (newPolicyEngine km) else None.

Module CreateTeamRequest.
Record t : Type := mk {
  TeamID : string;
  TeamName : string;
  Description : string;
  DefaultTier : string;
  TokenLimit : Z;
  RequestLimit : Z;
  TimeWindow : string
}.
Definition withDefaultTier (req : t) (tier : string) : t :=
  {| TeamID := TeamID req; TeamName := TeamName req; Description := Description req;
     DefaultTier := tier; TokenLimit := TokenLimit req;
     RequestLimit := RequestLimit req; TimeWindow := TimeWindow req |}.
End CreateTeamRequest.

(** A JSON value of a [gin.H] / [map[string]interface{}] response. *)
Inductive Value : Type :=
| VString (s : string)
| VInt (n : Z)
| VBool (b : bool)
| VStrings (l : list string).

Definition H : Type := list (string * Value).

Module CreateTeamResponse.
Record t : Type := mk {
  TeamID : string;
  TeamName : string;
  DefaultTier : string;
  PoliciesApplied : bool;
  InheritedLimits : H
}.
End CreateTeamResponse.

Module TeamMember.
Record t : Type := mk {
  UserID : string;
  UserEmail : string;
  Role : string;
  TeamID : string;
  TeamName : string;
  Tier : string;
  DefaultModels : list string;
  JoinedAt : string;
  TokenLimit : Z;
  RequestLimit : Z;
  TimeWindow : string
}.
End TeamMember.

Module CreateTeamKeyRequest.
(** [CustomLimits] is the [custom_limits] object as [json.Marshal] renders
    it, [None] when the map is nil or empty. *)
Record t : Type := mk {
  UserID : string;
  Alias : string;
  Models : list string;
  InheritTeamLimits : bool;
  TokenLimit : Z;
  RequestLimit : Z;
  TimeWindow : string;
  CustomLimits : option string
}.
End CreateTeamKeyRequest.

Module CreateTeamKeyResponse.
Record t : Type := mk {
  APIKey : string;
  UserID : string;
  TeamID : string;
  SecretName : string;
  ModelsAllowed : list string;
  Tier : string;
  TokenLimit : Z;
  RequestLimit : Z;
  TimeWindow : string;
  InheritedPolicies : H;
  CustomConstraints : option string
}.
End CreateTeamKeyResponse.

Module DeleteKeyRequest.
Record t : Type := mk { Key : string }.
End DeleteKeyRequest.

(** What a handler writes with [c.JSON(status, body)]. *)
Inductive Body : Type :=
| ErrorBody (msg : string)
| TeamCreated (r : CreateTeamResponse.t)
| KeyCreated (r : CreateTeamKeyResponse.t)
| Fields (h : H).

Record Response : Type := mkResponse { status : Z; body : Body }.

Definition StatusOK : Z := 200.
Definition StatusBadRequest : Z := 400.
Definition StatusForbidden : Z := 403.
Definition StatusNotFound : Z := 404.
Definition StatusConflict : Z := 409.
Definition StatusInternalServerError : Z := 500.
Definition StatusNotImplemented : Z := 501.

Definition JSON (code : Z) (b : Body) : M Response :=
  ret {| status := code; body := b |}.

(** The outcome of [c.ShouldBindJSON(&req)], which is gin's: the decoded
    struct, or the decoding or validation error. *)
Inductive Bound (A : Type) : Type :=
| BindOk (req : A)
| BindErr (err : error).
Arguments BindOk {A} req.
Arguments BindErr {A} err.

(** ** Package main: helpers *)

Definition isLowerAlnum (c : ascii) : bool :=
  let n := nat_of_ascii c in
  ((97 <=? n) && (n <=? 122) || (48 <=? n) && (n <=? 57))%nat.

Definition isHyphen (c : ascii) : bool := (nat_of_ascii c =? 45)%nat.

(** isValidUserID validates user ID according to Kubernetes RFC 1123
    subdomain rules: 1-63 bytes matching
    [^[a-z0-9]([a-z0-9-]*[a-z0-9])?$]. *)
Definition isValidUserID (userID : string) : bool :=
  let cs := list_ascii_of_string userID in
  if ((length cs =? 0) || (63 <? length cs))%nat then false
  else
    match cs with
    | [] => false
    | c :: rest =>
        isLowerAlnum c &&
        match rest with
        | [] => true
        | _ => forallb (fun x => isLowerAlnum x || isHyphen x) rest
               && isLowerAlnum (List.last rest c)
        end
    end.

(** isValidTeamID validates team ID using same rules as user ID. *)
Definition isValidTeamID (teamID : string) : bool := isValidUserID teamID.

(** Get available tiers from policy templates or hardcoded defaults. *)
Definition getAvailableTiers (km : KeyManager) : list string :=
  let hardcodedTiers := ["free"; "standard"; "premium"; "unlimited"] in
  if negb (enablePolicyMgmt km) then hardcodedTiers else hardcodedTiers.

(** [fmt.Sprintf("%v", []string{...})]. *)
Definition Sprintf_v (l : list string) : string :=
  "[" +:+ strings_Join l " " +:+ "]".

Definition teamConfigName (teamID : string) : string :=
  "team-" +:+ teamID +:+ "-config".

(** [fmt.Sscanf(s, "%d", &x)]: optional sign, then the longest run of
    decimal digits (at least one); what follows is left unread.  [None]
    when nothing is scanned, in which case the caller's variable keeps its
    value.  The model covers the annotations the engine writes with
    [Sprintf_d]: fmt also skips leading blanks and rejects a number that
    does not fit 64 bits, which no such annotation has. *)
Definition digitOf (c : ascii) : option Z :=
  let n := nat_of_ascii c in
  if ((48 <=? n) && (n <=? 57))%nat then Some (Z.of_nat n - 48) else None.

Fixpoint scanDigits (cs : list ascii) (acc : option Z) : option Z :=
  match cs with
  | [] => acc
  | c :: rest =>
      match digitOf c with
      | Some d => scanDigits rest (Some (10 * default 0 acc + d))
      | None => acc
      end
  end.

Definition Sscanf_d (s : string) : option Z :=
  match list_ascii_of_string s with
  | c :: rest =>
      if (nat_of_ascii c =? 45)%nat then Z.opp <$> scanDigits rest None
      else if (nat_of_ascii c =? 43)%nat then scanDigits rest None
      else scanDigits (c :: rest) None
  | [] => None
  end.

(** [base64.URLEncoding.EncodeToString(src)], which allocates the buffer
    of the encoding, [EncodedLen(len(src))] bytes long. *)
Definition URLEncoding_EncodeToString (src : list byte) : M string :=
  let* _ := make_bytes (4 * ((Z.of_nat (List.length src) + 2) / 3)) in
  ret (base64.EncodeToString src).

(** [generateSecureToken]. *)
Definition generateSecureToken (length : Z) : M (string + error) :=
  let* _ := make_bytes length in
  let* r := rand_Read (Z.to_nat length) in
  match r with
  | inr err => ret (inr err)
  | inl bytes =>
      let* encoded := URLEncoding_EncodeToString bytes in
      match slice_to encoded length with
      | Some token => ret (inl token)
      | None => panic "slice bounds out of range"
      end
  end.

(** ** Package main: the lifecycle engine *)

Section Engine.

(** [fuel] bounds the depth of calls to [policies.GetTierLimits]; [env] is
    the process environment read by [os.Getenv]. *)
Variable fuel : nat.
Variable env : Environ.

Definition GetTierLimits (tier : string) : M policies.TierLimits :=
  lift (policies.GetTierLimits fuel env tier).

(** Get tier limits for response. *)
Definition getTierLimits (km : KeyManager) (tier : string) : M H :=
  if negb (enablePolicyMgmt km) then ret [("tier", VString tier)]
  else
    let* limits := GetTierLimits tier in
    ret [ ("tier", VString tier);
          ("token_limit_per_hour", VInt (policies.TokenLimitPerHour limits));
          ("token_limit_per_day", VInt (policies.TokenLimitPerDay limits));
          ("token_limit", VInt (policies.TokenLimit limits));
          ("request_limit", VInt (policies.RequestLimit limits));
          ("token_window", VString (policies.TokenWindow limits));
          ("request_window", VString (policies.RequestWindow limits));
          ("models_allowed", VStrings (policies.ModelsAllowed limits));
          ("max_concurrent_requests", VInt (policies.MaxConcurrentRequests limits)) ].

(** Validate team creation request.  The request is passed by pointer and
    its [DefaultTier] may be filled in: the possibly updated request is
    returned with the error. *)
Definition validateTeamRequest (km : KeyManager) (req : CreateTeamRequest.t)
    : CreateTeamRequest.t * option error :=
  if negb (isValidTeamID (CreateTeamRequest.TeamID req)) then
    (req, Some (errorString "team_id must contain only lowercase alphanumeric characters and hyphens, start and end with alphanumeric character, and be 1-63 characters long"))
  else if decide (CreateTeamRequest.TeamName req = EmptyString) then
    (req, Some (errorString "team_name is required"))
  else
    let req :=
      if decide (CreateTeamRequest.DefaultTier req = EmptyString)
      then CreateTeamRequest.withDefaultTier req (getEnvOrDefault env "DEFAULT_TIER" "standard")
      else req in
    if enablePolicyMgmt km then
      let availableTiers := getAvailableTiers km in
      let validTier :=
        existsb (fun tier => bool_decide (tier = CreateTeamRequest.DefaultTier req))
                availableTiers in
      if negb validTier then
        (req, Some (errorString ("invalid tier: " +:+ CreateTeamRequest.DefaultTier req
                                 +:+ ". Available tiers: " +:+ Sprintf_v availableTiers)))
      else (req, None)
    else (req, None).

(** Create team configuration secret. *)
Definition teamConfigSecret (req : CreateTeamRequest.t) (now : string) : Secret :=
  {| secretName := teamConfigName (CreateTeamRequest.TeamID req);
     secretLabels :=
       {[ "maas/resource-type" := "team-config";
          "maas/team-id" := CreateTeamRequest.TeamID req;
          "maas/tier" := CreateTeamRequest.DefaultTier req ]};
     secretAnnotations :=
       list_to_map
         [ ("maas/team-name", CreateTeamRequest.TeamName req);
           ("maas/description", CreateTeamRequest.Description req);
           ("maas/default-tier", CreateTeamRequest.DefaultTier req);
           ("maas/token-limit", Sprintf_d (CreateTeamRequest.TokenLimit req));
           ("maas/request-limit", Sprintf_d (CreateTeamRequest.RequestLimit req));
           ("maas/time-window", CreateTeamRequest.TimeWindow req);
           ("maas/created-at", now) ];
     secretStringData :=
       {[ "team_id" := CreateTeamRequest.TeamID req; "team_config" := "active" ]} |}.

Definition createTeamConfigSecret (km : KeyManager) (req : CreateTeamRequest.t)
    : M (Secret + error) :=
  let* now := time_Now_RFC3339 in
  Secrets_Create (teamConfigSecret req now).

(** "Override with custom limits if provided": the three [if] statements
    that createTeam and createTeamInternal both run on the tier limits. *)
Definition overrideLimits (req : CreateTeamRequest.t) (limits : policies.TierLimits)
    : policies.TierLimits :=
  let limits :=
    if 0 <? CreateTeamRequest.TokenLimit req
    then {| policies.TokenLimit := CreateTeamRequest.TokenLimit req;
            policies.TokenWindow := policies.TokenWindow limits;
            policies.RequestLimit := policies.RequestLimit limits;
            policies.RequestWindow := policies.RequestWindow limits;
            policies.ModelsAllowed := policies.ModelsAllowed limits;
            policies.TokenLimitPerHour := policies.TokenLimitPerHour limits;
            policies.TokenLimitPerDay := policies.TokenLimitPerDay limits;
            policies.MaxConcurrentRequests := policies.MaxConcurrentRequests limits |}
    else limits in
  let limits :=
    if 0 <? CreateTeamRequest.RequestLimit req
    then {| policies.TokenLimit := policies.TokenLimit limits;
            policies.TokenWindow := policies.TokenWindow limits;
            policies.RequestLimit := CreateTeamRequest.RequestLimit req;
            policies.RequestWindow := policies.RequestWindow limits;
            policies.ModelsAllowed := policies.ModelsAllowed limits;
            policies.TokenLimitPerHour := policies.TokenLimitPerHour limits;
            policies.TokenLimitPerDay := policies.TokenLimitPerDay limits;
            policies.MaxConcurrentRequests := policies.MaxConcurrentRequests limits |}
    else limits in
  if decide (CreateTeamRequest.TimeWindow req <> EmptyString)
  then {| policies.TokenLimit := policies.TokenLimit limits;
          policies.TokenWindow := CreateTeamRequest.TimeWindow req;
          policies.RequestLimit := policies.RequestLimit limits;
          policies.RequestWindow := CreateTeamRequest.TimeWindow req;
          policies.ModelsAllowed := policies.ModelsAllowed limits;
          policies.TokenLimitPerHour := policies.TokenLimitPerHour limits;
          policies.TokenLimitPerDay := policies.TokenLimitPerDay limits;
          policies.MaxConcurrentRequests := policies.MaxConcurrentRequests limits |}
  else limits.

(** The limits createTeam and createTeamInternal hand to the publisher. *)
Definition teamLimits (req : CreateTeamRequest.t) : M policies.TierLimits :=
  let* limits := GetTierLimits (CreateTeamRequest.DefaultTier req) in
  ret (overrideLimits req limits).

Definition nilPolicyEngine {A : Type} : M A :=
  panic "invalid memory address or nil pointer dereference".

(** Internal team creation logic (without HTTP context). *)
Definition createTeamInternal (km : KeyManager) (req : CreateTeamRequest.t)
    : M (option error) :=
  let (req, verr) := validateTeamRequest km req in
  match verr with
  | Some err => ret (Some (wrapError "team validation failed: " err))
  | None =>
      let* existing := Secrets_Get (teamConfigName (CreateTeamRequest.TeamID req)) in
      match existing with
      | inl _ =>
          ret (Some (errorString ("team " +:+ CreateTeamRequest.TeamID req +:+ " already exists")))
      | inr _ =>
          let* created := createTeamConfigSecret km req in
          match created with
          | inr err => ret (Some (wrapError "failed to create team secret: " err))
          | inl teamSecret =>
              match enablePolicyMgmt km, policyEngine km with
              | true, Some pe =>
                  let* limits := teamLimits req in
                  let* perr :=
                    policies.CreateTeamRateLimitPolicies pe (CreateTeamRequest.TeamID req) limits in
                  match perr with
                  | Some err =>
                      let* _ := Secrets_Delete (secretName teamSecret) in
                      ret (Some (wrapError "failed to apply team policies: " err))
                  | None => ret None
                  end
              | _, _ => ret None
              end
          end
      end
  end.

(** Create team endpoint. *)
Definition createTeam (km : KeyManager) (bound : Bound CreateTeamRequest.t) : M Response :=
  match bound with
  | BindErr err => JSON StatusBadRequest (ErrorBody (Error err))
  | BindOk req =>
      let (req, verr) := validateTeamRequest km req in
      match verr with
      | Some err => JSON StatusBadRequest (ErrorBody (Error err))
      | None =>
          let* existing := Secrets_Get (teamConfigName (CreateTeamRequest.TeamID req)) in
          match existing with
          | inl _ => JSON StatusConflict (ErrorBody "Team already exists")
          | inr _ =>
              let* created := createTeamConfigSecret km req in
              match created with
              | inr _ => JSON StatusInternalServerError (ErrorBody "Failed to create team")
              | inl teamSecret =>
                  let respond : M Response :=
                    let* inheritedLimits := getTierLimits km (CreateTeamRequest.DefaultTier req) in
                    JSON StatusOK (TeamCreated
                      {| CreateTeamResponse.TeamID := CreateTeamRequest.TeamID req;
                         CreateTeamResponse.TeamName := CreateTeamRequest.TeamName req;
                         CreateTeamResponse.DefaultTier := CreateTeamRequest.DefaultTier req;
                         CreateTeamResponse.PoliciesApplied := enablePolicyMgmt km;
                         CreateTeamResponse.InheritedLimits := inheritedLimits |}) in
                  if enablePolicyMgmt km then
                    let* limits := teamLimits req in
                    match policyEngine km with
                    | None => nilPolicyEngine
                    | Some pe =>
                        let* perr :=
                          policies.CreateTeamRateLimitPolicies pe (CreateTeamRequest.TeamID req) limits in
                        match perr with
                        | Some _ =>
                            let* _ := Secrets_Delete (secretName teamSecret) in
                            JSON StatusInternalServerError (ErrorBody "Failed to apply team policies")
                        | None => respond
                        end
                    end
                  else respond
              end
          end
      end
  end.

(** The label selector [deleteAllTeamKeys] and the listing helpers spell:
    "kuadrant.io/apikeys-by=rhcl-keys,maas/team-id=%s". *)
Definition teamKeysSelector (teamID : string) : Selector :=
  [ ("kuadrant.io/apikeys-by", "rhcl-keys"); ("maas/team-id", teamID) ].

Definition deleteAllTeamKeys (km : KeyManager) (teamID : string) : M (option error) :=
  let* r := Secrets_DeleteCollection (teamKeysSelector teamID) in
  match r with
  | inr err => ret (Some err)
  | inl _ => ret None
  end.

(** Delete team endpoint. *)
Definition deleteTeam (km : KeyManager) (teamID : string) : M Response :=
  let* got := Secrets_Get (teamConfigName teamID) in
  match got with
  | inr _ => JSON StatusNotFound (ErrorBody "Team not found")
  | inl teamSecret =>
      let* _ :=
        if enablePolicyMgmt km then
          match policyEngine km with
          | None => nilPolicyEngine
          | Some pe => policies.DeleteTeamPolicies pe teamID
          end
        else ret None in
      let* _ := deleteAllTeamKeys km teamID in
      let* d := Secrets_Delete (secretName teamSecret) in
      match d with
      | inr _ => JSON StatusInternalServerError (ErrorBody "Failed to delete team")
      | inl _ =>
          JSON StatusOK (Fields [ ("message", VString "Team deleted successfully");
                                  ("team_id", VString teamID) ])
      end
  end.

(** Sync team policies with updated defaults.  [bound] is the outcome of
    binding the request body to a [map[string]interface{}]. *)
Definition syncTeamPolicies (km : KeyManager) (teamID : string) (bound : Bound H)
    : M Response :=
  if negb (enablePolicyMgmt km) then
    JSON StatusNotImplemented (ErrorBody "Policy management is disabled")
  else
    match bound with
    | BindErr err => JSON StatusBadRequest (ErrorBody (Error err))
    | BindOk _ =>
        let* got := Secrets_Get (teamConfigName teamID) in
        match got with
        | inr _ => JSON StatusNotFound (ErrorBody "Team not found")
        | inl teamSecret =>
            let tier := default EmptyString (secretAnnotations teamSecret !! "maas/default-tier") in
            let* limits := GetTierLimits tier in
            match policyEngine km with
            | None => nilPolicyEngine
            | Some pe =>
                let* perr := policies.CreateTeamRateLimitPolicies pe teamID limits in
                match perr with
                | Some _ =>
                    JSON StatusInternalServerError (ErrorBody "Failed to sync team policies")
                | None =>
                    let* now := time_Now_RFC3339 in
                    JSON StatusOK (Fields [ ("message", VString "Team policies synchronized successfully");
                                            ("team_id", VString teamID);
                                            ("tier", VString tier);
                                            ("synced_at", VString now) ])
                end
            end
        end
    end.

(** The label selector of validateTeamMembershipFromAPIKey:
    "kuadrant.io/apikeys-by=rhcl-keys,maas/team-id=%s,maas/user-id=%s". *)
Definition membershipSelector (teamID userID : string) : Selector :=
  [ ("kuadrant.io/apikeys-by", "rhcl-keys"); ("maas/team-id", teamID);
    ("maas/user-id", userID) ].

Definition annotation (s : Secret) (key : string) : string :=
  default EmptyString (secretAnnotations s !! key).

Definition label (s : Secret) (key : string) : string :=
  default EmptyString (secretLabels s !! key).

(** The value [fmt.Sscanf(annotation, "%d", &field)] leaves in a field
    that starts at zero, when the annotation exists. *)
Definition scannedLimit (s : Secret) (key : string) : Z :=
  match secretAnnotations s !! key with
  | Some str => default 0 (Sscanf_d str)
  | None => 0
  end.

(** Validate team membership from existing API key (for non-default teams). *)
Definition validateTeamMembershipFromAPIKey (km : KeyManager) (teamID userID : string)
    : M (TeamMember.t + error) :=
  let* listed := Secrets_List (membershipSelector teamID userID) in
  match listed with
  | inr err => ret (inr (wrapError "failed to check user membership: " err))
  | inl items =>
      match items with
      | [] =>
          ret (inr (errorString ("user " +:+ userID +:+ " is not a member of team " +:+ teamID)))
      | secret :: _ =>
          let tier := label secret "maas/tier" in
          let* defaultModels :=
            if enablePolicyMgmt km then
              let* limits := GetTierLimits tier in
              ret (policies.ModelsAllowed limits)
            else ret [] in
          ret (inl {| TeamMember.UserID := userID;
                      TeamMember.UserEmail := annotation secret "maas/user-email";
                      TeamMember.Role := label secret "maas/team-role";
                      TeamMember.TeamID := teamID;
                      TeamMember.TeamName := annotation secret "maas/team-name";
                      TeamMember.Tier := tier;
                      TeamMember.DefaultModels := defaultModels;
                      TeamMember.JoinedAt := EmptyString;
                      TeamMember.TokenLimit := scannedLimit secret "maas/token-limit";
                      TeamMember.RequestLimit := scannedLimit secret "maas/request-limit";
                      TeamMember.TimeWindow :=
                        match secretAnnotations secret !! "maas/time-window" with
                        | Some timeWindow => timeWindow
                        | None => EmptyString
                        end |})
      end
  end.

(** The lookup fingerprint: [keyHash[:32]] of the hex SHA-256 of the key. *)
Definition fingerprint (apiKey : string) : option string :=
  slice_to (sha256.hexSum apiKey) 32.

(** Create enhanced API key secret with team context. *)
Definition createEnhancedKeySecret (km : KeyManager) (teamID : string)
    (req : CreateTeamKeyRequest.t) (apiKey : string) (teamMember : TeamMember.t)
    : M (Secret + error) :=
  let keyHash := sha256.hexSum apiKey in
  match slice_to keyHash 8, fingerprint apiKey with
  | Some hash8, Some hash32 =>
      let secretName :=
        "apikey-" +:+ CreateTeamKeyRequest.UserID req +:+ "-" +:+ teamID +:+ "-" +:+ hash8 in
      let modelsAllowed := strings_Join (CreateTeamKeyRequest.Models req) "," in
      let modelsAllowed :=
        if decide (modelsAllowed = EmptyString)
        then strings_Join (TeamMember.DefaultModels teamMember) ","
        else modelsAllowed in
      let tokenLimit :=
        if decide (CreateTeamKeyRequest.TokenLimit req = 0)
        then TeamMember.TokenLimit teamMember else CreateTeamKeyRequest.TokenLimit req in
      let requestLimit :=
        if decide (CreateTeamKeyRequest.RequestLimit req = 0)
        then TeamMember.RequestLimit teamMember else CreateTeamKeyRequest.RequestLimit req in
      let timeWindow :=
        if decide (CreateTeamKeyRequest.TimeWindow req = EmptyString)
        then TeamMember.TimeWindow teamMember else CreateTeamKeyRequest.TimeWindow req in
      let* now := time_Now_RFC3339 in
      let annotations : gmap string string :=
        list_to_map
          [ ("maas/team-name", TeamMember.TeamName teamMember);
            ("maas/user-email", TeamMember.UserEmail teamMember);
            ("maas/token-limit", Sprintf_d tokenLimit);
            ("maas/request-limit", Sprintf_d requestLimit);
            ("maas/time-window", timeWindow);
            ("maas/models-allowed", modelsAllowed);
            ("maas/tier", TeamMember.Tier teamMember);
            ("maas/created-at", now);
            ("maas/status", "active");
            ("kuadrant.io/groups",
             "team-" +:+ teamID +:+ ",tier-" +:+ TeamMember.Tier teamMember) ] in
      let annotations :=
        if decide (CreateTeamKeyRequest.Alias req <> EmptyString)
        then <["maas/alias" := CreateTeamKeyRequest.Alias req]> annotations
        else annotations in
      let annotations :=
        match CreateTeamKeyRequest.CustomLimits req with
        | Some customLimitsJSON => <["maas/custom-limits" := customLimitsJSON]> annotations
        | None => annotations
        end in
      Secrets_Create
        {| secretName := secretName;
           secretLabels :=
             list_to_map
               [ ("authorino.kuadrant.io/managed-by", "authorino");
                 ("kuadrant.io/apikeys-by", secretSelectorValue km);
                 ("maas/user-id", CreateTeamKeyRequest.UserID req);
                 ("maas/team-id", teamID);
                 ("maas/team-role", TeamMember.Role teamMember);
                 ("maas/key-sha256", hash32);
                 ("maas/tier", TeamMember.Tier teamMember);
                 ("maas/resource-type", "team-key") ];
           secretAnnotations := annotations;
           secretStringData := {[ "api_key" := apiKey ]} |}
  | _, _ => panic "slice bounds out of range"
  end.

(** Build inherited policies response. *)
Definition buildInheritedPolicies (km : KeyManager) (teamMember : TeamMember.t) : M H :=
  if negb (enablePolicyMgmt km) then
    ret [ ("tier", VString (TeamMember.Tier teamMember));
          ("team_id", VString (TeamMember.TeamID teamMember)) ]
  else
    let* limits := GetTierLimits (TeamMember.Tier teamMember) in
    ret [ ("tier", VString (TeamMember.Tier teamMember));
          ("team_id", VString (TeamMember.TeamID teamMember));
          ("team_hourly_limit", VInt (policies.TokenLimitPerHour limits));
          ("user_hourly_limit", VInt (Z.quot (policies.TokenLimitPerHour limits) 4));
          ("models_allowed", VStrings (policies.ModelsAllowed limits));
          ("budget_enforcement", VBool true);
          ("max_concurrent_requests", VInt (policies.MaxConcurrentRequests limits)) ].

(** The membership createTeamKey synthesizes for the default team. *)
Definition defaultTeamMember (km : KeyManager) (teamID userID : string)
    : M TeamMember.t :=
  let userEmail := userID +:+ "@default.local" in
  let* limits := GetTierLimits (defaultTeamTier km) in
  ret {| TeamMember.UserID := userID;
         TeamMember.UserEmail := userEmail;
         TeamMember.Role := "member";
         TeamMember.TeamID := teamID;
         TeamMember.TeamName := "Default Team";
         TeamMember.Tier := defaultTeamTier km;
         TeamMember.DefaultModels := policies.ModelsAllowed limits;
         TeamMember.JoinedAt := EmptyString;
         TeamMember.TokenLimit := policies.TokenLimit limits;
         TeamMember.RequestLimit := policies.RequestLimit limits;
         TeamMember.TimeWindow := policies.TokenWindow limits |}.

(** The part of createTeamKey after the membership decision. *)
Definition issueTeamKey (km : KeyManager) (teamID : string)
    (req : CreateTeamKeyRequest.t) (teamMember : TeamMember.t) : M Response :=
  let* generated := generateSecureToken 48 in
  match generated with
  | inr _ => JSON StatusInternalServerError (ErrorBody "Failed to generate API key")
  | inl apiKey =>
      let* created := createEnhancedKeySecret km teamID req apiKey teamMember in
      match created with
      | inr err =>
          if strings_Contains (Error err) "already has an active API key"
          then JSON StatusConflict (ErrorBody (Error err))
          else JSON StatusInternalServerError (ErrorBody "Failed to create API key")
      | inl keySecret =>
          let modelsAllowed :=
            match CreateTeamKeyRequest.Models req with
            | [] => TeamMember.DefaultModels teamMember
            | models => models
            end in
          let* inheritedPolicies := buildInheritedPolicies km teamMember in
          JSON StatusOK (KeyCreated
            {| CreateTeamKeyResponse.APIKey := apiKey;
               CreateTeamKeyResponse.UserID := CreateTeamKeyRequest.UserID req;
               CreateTeamKeyResponse.TeamID := teamID;
               CreateTeamKeyResponse.SecretName := secretName keySecret;
               CreateTeamKeyResponse.ModelsAllowed := modelsAllowed;
               CreateTeamKeyResponse.Tier := TeamMember.Tier teamMember;
               CreateTeamKeyResponse.TokenLimit := TeamMember.TokenLimit teamMember;
               CreateTeamKeyResponse.RequestLimit := TeamMember.RequestLimit teamMember;
               CreateTeamKeyResponse.TimeWindow := TeamMember.TimeWindow teamMember;
               CreateTeamKeyResponse.InheritedPolicies := inheritedPolicies;
               CreateTeamKeyResponse.CustomConstraints := CreateTeamKeyRequest.CustomLimits req |})
      end
  end.

(** Create team-scoped API key. *)
Definition createTeamKey (km : KeyManager) (teamID : string)
    (bound : Bound CreateTeamKeyRequest.t) : M Response :=
  match bound with
  | BindErr err => JSON StatusBadRequest (ErrorBody (Error err))
  | BindOk req =>
      let* got := Secrets_Get (teamConfigName teamID) in
      match got with
      | inr _ => JSON StatusNotFound (ErrorBody "Team not found")
      | inl _ =>
          if decide (teamID = "default") then
            let* teamMember := defaultTeamMember km teamID (CreateTeamKeyRequest.UserID req) in
            issueTeamKey km teamID req teamMember
          else
            let* validated :=
              validateTeamMembershipFromAPIKey km teamID (CreateTeamKeyRequest.UserID req) in
            match validated with
            | inr _ => JSON StatusForbidden (ErrorBody "User is not a member of this team")
            | inl teamMember => issueTeamKey km teamID req teamMember
            end
      end
  end.

(** [deleteKey]: delete an API key by the presented secret. *)
Definition deleteKey (km : KeyManager) (bound : Bound DeleteKeyRequest.t) : M Response :=
  match bound with
  | BindErr err => JSON StatusBadRequest (ErrorBody (Error err))
  | BindOk req =>
      match fingerprint (DeleteKeyRequest.Key req) with
      | None => panic "slice bounds out of range"
      | Some hash32 =>
          let* listed := Secrets_List [ ("maas/key-sha256", hash32) ] in
          match listed with
          | inr _ => JSON StatusInternalServerError (ErrorBody "Failed to find API key")
          | inl [] => JSON StatusNotFound (ErrorBody "API key not found")
          | inl (item :: _) =>
              let secretName := secretName item in
              let* d := Secrets_Delete secretName in
              match d with
              | inr _ => JSON StatusInternalServerError (ErrorBody "Failed to delete API key")
              | inl _ =>
                  JSON StatusOK (Fields [ ("message", VString "API key deleted successfully");
                                          ("secret_name", VString secretName) ])
              end
          end
      end
  end.

End Engine.

(** ** Package main: the remaining endpoints *)

Module GenerateKeyRequest.
Record t : Type := mk { UserID : string }.
End GenerateKeyRequest.

Module AddUserToTeamRequest.
Record t : Type := mk {
  UserEmail : string;
  Role : string;
  TokenLimit : Z;
  RequestLimit : Z;
  TimeWindow : string
}.
End AddUserToTeamRequest.

Module GetTeamResponse.
Record t : Type := mk {
  TeamID : string;
  TeamName : string;
  Description : string;
  DefaultTier : string;
  Members : list TeamMember.t;
  Keys : list string;
  CreatedAt : string
}.
End GetTeamResponse.

Module ValidationTest.
Record t : Type := mk {
  Name : string;
  Status : bool;
  Message : string
}.
End ValidationTest.

(** [Timestamp] is a [time.Time]; the model keeps a time as its RFC 3339
    rendering. *)
Module PolicyValidationResult.
Record t : Type := mk {
  TeamID : string;
  Timestamp : string;
  OverallStatus : bool;
  Tests : list ValidationTest.t
}.
End PolicyValidationResult.

(** A Go [interface{}] value, with the dynamic types the handlers below
    put into their responses. *)
#[local] Unset Elimination Schemes.
Inductive Any : Type :=
| AString (s : string)
| AInt (n : Z)
| ABool (b : bool)
| AStrings (l : list string)
| AMembers (l : list TeamMember.t)
| AMap (m : list (string * Any))
| AMaps (l : list (list (string * Any)))
| ATeam (r : GetTeamResponse.t)
| AValidation (r : PolicyValidationResult.t).
#[local] Set Elimination Schemes.

(** What [c.JSON(code, obj)] writes, for an [obj] of any type. *)
Record Reply : Type := mkReply { code : Z; obj : Any }.

Definition c_JSON (code : Z) (obj : Any) : M Reply :=
  ret {| code := code; obj := obj |}.

(** [gin.H{"error": msg}]. *)
Definition errorH (msg : string) : Any := AMap [ ("error", AString msg) ].

Definition StatusUnauthorized : Z := 401.

(** [strings.HasPrefix] and [strings.TrimPrefix]. *)
Definition strings_HasPrefix (s prefix : string) : bool := String.prefix prefix s.

Definition strings_TrimPrefix (s prefix : string) : string :=
  if strings_HasPrefix s prefix
  then String.substring (String.length prefix) (String.length s - String.length prefix) s
  else s.

(** The outcome of a gin middleware: [c.Next()], or a response followed by
    [c.Abort()]. *)
Inductive Middleware : Type :=
| Next
| Abort (r : Response).

Section Endpoints.

Variable fuel : nat.
Variable env : Environ.

(** The order in which [for _, member := range memberMap] visits a map:
    Go leaves it unspecified, so it is a parameter (any enumeration of the
    map's values, see [mapIteration]). *)
Variable rangeMembers : gmap string TeamMember.t -> list TeamMember.t.

(** requireAdminAuth middleware to protect admin endpoints.  [authHeader]
    is [c.GetHeader("Authorization")], empty when the header is absent. *)
Definition requireAdminAuth (km : KeyManager) (authHeader : string) : Middleware :=
  let adminKey := getEnvOrDefault env "ADMIN_API_KEY" EmptyString in
  if decide (adminKey = EmptyString) then Next
  else if decide (authHeader = EmptyString) then
    Abort {| status := StatusUnauthorized; body := ErrorBody "Authorization header required" |}
  else
    let provided :=
      if strings_HasPrefix authHeader "Bearer "
      then Some (strings_TrimPrefix authHeader "Bearer ")
      else if strings_HasPrefix authHeader "ADMIN "
      then Some (strings_TrimPrefix authHeader "ADMIN ")
      else None in
    match provided with
    | None =>
        Abort {| status := StatusUnauthorized;
                 body := ErrorBody "Invalid authorization format. Use: Authorization: ADMIN <key>" |}
    | Some providedKey =>
        if decide (providedKey <> adminKey) then
          Abort {| status := StatusUnauthorized; body := ErrorBody "Invalid admin key" |}
        else Next
    end.

(** Create default team on startup if it doesn't exist. *)
Definition createDefaultTeamOnStartup (km : KeyManager) : M (option error) :=
  let teamID := "default" in
  let secretName := teamConfigName teamID in
  let* got := Secrets_Get secretName in
  match got with
  | inl _ => ret None
  | inr _ =>
      let defaultTier := defaultTeamTier km in
      let defaultTier :=
        if decide (defaultTier = EmptyString)
        then getEnvOrDefault env "DEFAULT_TIER" "standard"
        else defaultTier in
      let req :=
        {| CreateTeamRequest.TeamID := teamID;
           CreateTeamRequest.TeamName := "Default Team";
           CreateTeamRequest.Description :=
             "Default team for simple MaaS deployments - users without team assignment";
           CreateTeamRequest.DefaultTier := defaultTier;
           CreateTeamRequest.TokenLimit := 0;
           CreateTeamRequest.RequestLimit := 0;
           CreateTeamRequest.TimeWindow := EmptyString |} in
      createTeamInternal fuel env km req
  end.

(** The part of createTeamKeyInternal after the membership decision. *)
Definition issueTeamKeyInternal (km : KeyManager) (teamID : string)
    (req : CreateTeamKeyRequest.t) (teamMember : TeamMember.t)
    : M (CreateTeamKeyResponse.t + error) :=
  let* generated := generateSecureToken 48 in
  match generated with
  | inr err => ret (inr (wrapError "failed to generate API key: " err))
  | inl apiKey =>
      let* created := createEnhancedKeySecret km teamID req apiKey teamMember in
      match created with
      | inr err => ret (inr (wrapError "failed to create key secret: " err))
      | inl keySecret =>
          let modelsAllowed :=
            match CreateTeamKeyRequest.Models req with
            | [] => TeamMember.DefaultModels teamMember
            | models => models
            end in
          let* inheritedPolicies := buildInheritedPolicies fuel env km teamMember in
          ret (inl
            {| CreateTeamKeyResponse.APIKey := apiKey;
               CreateTeamKeyResponse.UserID := CreateTeamKeyRequest.UserID req;
               CreateTeamKeyResponse.TeamID := teamID;
               CreateTeamKeyResponse.SecretName := secretName keySecret;
               CreateTeamKeyResponse.ModelsAllowed := modelsAllowed;
               CreateTeamKeyResponse.Tier := TeamMember.Tier teamMember;
               CreateTeamKeyResponse.TokenLimit := TeamMember.TokenLimit teamMember;
               CreateTeamKeyResponse.RequestLimit := TeamMember.RequestLimit teamMember;
               CreateTeamKeyResponse.TimeWindow := TeamMember.TimeWindow teamMember;
               CreateTeamKeyResponse.InheritedPolicies := inheritedPolicies;
               CreateTeamKeyResponse.CustomConstraints := CreateTeamKeyRequest.CustomLimits req |})
      end
  end.

(** Internal team key creation logic (without HTTP context). *)
Definition createTeamKeyInternal (km : KeyManager) (teamID : string)
    (req : CreateTeamKeyRequest.t) : M (CreateTeamKeyResponse.t + error) :=
  let* got := Secrets_Get (teamConfigName teamID) in
  match got with
  | inr err => ret (inr (wrapError "team not found: " err))
  | inl _ =>
      if decide (teamID = "default") then
        let* teamMember :=
          defaultTeamMember fuel env km teamID (CreateTeamKeyRequest.UserID req) in
        issueTeamKeyInternal km teamID req teamMember
      else
        let* validated :=
          validateTeamMembershipFromAPIKey fuel env km teamID (CreateTeamKeyRequest.UserID req) in
        match validated with
        | inr err => ret (inr (wrapError "user is not a member of this team: " err))
        | inl teamMember => issueTeamKeyInternal km teamID req teamMember
        end
  end.

(** The request generateKey builds for the default team. *)
Definition legacyKeyRequest (userID : string) : CreateTeamKeyRequest.t :=
  {| CreateTeamKeyRequest.UserID := userID;
     CreateTeamKeyRequest.Alias := "legacy-key";
     CreateTeamKeyRequest.Models := [];
     CreateTeamKeyRequest.InheritTeamLimits := true;
     CreateTeamKeyRequest.TokenLimit := 0;
     CreateTeamKeyRequest.RequestLimit := 0;
     CreateTeamKeyRequest.TimeWindow := EmptyString;
     CreateTeamKeyRequest.CustomLimits := None |}.

(** Legacy generateKey function (backward compatibility). *)
Definition generateKey (km : KeyManager) (bound : Bound GenerateKeyRequest.t) : M Response :=
  match bound with
  | BindErr err => JSON StatusBadRequest (ErrorBody (Error err))
  | BindOk req =>
      if negb (isValidUserID (GenerateKeyRequest.UserID req)) then
        JSON StatusBadRequest (ErrorBody "user_id must contain only lowercase alphanumeric characters and hyphens, start and end with alphanumeric character, and be 1-63 characters long")
      else
        let teamID := "default" in
        let createKeyReq := legacyKeyRequest (GenerateKeyRequest.UserID req) in
        let* r := createTeamKeyInternal km teamID createKeyReq in
        match r with
        | inr err =>
            if strings_Contains (Error err) "already has an active API key"
            then JSON StatusConflict (ErrorBody (Error err))
            else JSON StatusInternalServerError (ErrorBody "Failed to create API key")
        | inl response =>
            JSON StatusOK (Fields [ ("api_key", VString (CreateTeamKeyResponse.APIKey response));
                                    ("user_id", VString (CreateTeamKeyResponse.UserID response)) ])
        end
  end.


(** The body of the loop of getTeamMembersFromAPIKeys up to the
    deduplication: the member a key record describes. *)
Definition memberOfKey (km : KeyManager) (teamID userID : string) (secret : Secret)
    : M TeamMember.t :=
  let tier := label secret "maas/tier" in
  let* defaultModels :=
    if enablePolicyMgmt km then
      let* limits := GetTierLimits fuel env tier in
      ret (policies.ModelsAllowed limits)
    else ret [] in
  ret {| TeamMember.UserID := userID;
         TeamMember.UserEmail := annotation secret "maas/user-email";
         TeamMember.Role := label secret "maas/team-role";
         TeamMember.TeamID := teamID;
         TeamMember.TeamName := annotation secret "maas/team-name";
         TeamMember.Tier := tier;
         TeamMember.DefaultModels := defaultModels;
         TeamMember.JoinedAt := annotation secret "maas/created-at";
         TeamMember.TokenLimit := scannedLimit secret "maas/token-limit";
         TeamMember.RequestLimit := scannedLimit secret "maas/request-limit";
         TeamMember.TimeWindow :=
           match secretAnnotations secret !! "maas/time-window" with
           | Some timeWindow => timeWindow
           | None => EmptyString
           end |}.

(** The loop [for _, secret := range secrets.Items] of
    getTeamMembersFromAPIKeys, filling [memberMap]: records without a user
    label are skipped, and only the first occurrence of each user is kept. *)
Fixpoint collectMembers (km : KeyManager) (teamID : string) (items : list Secret)
    (memberMap : gmap string TeamMember.t) : M (gmap string TeamMember.t) :=
  match items with
  | [] => ret memberMap
  | secret :: rest =>
      let userID := label secret "maas/user-id" in
      if decide (userID = EmptyString) then collectMembers km teamID rest memberMap
      else
        let* member := memberOfKey km teamID userID secret in
        let memberMap :=
          match memberMap !! userID with
          | Some _ => memberMap
          | None => <[userID := member]> memberMap
          end in
        collectMembers km teamID rest memberMap
  end.

(** Get team members from API key secrets. *)
Definition getTeamMembersFromAPIKeys (km : KeyManager) (teamID : string)
    : M (list TeamMember.t + error) :=
  let* listed := Secrets_List (teamKeysSelector teamID) in
  match listed with
  | inr err => ret (inr err)
  | inl items =>
      let* memberMap := collectMembers km teamID items ∅ in
      ret (inl (rangeMembers memberMap))
  end.

Definition getTeamAPIKeys (km : KeyManager) (teamID : string) : M (list string + error) :=
  let* listed := Secrets_List (teamKeysSelector teamID) in
  match listed with
  | inr err => ret (inr err)
  | inl items => ret (inl (secretName <$> items))
  end.

Definition deleteAllUserTeamKeys (km : KeyManager) (teamID userID : string)
    : M (option error) :=
  let* r := Secrets_DeleteCollection (membershipSelector teamID userID) in
  match r with
  | inr err => ret (Some err)
  | inl _ => ret None
  end.

(** List team members endpoint. *)
Definition listTeamMembers (km : KeyManager) (teamID : string) : M Reply :=
  let* got := Secrets_Get (teamConfigName teamID) in
  match got with
  | inr _ => c_JSON StatusNotFound (errorH "Team not found")
  | inl _ =>
      let* r := getTeamMembersFromAPIKeys km teamID in
      match r with
      | inr _ => c_JSON StatusInternalServerError (errorH "Failed to get team members")
      | inl members =>
          c_JSON StatusOK (AMap [ ("team_id", AString teamID); ("members", AMembers members) ])
      end
  end.

(** Remove user from team endpoint. *)
Definition removeUserFromTeam (km : KeyManager) (teamID userID : string) : M Response :=
  let* got := Secrets_Get (teamConfigName teamID) in
  match got with
  | inr _ => JSON StatusNotFound (ErrorBody "Team not found")
  | inl _ =>
      let* err := deleteAllUserTeamKeys km teamID userID in
      match err with
      | Some _ => JSON StatusInternalServerError (ErrorBody "Failed to remove user from team")
      | None =>
          JSON StatusOK (Fields [ ("message", VString "User removed from team successfully");
                                  ("user_id", VString userID);
                                  ("team_id", VString teamID) ])
      end
  end.

(** Delete team API key. *)
Definition deleteTeamKey (km : KeyManager) (keyName : string) : M Response :=
  let* got := Secrets_Get keyName in
  match got with
  | inr _ => JSON StatusNotFound (ErrorBody "API key not found")
  | inl keySecret =>
      let teamID := label keySecret "maas/team-id" in
      if decide (teamID = EmptyString) then
        JSON StatusBadRequest (ErrorBody "API key is not associated with a team")
      else
        let* d := Secrets_Delete keyName in
        match d with
        | inr _ => JSON StatusInternalServerError (ErrorBody "Failed to delete API key")
        | inl _ =>
            JSON StatusOK (Fields [ ("message", VString "API key deleted successfully");
                                    ("key_name", VString keyName);
                                    ("team_id", VString teamID) ])
        end
  end.

(** The name getTeamPolicies reports as [rate_limit_name]. *)
Definition reportedRateLimitName (teamID : string) : string :=
  "team-" +:+ teamID +:+ "-rate-limits".

(** Get team policies. *)
Definition getTeamPolicies (km : KeyManager) (teamID : string) : M Reply :=
  if negb (enablePolicyMgmt km) then
    c_JSON StatusNotImplemented (errorH "Policy management is disabled")
  else
    let* got := Secrets_Get (teamConfigName teamID) in
    match got with
    | inr _ => c_JSON StatusNotFound (errorH "Team not found")
    | inl _ =>
        let policyName := reportedRateLimitName teamID in
        let* got := Secrets_Get (teamConfigName teamID) in
        match got with
        | inr _ => c_JSON StatusNotFound (errorH "Team not found")
        | inl teamSecret =>
            let tier := annotation teamSecret "maas/default-tier" in
            let* limits := GetTierLimits fuel env tier in
            let* now := time_Now_RFC3339 in
            c_JSON StatusOK
              (AMap [ ("team_id", AString teamID);
                      ("tier", AString tier);
                      ("auth_policy_name", AString "gateway-auth-policy");
                      ("rate_limit_name", AString policyName);
                      ("applied_at", AString now);
                      ("policy_limits",
                       AMap [ ("token_limit_per_hour", AInt (policies.TokenLimitPerHour limits));
                              ("token_limit_per_day", AInt (policies.TokenLimitPerDay limits));
                              ("token_limit", AInt (policies.TokenLimit limits));
                              ("request_limit", AInt (policies.RequestLimit limits));
                              ("token_window", AString (policies.TokenWindow limits));
                              ("request_window", AString (policies.RequestWindow limits));
                              ("models_allowed", AStrings (policies.ModelsAllowed limits));
                              ("max_concurrent_requests",
                               AInt (policies.MaxConcurrentRequests limits)) ]) ])
        end
    end.


(** The selector of listTeams: "maas/resource-type=team-config". *)
Definition teamConfigSelector : Selector := [ ("maas/resource-type", "team-config") ].

(** The entry listTeams builds for one team record. *)
Definition teamEntry (secret : Secret) : list (string * Any) :=
  [ ("team_id", AString (label secret "maas/team-id"));
    ("team_name", AString (annotation secret "maas/team-name"));
    ("description", AString (annotation secret "maas/description"));
    ("tier", AString (annotation secret "maas/default-tier"));
    ("created_at", AString (annotation secret "maas/created-at")) ].

(** List teams endpoint. *)
Definition listTeams (km : KeyManager) : M Reply :=
  let* listed := Secrets_List teamConfigSelector in
  match listed with
  | inr _ => c_JSON StatusInternalServerError (errorH "Failed to list teams")
  | inl items => c_JSON StatusOK (AMap [ ("teams", AMaps (teamEntry <$> items)) ])
  end.

(** Get team endpoint. *)
Definition getTeam (km : KeyManager) (teamID : string) : M Reply :=
  let* got := Secrets_Get (teamConfigName teamID) in
  match got with
  | inr _ => c_JSON StatusNotFound (errorH "Team not found")
  | inl teamSecret =>
      let* r := getTeamMembersFromAPIKeys km teamID in
      let members := match r with inl members => members | inr _ => [] end in
      let* r := getTeamAPIKeys km teamID in
      let keys := match r with inl keys => keys | inr _ => [] end in
      c_JSON StatusOK (ATeam
        {| GetTeamResponse.TeamID := teamID;
           GetTeamResponse.TeamName := annotation teamSecret "maas/team-name";
           GetTeamResponse.Description := annotation teamSecret "maas/description";
           GetTeamResponse.DefaultTier := annotation teamSecret "maas/default-tier";
           GetTeamResponse.Members := members;
           GetTeamResponse.Keys := keys;
           GetTeamResponse.CreatedAt := annotation teamSecret "maas/created-at" |})
  end.

End Endpoints.

(** * Vocabulary of the properties *)

(** ** Predicates over runs and worlds *)

(** A tier name is known when one of the four [case] arms handles it. *)
Definition knownTier (tier : string) : Prop := is_Some (policies.tierCase tier).

(** [returns m w Q]: run from [w], [m] returns normally, with a value and
    a world that satisfy [Q]. *)
Definition returns {A : Type} (m : M A) (w : World) (Q : A -> World -> Prop) : Prop :=
  match m w with
  | Returns (a, w') => Q a w'
  | _ => False
  end.

(** The value [m] returns from [w], if it returns. *)
Definition answer {A : Type} (m : M A) (w : World) : option A :=
  match m w with
  | Returns (a, _) => Some a
  | _ => None
  end.

(** The world [m] leaves when run from [w]. *)
Definition worldAfter {A : Type} (m : M A) (w : World) : World :=
  match m w with
  | Returns (_, w') => w'
  | _ => w
  end.

(** The calls addressed to the policy store. *)
Definition isPolicyCall (c : Call) : bool :=
  match c with
  | PolicyCreate _ _ | PolicyGet _ _ | PolicyUpdate _ _ _ _ | PolicyDelete _ _ => true
  | _ => false
  end.

(** From [w] to [w'] the policy store was neither changed nor called. *)
Definition policyStoreUntouched (w w' : World) : Prop :=
  policyObjects w' = policyObjects w
  /\ revision w' = revision w
  /\ exists calls, trace w' = trace w ++ calls
                   /\ Forall (fun c => isPolicyCall c = false) calls.

(** The two policy kinds of section 4.3 of the specification, with the
    resource, object name, limit, Go type name, manifest and publishing
    function of each. *)
Inductive PolicyKind : Type := TokenKind | RequestKind.

Definition kindGVR (kind : PolicyKind) : GroupVersionResource :=
  match kind with
  | TokenKind => policies.tokenRateLimitGVR
  | RequestKind => policies.rateLimitGVR
  end.

Definition kindPolicyName (kind : PolicyKind) (teamID : string) : string :=
  match kind with
  | TokenKind => "team-" +:+ teamID +:+ "-token-limits"
  | RequestKind => "team-" +:+ teamID +:+ "-request-limits"
  end.

Definition kindLimit (kind : PolicyKind) (limits : policies.TierLimits) : Z :=
  match kind with
  | TokenKind => policies.TokenLimit limits
  | RequestKind => policies.RequestLimit limits
  end.

Definition kindTypeName (kind : PolicyKind) : string :=
  match kind with
  | TokenKind => "TokenRateLimitPolicy"
  | RequestKind => "RateLimitPolicy"
  end.

Definition kindManifest (kind : PolicyKind) (pe : policies.PolicyEngine)
    (teamID now : string) (limits : policies.TierLimits) : Policy :=
  match kind with
  | TokenKind =>
      policies.tokenPolicyManifest pe teamID (kindPolicyName kind teamID) now limits
  | RequestKind =>
      policies.requestPolicyManifest pe teamID (kindPolicyName kind teamID) now limits
  end.

Definition publish (kind : PolicyKind) (pe : policies.PolicyEngine) (teamID : string)
    (limits : policies.TierLimits) : M (option error) :=
  match kind with
  | TokenKind =>
      policies.CreateTeamTokenRateLimit pe teamID (kindPolicyName kind teamID) limits
  | RequestKind =>
      policies.CreateTeamRequestRateLimit pe teamID (kindPolicyName kind teamID) limits
  end.

(** The object the store keeps after a create at revision [rev]. *)
Definition created (p : Policy) (rev : N) : Policy :=
  SetUID (SetResourceVersion p (pretty rev)) ("uid-" +:+ pretty rev).

(** The object the store keeps after an update of [existing] by [p]. *)
Definition updated (p existing : Policy) (rev : N) : Policy :=
  SetUID (SetResourceVersion
            (SetUID (SetResourceVersion p (resourceVersion existing)) (uid existing))
            (pretty rev))
         (uid existing).

(** [m] changes neither the secret store nor the injected faults. *)
Definition keepsSecrets {A : Type} (m : M A) : Prop :=
  forall w a w', m w = Returns (a, w') -> secrets w' = secrets w /\ faults w' = faults w.

(** [m] relates the world it starts from to the world it returns by [R]. *)
Definition preserves {A : Type} (R : relation World) (m : M A) : Prop :=
  forall w a w', m w = Returns (a, w') -> R w w'.

(** The objects stored under the group/version/resource that
    CreateTeamRequestRateLimit writes to are the same in both worlds. *)
Definition sameRequestPolicies (w w' : World) : Prop :=
  forall name,
    policyObjects w' !! (policies.rateLimitGVR, name)
    = policyObjects w !! (policies.rateLimitGVR, name).

(** The fingerprint as a total function: the first 32 hex characters. *)
Definition fingerprintOf (apiKey : string) : string :=
  String.substring 0 32 (sha256.hexSum apiKey).

(** The selector [deleteKey] lists with: "maas/key-sha256=<fingerprint>". *)
Definition fingerprintSelector (apiKey : string) : Selector :=
  [ ("maas/key-sha256", fingerprintOf apiKey) ].

(** No record of the store carries the fingerprint of [apiKey]. *)
Definition fingerprintFree (apiKey : string) (m : gmap string Secret) : Prop :=
  forall name s, m !! name = Some s ->
                 secretLabels s !! "maas/key-sha256" <> Some (fingerprintOf apiKey).

(** The record behind a 200 answer of the key-issuing tail. *)
Definition keyRecordOf (r : CreateTeamKeyResponse.t) (w w1 : World) (s : Secret) : Prop :=
  secretName s = CreateTeamKeyResponse.SecretName r
  /\ secrets w !! secretName s = None
  /\ secrets w1 = <[secretName s := s]> (secrets w)
  /\ faults w1 = faults w
  /\ secretLabels s !! "maas/key-sha256" = Some (fingerprintOf (CreateTeamKeyResponse.APIKey r))
  /\ secretStringData s !! "api_key" = Some (CreateTeamKeyResponse.APIKey r).

(** The rates of the token policy published for a team. *)
Definition publishedTokenRates (w : World) (teamID : string) : option (list Rate) :=
  match policyObjects w !! (policies.tokenRateLimitGVR, policies.tokenPolicyNameOf teamID) with
  | Some p =>
      match limits p with
      | [ (_, definition) ] => Some (rates definition)
      | _ => None
      end
  | None => None
  end.

(** The answers of the handlers that the properties mention. *)
Definition keyDeleted (secretName : string) : Response :=
  {| status := StatusOK;
     body := Fields [ ("message", VString "API key deleted successfully");
                      ("secret_name", VString secretName) ] |}.

Definition keyNotFound : Response :=
  {| status := StatusNotFound; body := ErrorBody "API key not found" |}.

Definition notAMember : Response :=
  {| status := StatusForbidden; body := ErrorBody "User is not a member of this team" |}.

Definition teamDeleted (teamID : string) : Response :=
  {| status := StatusOK;
     body := Fields [ ("message", VString "Team deleted successfully");
                      ("team_id", VString teamID) ] |}.

Definition teamSynced (teamID tier now : string) : Response :=
  {| status := StatusOK;
     body := Fields [ ("message", VString "Team policies synchronized successfully");
                      ("team_id", VString teamID);
                      ("tier", VString tier);
                      ("synced_at", VString now) ] |}.

(** ** Concrete requests and worlds *)

(** A key manager configured as [main()] does by default. *)
Definition testManager : KeyManager :=
  {| keyNamespace := "llm";
     secretSelectorLabel := "kuadrant.io/apikeys-by";
     secretSelectorValue := "rhcl-keys";
     gatewayName := "inference-gateway";
     gatewayNamespace := "llm";
     enablePolicyMgmt := true;
     defaultTeamTier := "standard" |}.

(** Its policy engine. *)
Definition testEngine : policies.PolicyEngine :=
  {| policies.Namespace := "llm";
     policies.GatewayName := "inference-gateway";
     policies.GatewayNamespace := "llm" |}.

(** A 64-bit Linux process built with a toolchain before Go 1.24: [make]
    refuses beyond 2^48 bytes, and a failed random read is an error
    return. *)
Definition linuxRuntime : GoRuntime :=
  {| maxAlloc := 2 ^ 48; randReadFatal := false |}.

(** The world [w] at the later time [now]. *)
Definition atTime (now : string) (w : World) : World :=
  {| secrets := secrets w; policyObjects := policyObjects w; faults := faults w;
     revision := revision w; entropy := entropy w; clock := now;
     trace := trace w; runtime := runtime w |}.

(** Empty stores, no injected fault, no entropy. *)
Definition emptyWorld : World :=
  {| secrets := ∅; policyObjects := ∅; faults := fun _ => None; revision := 1%N;
     entropy := []; clock := "2025-01-01T00:00:00Z"; trace := [];
     runtime := linuxRuntime |}.

(** Empty stores in a process built with Go 1.24 or later, whose random
    source delivers nothing. *)
Definition exhaustedGo124 : World :=
  {| secrets := ∅; policyObjects := ∅; faults := fun _ => None; revision := 1%N;
     entropy := []; clock := "2025-01-01T00:00:00Z"; trace := [];
     runtime := {| maxAlloc := 2 ^ 48; randReadFatal := true |} |}.

(** Empty stores with 96 bytes of entropy. *)
Definition seededWorld : World :=
  {| secrets := ∅; policyObjects := ∅; faults := fun _ => None; revision := 1%N;
     entropy := repeat x41%byte 96; clock := "2025-01-01T00:00:00Z"; trace := [];
     runtime := linuxRuntime |}.

(** CreateTeam requests: tier standard without overrides; tier unlimited;
    tier free with a negative, with a zero, and with a positive token
    override; the default team. *)
Definition teamOne : CreateTeamRequest.t :=
  {| CreateTeamRequest.TeamID := "t1";
     CreateTeamRequest.TeamName := "Team One";
     CreateTeamRequest.Description := EmptyString;
     CreateTeamRequest.DefaultTier := "standard";
     CreateTeamRequest.TokenLimit := 0;
     CreateTeamRequest.RequestLimit := 0;
     CreateTeamRequest.TimeWindow := EmptyString |}.

Definition unlimitedTeam : CreateTeamRequest.t :=
  {| CreateTeamRequest.TeamID := "research";
     CreateTeamRequest.TeamName := "Research";
     CreateTeamRequest.Description := EmptyString;
     CreateTeamRequest.DefaultTier := "unlimited";
     CreateTeamRequest.TokenLimit := 0;
     CreateTeamRequest.RequestLimit := 0;
     CreateTeamRequest.TimeWindow := EmptyString |}.

Definition negativeOverride : CreateTeamRequest.t :=
  {| CreateTeamRequest.TeamID := "t1";
     CreateTeamRequest.TeamName := "Team One";
     CreateTeamRequest.Description := EmptyString;
     CreateTeamRequest.DefaultTier := "free";
     CreateTeamRequest.TokenLimit := -5;
     CreateTeamRequest.RequestLimit := 0;
     CreateTeamRequest.TimeWindow := EmptyString |}.

Definition zeroTokenOverride : CreateTeamRequest.t :=
  {| CreateTeamRequest.TeamID := "t1";
     CreateTeamRequest.TeamName := "Team One";
     CreateTeamRequest.Description := EmptyString;
     CreateTeamRequest.DefaultTier := "free";
     CreateTeamRequest.TokenLimit := 0;
     CreateTeamRequest.RequestLimit := 90;
     CreateTeamRequest.TimeWindow := "1h" |}.

Definition customTeam : CreateTeamRequest.t :=
  {| CreateTeamRequest.TeamID := "t2";
     CreateTeamRequest.TeamName := "Team Two";
     CreateTeamRequest.Description := EmptyString;
     CreateTeamRequest.DefaultTier := "free";
     CreateTeamRequest.TokenLimit := 500;
     CreateTeamRequest.RequestLimit := 0;
     CreateTeamRequest.TimeWindow := EmptyString |}.

Definition defaultTeam : CreateTeamRequest.t :=
  {| CreateTeamRequest.TeamID := "default";
     CreateTeamRequest.TeamName := "Default Team";
     CreateTeamRequest.Description := EmptyString;
     CreateTeamRequest.DefaultTier := "standard";
     CreateTeamRequest.TokenLimit := 0;
     CreateTeamRequest.RequestLimit := 0;
     CreateTeamRequest.TimeWindow := EmptyString |}.

(** A CreateAPIKey request for user alice. *)
Definition aliceKey : CreateTeamKeyRequest.t :=
  {| CreateTeamKeyRequest.UserID := "alice";
     CreateTeamKeyRequest.Alias := "laptop";
     CreateTeamKeyRequest.Models := [];
     CreateTeamKeyRequest.InheritTeamLimits := true;
     CreateTeamKeyRequest.TokenLimit := 0;
     CreateTeamKeyRequest.RequestLimit := 0;
     CreateTeamKeyRequest.TimeWindow := EmptyString;
     CreateTeamKeyRequest.CustomLimits := None |}.

(** A world whose policy store refuses every create. *)
Definition publishRefused : World :=
  {| secrets := ∅; policyObjects := ∅;
     faults := fun c => match c with
                        | PolicyCreate _ _ => Some (errorString "connection refused")
                        | _ => None
                        end;
     revision := 1%N; entropy := []; clock := "2025-01-01T00:00:00Z"; trace := [];
     runtime := linuxRuntime |}.

(** A world whose policy store refuses every create for another reason. *)
Definition publishForbidden : World :=
  {| secrets := ∅; policyObjects := ∅;
     faults := fun c => match c with
                        | PolicyCreate _ _ => Some (errorString "forbidden: quota exceeded")
                        | _ => None
                        end;
     revision := 1%N; entropy := []; clock := "2025-01-01T00:00:00Z"; trace := [];
     runtime := linuxRuntime |}.

(** That world after the existence check and the write of team t1. *)
Definition teamOneWritten : World :=
  withSecrets
    (record (SecretCreate "team-t1-config") (record (SecretGet "team-t1-config") publishRefused))
    {[ "team-t1-config" := teamConfigSecret teamOne "2025-01-01T00:00:00Z" ]}.

(** The error the publisher returns there. *)
Definition publishError : error :=
  wrapError "failed to create token rate limit policy: "
    (wrapError "failed to create TokenRateLimitPolicy: " (errorString "connection refused")).

(** A store holding the default team's record only, with entropy. *)
Definition defaultTeamWorld : World :=
  {| secrets := {[ "team-default-config" := teamConfigSecret defaultTeam "2025-01-01T00:00:00Z" ]};
     policyObjects := ∅; faults := fun _ => None; revision := 1%N;
     entropy := repeat x41%byte 96; clock := "2025-01-01T00:00:00Z"; trace := [];
     runtime := linuxRuntime |}.

(** A store holding team t1's record (tier standard) and no key record. *)
Definition teamOneWorld : World :=
  {| secrets := {[ "team-t1-config" := teamConfigSecret teamOne "2025-01-01T00:00:00Z" ]};
     policyObjects := ∅; faults := fun _ => None; revision := 1%N;
     entropy := repeat x41%byte 96; clock := "2025-01-01T00:00:00Z"; trace := [];
     runtime := linuxRuntime |}.

(** The world after CreateTeam(t1, tier standard) on an empty store. *)
Definition teamOneCreated : World :=
  worldAfter (createTeam 1 ∅ testManager (BindOk teamOne)) emptyWorld.

(** The world after CreateTeam(t2, tier free, token_limit=500). *)
Definition customTeamCreated : World :=
  worldAfter (createTeam 1 ∅ testManager (BindOk customTeam)) emptyWorld.

(** The key response a run answers ([noKeyResponse] if it answers none). *)
Definition noKeyResponse : CreateTeamKeyResponse.t :=
  {| CreateTeamKeyResponse.APIKey := EmptyString;
     CreateTeamKeyResponse.UserID := EmptyString;
     CreateTeamKeyResponse.TeamID := EmptyString;
     CreateTeamKeyResponse.SecretName := EmptyString;
     CreateTeamKeyResponse.ModelsAllowed := [];
     CreateTeamKeyResponse.Tier := EmptyString;
     CreateTeamKeyResponse.TokenLimit := 0;
     CreateTeamKeyResponse.RequestLimit := 0;
     CreateTeamKeyResponse.TimeWindow := EmptyString;
     CreateTeamKeyResponse.InheritedPolicies := [];
     CreateTeamKeyResponse.CustomConstraints := None |}.

Definition keyResponse (m : M Response) (w : World) : CreateTeamKeyResponse.t :=
  match m w with
  | Returns ({| body := KeyCreated r |}, _) => r
  | _ => noKeyResponse
  end.

(** CreateAPIKey(default, alice). *)
Definition aliceCreates : M Response :=
  createTeamKey 1 ∅ testManager "default" (BindOk aliceKey).

(** ** Vocabulary of the further properties *)

(** The URL-safe base64 alphabet without the padding character:
    A-Z, a-z, 0-9, hyphen and underscore. *)
Definition isURLSafeChar (c : ascii) : bool :=
  let n := nat_of_ascii c in
  ((65 <=? n) && (n <=? 90) || (97 <=? n) && (n <=? 122) || (48 <=? n) && (n <=? 57)
   || (n =? 45) || (n =? 95))%nat.

(** [m] returns normally from every world. *)
Definition total {A : Type} (m : M A) : Prop :=
  forall w, exists a w', m w = Returns (a, w').

(** The order [rangeMembers] visits a map in is an enumeration of the
    map's values: each value once, in any order. *)
Definition mapIteration (rangeMembers : gmap string TeamMember.t -> list TeamMember.t) : Prop :=
  forall m, rangeMembers m ≡ₚ (map_to_list m).*2.

(** The iteration order the model's own enumeration of a map gives. *)
Definition keyOrder (m : gmap string TeamMember.t) : list TeamMember.t :=
  (map_to_list m).*2.

(** The store files every record under its own name. *)
Definition wellKeyed (m : gmap string Secret) : Prop :=
  forall name s, m !! name = Some s -> secretName s = name.

(** The maas/user-id label of a record, empty when there is none. *)
Definition userOf (s : Secret) : string := label s "maas/user-id".

(** A CreateAPIKey request for user bob. *)
Definition bobKey : CreateTeamKeyRequest.t :=
  {| CreateTeamKeyRequest.UserID := "bob";
     CreateTeamKeyRequest.Alias := EmptyString;
     CreateTeamKeyRequest.Models := [];
     CreateTeamKeyRequest.InheritTeamLimits := true;
     CreateTeamKeyRequest.TokenLimit := 0;
     CreateTeamKeyRequest.RequestLimit := 0;
     CreateTeamKeyRequest.TimeWindow := EmptyString;
     CreateTeamKeyRequest.CustomLimits := None |}.

(** The default team's record, with entropy for three different keys. *)
Definition threeKeysEntropy : World :=
  {| secrets := {[ "team-default-config" := teamConfigSecret defaultTeam "2025-01-01T00:00:00Z" ]};
     policyObjects := ∅; faults := fun _ => None; revision := 1%N;
     entropy := repeat x41%byte 48 ++ repeat x42%byte 48 ++ repeat x43%byte 48;
     clock := "2025-01-01T00:00:00Z"; trace := [];
     runtime := linuxRuntime |}.

(** The default team after alice was issued two keys and bob one. *)
Definition threeKeysWorld : World :=
  worldAfter (createTeamKey 1 ∅ testManager "default" (BindOk bobKey))
    (worldAfter aliceCreates (worldAfter aliceCreates threeKeysEntropy)).

(** The handler that writes a key response agrees with the internal
    function it shares its logic with: the same final world, the response
    of the internal function under status 200, another status for an
    error, and the same failure to return. *)
Definition agrees (internal : Run ((CreateTeamKeyResponse.t + error) * World))
    (handler : Run (Response * World)) : Prop :=
  match internal with
  | Returns (inl r, w') =>
      handler = Returns ({| status := StatusOK; body := KeyCreated r |}, w')
  | Returns (inr _, w') =>
      exists resp, handler = Returns (resp, w') /\ status resp <> StatusOK
  | OutOfFuel => handler = OutOfFuel
  | Panics msg => handler = Panics msg
  end.

(** The 200 answer of the legacy generateKey endpoint. *)
Definition keyGenerated (apiKey userID : string) : Response :=
  {| status := StatusOK;
     body := Fields [ ("api_key", VString apiKey); ("user_id", VString userID) ] |}.

(** The 200 answer of deleteTeamKey. *)
Definition teamKeyDeleted (keyName teamID : string) : Response :=
  {| status := StatusOK;
     body := Fields [ ("message", VString "API key deleted successfully");
                      ("key_name", VString keyName);
                      ("team_id", VString teamID) ] |}.

(** The 200 answer of removeUserFromTeam. *)
Definition userRemoved (userID teamID : string) : Response :=
  {| status := StatusOK;
     body := Fields [ ("message", VString "User removed from team successfully");
                      ("user_id", VString userID);
                      ("team_id", VString teamID) ] |}.

(** The membership createTeamKey reads from a key record of team t1. *)
Definition aliceOfTeamOne : TeamMember.t :=
  {| TeamMember.UserID := "alice";
     TeamMember.UserEmail := "alice@example.com";
     TeamMember.Role := "member";
     TeamMember.TeamID := "t1";
     TeamMember.TeamName := "Team One";
     TeamMember.Tier := "standard";
     TeamMember.DefaultModels := ["simulator-model"; "qwen3-0-6b-instruct"];
     TeamMember.JoinedAt := EmptyString;
     TeamMember.TokenLimit := 10000;
     TeamMember.RequestLimit := 120;
     TeamMember.TimeWindow := "1m" |}.

(** Team t1 with one key record of alice, written by
    createEnhancedKeySecret. *)
Definition teamOneWithKey : World :=
  worldAfter (createEnhancedKeySecret testManager "t1" aliceKey "alice-first-key" aliceOfTeamOne)
    teamOneWorld.

(** The key record of alice in [teamOneWithKey]. *)
Definition aliceFirstKeyRecord : Secret :=
  match answer (createEnhancedKeySecret testManager "t1" aliceKey "alice-first-key"
                  aliceOfTeamOne) teamOneWorld with
  | Some (inl s) => s
  | _ => teamConfigSecret teamOne EmptyString
  end.

(** The tier createDefaultTeamOnStartup gives the default team. *)
Definition startupTier (env : Environ) (km : KeyManager) : string :=
  if decide (defaultTeamTier km = EmptyString)
  then getEnvOrDefault env "DEFAULT_TIER" "standard"
  else defaultTeamTier km.

(** The request createDefaultTeamOnStartup builds. *)
Definition startupRequest (env : Environ) (km : KeyManager) : CreateTeamRequest.t :=
  {| CreateTeamRequest.TeamID := "default";
     CreateTeamRequest.TeamName := "Default Team";
     CreateTeamRequest.Description :=
       "Default team for simple MaaS deployments - users without team assignment";
     CreateTeamRequest.DefaultTier := startupTier env km;
     CreateTeamRequest.TokenLimit := 0;
     CreateTeamRequest.RequestLimit := 0;
     CreateTeamRequest.TimeWindow := EmptyString |}.

(** A world whose policy store refuses to create request policies. *)
Definition requestRefused : World :=
  {| secrets := ∅; policyObjects := ∅;
     faults := fun c => match c with
                        | PolicyCreate ("kuadrant.io", "v1", "ratelimitpolicies") _ =>
                            Some (errorString "connection refused")
                        | _ => None
                        end;
     revision := 1%N; entropy := []; clock := "2025-01-01T00:00:00Z"; trace := [];
     runtime := linuxRuntime |}.

(** The entry of the answer of listTeams for a team with these fields. *)
Definition teamListed (teamID teamName description tier createdAt : string)
    : list (string * Any) :=
  [ ("team_id", AString teamID);
    ("team_name", AString teamName);
    ("description", AString description);
    ("tier", AString tier);
    ("created_at", AString createdAt) ].

(** The 404 answer of the handlers that look a team up. *)
Definition teamNotFound : Reply :=
  {| code := StatusNotFound; obj := errorH "Team not found" |}.

(** The store after CreateTeam(t1, standard) and CreateTeam(t2, free,
    token_limit=500). *)
Definition twoTeams : World :=
  worldAfter (createTeam 1 ∅ testManager (BindOk customTeam)) teamOneCreated.

(** The value under [key] of a map-valued [interface{}]. *)
Definition field (key : string) (o : Any) : option Any :=
  match o with
  | AMap m => snd <$> List.find (fun kv => bool_decide (kv.1 = key)) m
  | _ => None
  end.

(** The token limit a getTeamPolicies answer reports under
    policy_limits. *)
Definition reportedTokenLimit (reply : Reply) : option Any :=
  field "policy_limits" (obj reply) ≫= field "token_limit".

(** CreateTeam(t2, free) without overrides, and the store after it. *)
Definition plainTeamTwo : CreateTeamRequest.t :=
  {| CreateTeamRequest.TeamID := "t2";
     CreateTeamRequest.TeamName := "Team Two";
     CreateTeamRequest.Description := EmptyString;
     CreateTeamRequest.DefaultTier := "free";
     CreateTeamRequest.TokenLimit := 0;
     CreateTeamRequest.RequestLimit := 0;
     CreateTeamRequest.TimeWindow := EmptyString |}.

Definition plainTeamTwoCreated : World :=
  worldAfter (createTeam 1 ∅ testManager (BindOk plainTeamTwo)) emptyWorld.

(** The calls that only read a store. *)
Definition isReadCall (c : Call) : bool :=
  match c with
  | SecretGet _ | SecretList _ | PolicyGet _ _ => true
  | _ => false
  end.

(** From [w] to [w'] only reading calls were made, and both stores hold
    what they held. *)
Definition onlyRead (w w' : World) : Prop :=
  secrets w' = secrets w
  /\ policyObjects w' = policyObjects w
  /\ exists calls, trace w' = trace w ++ calls
                   /\ Forall (fun c => isReadCall c = true) calls.

(** The GET routes of the team API, by handler. *)
Inductive ReadEndpoint : Type :=
| ListTeams
| GetTeam (teamID : string)
| ListTeamMembers (teamID : string)
| GetTeamPolicies (teamID : string).

Definition serveRead (fuel : nat) (env : Environ)
    (rangeMembers : gmap string TeamMember.t -> list TeamMember.t)
    (km : KeyManager) (e : ReadEndpoint) : M Reply :=
  match e with
  | ListTeams => listTeams km
  | GetTeam teamID => getTeam fuel env rangeMembers km teamID
  | ListTeamMembers teamID => listTeamMembers fuel env rangeMembers km teamID
  | GetTeamPolicies teamID => getTeamPolicies fuel env km teamID
  end.

(** * Properties *)

(** ** Test vectors for the library models *)

Example sha256_abc :
  sha256.hexSum "abc" = "ba7816bf8f01cfea414140de5dae2223b00361a396177a9cb410ff61f20015ad".
Proof. vm_compute. reflexivity. Qed.

Example sha256_empty :
  sha256.hexSum EmptyString = "e3b0c44298fc1c149afbf4c8996fb92427ae41e4649b934ca495991b7852b855".
Proof. vm_compute. reflexivity. Qed.

Example sha256_two_blocks :
  sha256.hexSum "abcdbcdecdefdefgefghfghighijhijkijkljklmklmnlmnomnopnopq"
  = "248d6a61d20638b8e5c026930c3e6039a33ce45964ff2167f6ecedd419db06c1".
Proof. vm_compute. reflexivity. Qed.

Example base64_foobar :
  base64.EncodeToString [x66; x6f; x6f; x62; x61; x72]%byte = "Zm9vYmFy".
Proof. vm_compute. reflexivity. Qed.

Example base64_pad :
  base64.EncodeToString [xfb; xff]%byte = "-_8=".
Proof. vm_compute. reflexivity. Qed.

(** ** The tier table and its fallback *)

Lemma tierCase_known_names tier :
  knownTier tier <->
  tier = "free" \/ tier = "standard" \/ tier = "premium" \/ tier = "unlimited".
Proof.
  unfold knownTier, policies.tierCase.
  repeat case_decide; subst; (split; [intros [l Hl] | intros Hn]);
    first [ by eauto 6 | discriminate | (exfalso; intuition congruence) ].
Qed.

Lemma tierCase_empty : policies.tierCase EmptyString = None.
Proof. reflexivity. Qed.

(** A tier of the table is returned by the first call. *)
Lemma GetTierLimits_known fuel env tier limits :
  policies.tierCase tier = Some limits ->
  policies.GetTierLimits (S fuel) env tier = Returns limits.
Proof.
  intros Hk. simpl. case_decide as He.
  - subst. discriminate.
  - by rewrite Hk.
Qed.

(** With a default tier that is in the table, a name outside the table
    costs exactly one further call and yields the default tier's limits. *)
Lemma GetTierLimits_fallback_once fuel env tier limits :
  policies.tierCase tier = None ->
  policies.tierCase (policies.GetDefaultTier env) = Some limits ->
  policies.GetTierLimits (S (S fuel)) env tier = Returns limits
  /\ policies.GetTierLimits (S (S fuel)) env tier
     = policies.GetTierLimits (S fuel) env (policies.GetDefaultTier env).
Proof.
  intros Hu Hd.
  assert (Hcall : policies.GetTierLimits (S fuel) env (policies.GetDefaultTier env)
                  = Returns limits) by (by apply GetTierLimits_known).
  split; [|rewrite Hcall];
    (change (policies.GetTierLimits (S (S fuel)) env tier) with
       (let t := if decide (tier = EmptyString) then policies.GetDefaultTier env else tier in
        match policies.tierCase t with
        | Some l => Returns l
        | None => policies.GetTierLimits (S fuel) env (policies.GetDefaultTier env)
        end); cbv zeta; case_decide; [by rewrite Hd | by rewrite Hu, Hcall]).
Qed.

(** With a default tier that is not in the table, no amount of fuel lets
    the fallback return: every call reaches the [default:] arm again. *)
Lemma GetTierLimits_unknown_default fuel env tier :
  policies.tierCase tier = None ->
  policies.tierCase (policies.GetDefaultTier env) = None ->
  policies.GetTierLimits fuel env tier = OutOfFuel.
Proof.
  intros Hu Hd. revert tier Hu.
  induction fuel as [|fuel IH]; intros tier Hu; [reflexivity|].
  simpl. case_decide.
  - rewrite Hd. by apply IH.
  - rewrite Hu. by apply IH.
Qed.

(** C2, at the failing input.  With DEFAULT_TIER=gold in the environment,
    GetTierLimits("platinum") finds neither name in the switch and calls
    itself with "gold" again and again: for every bound on the call depth
    the call has not returned.  The claim says the fallback terminates
    after at most one recursive step for any configured default tier. *)
Theorem GetTierLimits_gold_never_returns :
  forall fuel : nat,
    policies.GetTierLimits fuel {[ "DEFAULT_TIER" := "gold" ]} "platinum" = OutOfFuel.
Proof.
  intros fuel. apply GetTierLimits_unknown_default; reflexivity.
Qed.

(** ** Reasoning about state-passing computations *)

Lemma returns_ret {A : Type} (a : A) w (Q : A -> World -> Prop) :
  Q a w -> returns (ret a) w Q.
Proof. done. Qed.

Lemma returns_bind {A B : Type} (m : M A) (k : A -> M B) w (Q : B -> World -> Prop) :
  returns m w (fun a w' => returns (k a) w' Q) -> returns (bind m k) w Q.
Proof.
  unfold returns, bind. destruct (m w) as [[a w']| |]; done.
Qed.

Lemma returns_mono {A : Type} (m : M A) w (P Q : A -> World -> Prop) :
  returns m w P -> (forall a w', P a w' -> Q a w') -> returns m w Q.
Proof.
  unfold returns. destruct (m w) as [[a w']| |]; eauto.
Qed.

Lemma returns_eq {A : Type} (m : M A) w (Q : A -> World -> Prop) :
  returns m w Q <-> exists a w', m w = Returns (a, w') /\ Q a w'.
Proof.
  unfold returns. split.
  - destruct (m w) as [[a w']| |]; [eauto | done | done].
  - intros (a & w' & -> & HQ). done.
Qed.

Lemma returns_JSON code b w (Q : Response -> World -> Prop) :
  Q {| status := code; body := b |} w -> returns (JSON code b) w Q.
Proof. done. Qed.

Lemma returns_storeCall {A : Type} (c : Call) (rule : World -> (A + error) * World)
    w (Q : A + error -> World -> Prop) :
  (forall e, faults w c = Some e -> Q (inr e) (record c w)) ->
  (faults w c = None -> Q (rule (record c w)).1 (rule (record c w)).2) ->
  returns (storeCall c rule) w Q.
Proof.
  intros Hf Hn. unfold returns, storeCall.
  destruct (faults w c) as [e|] eqn:Hc.
  - by apply Hf.
  - destruct (rule (record c w)) as [r w'] eqn:Hr. by apply Hn.
Qed.

Lemma returns_time_Now w (Q : string -> World -> Prop) :
  Q (clock w) w -> returns time_Now_RFC3339 w Q.
Proof. done. Qed.

Lemma bind_returns {A B : Type} (m : M A) (k : A -> M B) w x :
  bind m k w = Returns x -> exists a w', m w = Returns (a, w') /\ k a w' = Returns x.
Proof.
  unfold bind. destruct (m w) as [[a w']| |]; [eauto|done|done].
Qed.

(** ** Limit resolution in CreateTeam (C7) *)

(** Counterexample to C7 as stated.  The override [token_limit = -5] is
    present and non-zero, yet the limits handed to the publisher keep the
    free tier's 2000: the guard in the code is [req.TokenLimit > 0], not
    [req.TokenLimit != 0]. *)
Lemma nonzero_override_not_applied :
  CreateTeamRequest.TokenLimit negativeOverride <> 0
  /\ (forall w, teamLimits 1 ∅ negativeOverride w = Returns (policies.freeLimits, w))
  /\ policies.TokenLimit policies.freeLimits = 2000
  /\ ~ (forall req limits,
          CreateTeamRequest.TokenLimit req <> 0 ->
          policies.TokenLimit (overrideLimits req limits) = CreateTeamRequest.TokenLimit req).
Proof.
  split; [done|]. split; [done|]. split; [done|].
  intros Hclaim. specialize (Hclaim negativeOverride policies.freeLimits).
  cbv in Hclaim. by specialize (Hclaim ltac:(discriminate)).
Qed.

Lemma teamLimits_eq fuel env req tierDefaults w :
  policies.GetTierLimits fuel env (CreateTeamRequest.DefaultTier req) = Returns tierDefaults ->
  teamLimits fuel env req w = Returns (overrideLimits req tierDefaults, w).
Proof.
  intros Hg. unfold teamLimits, GetTierLimits, bind, lift, ret. by rewrite Hg.
Qed.

(** C7, amended.  In the limit resolution of CreateTeam a numeric override
    replaces the tier default if and only if it is strictly positive, and
    the time-window override if and only if it is non-empty: a numeric
    override of 0 or below leaves the tier default (the unlimited sentinel
    -1 included) unchanged, each limit field depends on its own override
    only, a time-window override sets both the token and the request
    window, and the remaining fields are the tier's. *)
Theorem createTeam_limit_resolution fuel env req tierDefaults w :
  policies.GetTierLimits fuel env (CreateTeamRequest.DefaultTier req) = Returns tierDefaults ->
  exists resolved,
    teamLimits fuel env req w = Returns (resolved, w)
    /\ (0 < CreateTeamRequest.TokenLimit req ->
        policies.TokenLimit resolved = CreateTeamRequest.TokenLimit req)
    /\ (CreateTeamRequest.TokenLimit req <= 0 ->
        policies.TokenLimit resolved = policies.TokenLimit tierDefaults)
    /\ (0 < CreateTeamRequest.RequestLimit req ->
        policies.RequestLimit resolved = CreateTeamRequest.RequestLimit req)
    /\ (CreateTeamRequest.RequestLimit req <= 0 ->
        policies.RequestLimit resolved = policies.RequestLimit tierDefaults)
    /\ (CreateTeamRequest.TimeWindow req <> EmptyString ->
        policies.TokenWindow resolved = CreateTeamRequest.TimeWindow req
        /\ policies.RequestWindow resolved = CreateTeamRequest.TimeWindow req)
    /\ (CreateTeamRequest.TimeWindow req = EmptyString ->
        policies.TokenWindow resolved = policies.TokenWindow tierDefaults
        /\ policies.RequestWindow resolved = policies.RequestWindow tierDefaults)
    /\ (policies.TokenLimit tierDefaults = -1 -> CreateTeamRequest.TokenLimit req <= 0 ->
        policies.TokenLimit resolved = -1)
    /\ (policies.RequestLimit tierDefaults = -1 -> CreateTeamRequest.RequestLimit req <= 0 ->
        policies.RequestLimit resolved = -1)
    /\ policies.ModelsAllowed resolved = policies.ModelsAllowed tierDefaults
    /\ policies.TokenLimitPerHour resolved = policies.TokenLimitPerHour tierDefaults
    /\ policies.TokenLimitPerDay resolved = policies.TokenLimitPerDay tierDefaults
    /\ policies.MaxConcurrentRequests resolved = policies.MaxConcurrentRequests tierDefaults.
Proof.
  intros Hg. exists (overrideLimits req tierDefaults).
  split; [by apply teamLimits_eq|].
  unfold overrideLimits.
  destruct (Z.ltb_spec 0 (CreateTeamRequest.TokenLimit req));
    destruct (Z.ltb_spec 0 (CreateTeamRequest.RequestLimit req));
    case_decide; simpl; repeat split; intros; try done; try lia; congruence.
Qed.

Lemma createTeam_limit_resolution_witness :
  exists resolved,
    teamLimits 1 ∅ zeroTokenOverride emptyWorld = Returns (resolved, emptyWorld)
    /\ policies.TokenLimit resolved = 2000
    /\ policies.RequestLimit resolved = 90
    /\ policies.TokenWindow resolved = "1h"
    /\ policies.RequestWindow resolved = "1h".
Proof.
  destruct (createTeam_limit_resolution 1 ∅ zeroTokenOverride policies.freeLimits emptyWorld
              eq_refl)
    as (resolved & Hrun & _ & Htok & Hreq & _ & Hwin & _).
  exists resolved. split; [exact Hrun|].
  split; [exact (Htok ltac:(simpl; lia))|].
  split; [exact (Hreq ltac:(simpl; lia))|].
  exact (Hwin ltac:(discriminate)).
Defined.

(** ** The store calls, one rule each *)

Lemma returns_Secrets_Get name w (Q : Secret + error -> World -> Prop) :
  (forall e, faults w (SecretGet name) = Some e -> Q (inr e) (record (SecretGet name) w)) ->
  (forall s, faults w (SecretGet name) = None -> secrets w !! name = Some s ->
             Q (inl s) (record (SecretGet name) w)) ->
  (faults w (SecretGet name) = None -> secrets w !! name = None ->
   Q (inr (notFound "secrets" name)) (record (SecretGet name) w)) ->
  returns (Secrets_Get name) w Q.
Proof.
  intros Hf Hs Hn. apply returns_storeCall; [done|]. intros Hc. simpl.
  destruct (secrets w !! name) as [s|] eqn:Hl; simpl; eauto.
Qed.

Lemma returns_Secrets_Create s w (Q : Secret + error -> World -> Prop) :
  let c := SecretCreate (secretName s) in
  (forall e, faults w c = Some e -> Q (inr e) (record c w)) ->
  (forall old, faults w c = None -> secrets w !! secretName s = Some old ->
               Q (inr (alreadyExists "secrets" (secretName s))) (record c w)) ->
  (faults w c = None -> secrets w !! secretName s = None ->
   Q (inl s) (withSecrets (record c w) (<[secretName s := s]> (secrets w)))) ->
  returns (Secrets_Create s) w Q.
Proof.
  intros c Hf Hs Hn. apply returns_storeCall; [done|]. intros Hc. simpl.
  destruct (secrets w !! secretName s) as [old|] eqn:Hl; simpl; eauto.
Qed.

Lemma returns_Secrets_Delete name w (Q : unit + error -> World -> Prop) :
  let c := SecretDelete name in
  (forall e, faults w c = Some e -> Q (inr e) (record c w)) ->
  (forall s, faults w c = None -> secrets w !! name = Some s ->
             Q (inl tt) (withSecrets (record c w) (delete name (secrets w)))) ->
  (faults w c = None -> secrets w !! name = None ->
   Q (inr (notFound "secrets" name)) (record c w)) ->
  returns (Secrets_Delete name) w Q.
Proof.
  intros c Hf Hs Hn. apply returns_storeCall; [done|]. intros Hc. simpl.
  destruct (secrets w !! name) as [s|] eqn:Hl; simpl; eauto.
Qed.

Lemma returns_Secrets_List sel w (Q : list Secret + error -> World -> Prop) :
  let c := SecretList sel in
  (forall e, faults w c = Some e -> Q (inr e) (record c w)) ->
  (faults w c = None -> Q (inl (selected sel (secrets w))) (record c w)) ->
  returns (Secrets_List sel) w Q.
Proof.
  intros c Hf Hn. apply returns_storeCall; [done|]. intros Hc. simpl. eauto.
Qed.

Lemma returns_Secrets_DeleteCollection sel w (Q : unit + error -> World -> Prop) :
  let c := SecretDeleteCollection sel in
  (forall e, faults w c = Some e -> Q (inr e) (record c w)) ->
  (faults w c = None ->
   Q (inl tt)
     (withSecrets (record c w)
        (filter (fun kv => matchesSelector sel (secretLabels kv.2) = false) (secrets w)))) ->
  returns (Secrets_DeleteCollection sel) w Q.
Proof.
  intros c Hf Hn. apply returns_storeCall; [done|]. intros Hc. simpl. eauto.
Qed.

(** ** Skipped publication (C4) *)

Lemma policyStoreUntouched_refl w : policyStoreUntouched w w.
Proof.
  repeat split. exists []. by rewrite app_nil_r.
Qed.

Lemma policyStoreUntouched_trans w1 w2 w3 :
  policyStoreUntouched w1 w2 -> policyStoreUntouched w2 w3 -> policyStoreUntouched w1 w3.
Proof.
  intros (Hp1 & Hr1 & c1 & Ht1 & Hc1) (Hp2 & Hr2 & c2 & Ht2 & Hc2).
  split; [congruence|]. split; [congruence|].
  exists (c1 ++ c2). split.
  - by rewrite Ht2, Ht1, app_assoc.
  - by apply Forall_app.
Qed.

Lemma policyStoreUntouched_record c w :
  isPolicyCall c = false -> policyStoreUntouched w (record c w).
Proof.
  intros Hc. repeat split. exists [c]. split; [done|]. by constructor.
Qed.

Lemma policyStoreUntouched_withSecrets c w m :
  isPolicyCall c = false -> policyStoreUntouched w (withSecrets (record c w) m).
Proof.
  intros Hc. repeat split. exists [c]. split; [done|]. by constructor.
Qed.

Lemma CreateTeamTokenRateLimit_skip pe teamID policyName limits w :
  policies.TokenLimit limits = -1 \/ teamID = "default" ->
  policies.CreateTeamTokenRateLimit pe teamID policyName limits w = Returns (None, w).
Proof.
  intros Hskip. unfold policies.CreateTeamTokenRateLimit.
  repeat case_decide; try done. by destruct Hskip.
Qed.

Lemma CreateTeamRequestRateLimit_skip pe teamID policyName limits w :
  policies.RequestLimit limits = -1 \/ teamID = "default" ->
  policies.CreateTeamRequestRateLimit pe teamID policyName limits w = Returns (None, w).
Proof.
  intros Hskip. unfold policies.CreateTeamRequestRateLimit.
  repeat case_decide; try done. by destruct Hskip.
Qed.

Lemma CreateTeamRateLimitPolicies_skip pe teamID limits w :
  (policies.TokenLimit limits = -1 /\ policies.RequestLimit limits = -1)
  \/ teamID = "default" ->
  policies.CreateTeamRateLimitPolicies pe teamID limits w = Returns (None, w).
Proof.
  intros Hskip. unfold policies.CreateTeamRateLimitPolicies, bind.
  rewrite CreateTeamTokenRateLimit_skip by tauto.
  rewrite CreateTeamRequestRateLimit_skip by tauto.
  done.
Qed.

Lemma validateTeamRequest_keeps_request env km req :
  CreateTeamRequest.DefaultTier req <> EmptyString ->
  (validateTeamRequest env km req).1 = req.
Proof.
  intros Ht. unfold validateTeamRequest.
  repeat (case_match; simpl; try done).
Qed.

Lemma policyEngine_enabled km :
  enablePolicyMgmt km = true ->
  policyEngine km = Some (newPolicyEngine km).
Proof. unfold policyEngine. by intros ->. Qed.

Lemma getTierLimits_returns fuel env km tier limits w :
  policies.GetTierLimits fuel env tier = Returns limits ->
  exists h, getTierLimits fuel env km tier w = Returns (h, w).
Proof.
  intros Hg. unfold getTierLimits, GetTierLimits, bind, lift, ret.
  destruct (enablePolicyMgmt km); simpl; [rewrite Hg|]; eauto.
Qed.

(** Creating a team whose resolved limits are both the sentinel leaves
    the policy store alone, whatever the secret store answers. *)
Lemma createTeam_unlimited_untouched fuel env km req w :
  CreateTeamRequest.DefaultTier req = "unlimited" ->
  CreateTeamRequest.TokenLimit req <= 0 ->
  CreateTeamRequest.RequestLimit req <= 0 ->
  returns (createTeam (S fuel) env km (BindOk req)) w
          (fun _ w' => policyStoreUntouched w w').
Proof.
  intros Htier Htok Hreq. unfold createTeam.
  pose proof (validateTeamRequest_keeps_request env km req) as Hkeep.
  destruct (validateTeamRequest env km req) as [req' verr]. simpl in Hkeep.
  rewrite Hkeep by (rewrite Htier; discriminate). clear req' Hkeep.
  destruct verr as [err|].
  { apply returns_JSON, policyStoreUntouched_refl. }
  assert (Hlim : policies.GetTierLimits (S fuel) env (CreateTeamRequest.DefaultTier req)
                 = Returns policies.unlimitedLimits).
  { rewrite Htier. by apply GetTierLimits_known. }
  set (w1 := record (SecretGet (teamConfigName (CreateTeamRequest.TeamID req))) w).
  assert (H1 : policyStoreUntouched w w1) by (by apply policyStoreUntouched_record).
  assert (Htail : forall w2, policyStoreUntouched w w2 ->
    returns
      (if enablePolicyMgmt km
       then let* limits := teamLimits (S fuel) env req in
            match policyEngine km with
            | Some pe =>
                let* perr := policies.CreateTeamRateLimitPolicies pe
                               (CreateTeamRequest.TeamID req) limits in
                match perr with
                | Some _ =>
                    let* _ := Secrets_Delete (secretName (teamConfigSecret req (clock w1))) in
                    JSON StatusInternalServerError (ErrorBody "Failed to apply team policies")
                | None =>
                    let* inheritedLimits :=
                      getTierLimits (S fuel) env km (CreateTeamRequest.DefaultTier req) in
                    JSON StatusOK (TeamCreated
                      {| CreateTeamResponse.TeamID := CreateTeamRequest.TeamID req;
                         CreateTeamResponse.TeamName := CreateTeamRequest.TeamName req;
                         CreateTeamResponse.DefaultTier := CreateTeamRequest.DefaultTier req;
                         CreateTeamResponse.PoliciesApplied := enablePolicyMgmt km;
                         CreateTeamResponse.InheritedLimits := inheritedLimits |})
                end
            | None => nilPolicyEngine
            end
       else let* inheritedLimits :=
              getTierLimits (S fuel) env km (CreateTeamRequest.DefaultTier req) in
            JSON StatusOK (TeamCreated
              {| CreateTeamResponse.TeamID := CreateTeamRequest.TeamID req;
                 CreateTeamResponse.TeamName := CreateTeamRequest.TeamName req;
                 CreateTeamResponse.DefaultTier := CreateTeamRequest.DefaultTier req;
                 CreateTeamResponse.PoliciesApplied := enablePolicyMgmt km;
                 CreateTeamResponse.InheritedLimits := inheritedLimits |}))
      w2 (fun _ w' => policyStoreUntouched w w')).
  { intros w2 H2.
    destruct (getTierLimits_returns (S fuel) env km _ _ w2 Hlim) as [h Hh].
    destruct (enablePolicyMgmt km) eqn:Hen.
    - rewrite (policyEngine_enabled km Hen).
      apply returns_bind. unfold returns. rewrite (teamLimits_eq _ _ _ _ _ Hlim).
      apply returns_bind. unfold returns.
      rewrite CreateTeamRateLimitPolicies_skip.
      + apply returns_bind. unfold returns. rewrite Hh. by apply returns_JSON.
      + left. unfold overrideLimits.
        destruct (Z.ltb_spec 0 (CreateTeamRequest.TokenLimit req)); [lia|].
        destruct (Z.ltb_spec 0 (CreateTeamRequest.RequestLimit req)); [lia|].
        by case_decide.
    - apply returns_bind. unfold returns. rewrite Hh. by apply returns_JSON. }
  apply returns_bind, returns_Secrets_Get;
    [ intros e _
    | intros s _ _; by apply returns_JSON, policyStoreUntouched_record
    | intros _ _ ];
    (apply returns_bind; unfold createTeamConfigSecret;
     apply returns_bind, returns_time_Now;
     apply returns_Secrets_Create; simpl;
     [ intros e' _; apply returns_JSON;
       eapply policyStoreUntouched_trans; [exact H1|];
       by apply policyStoreUntouched_record
     | intros old _ _; apply returns_JSON;
       eapply policyStoreUntouched_trans; [exact H1|];
       by apply policyStoreUntouched_record
     | intros _ _; apply Htail;
       eapply policyStoreUntouched_trans; [exact H1|];
       by apply policyStoreUntouched_withSecrets ]).
Qed.

(** C4.  Each of the two publishing functions returns success and leaves
    the world exactly as it found it (no store is called, no object is
    created or updated) whenever its limit is the unlimited sentinel -1 or
    the team is "default"; and creating a team with tier unlimited (whose
    overrides, being non-positive, leave both sentinels in place) returns
    with the policy store neither called nor changed. *)
Theorem publish_skipped_when_unlimited_or_default
    (pe : policies.PolicyEngine) (teamID policyName : string)
    (limits : policies.TierLimits) (w : World) :
  (policies.TokenLimit limits = -1 \/ teamID = "default" ->
   policies.CreateTeamTokenRateLimit pe teamID policyName limits w = Returns (None, w))
  /\ (policies.RequestLimit limits = -1 \/ teamID = "default" ->
      policies.CreateTeamRequestRateLimit pe teamID policyName limits w = Returns (None, w))
  /\ (forall fuel env km req,
        CreateTeamRequest.DefaultTier req = "unlimited" ->
        CreateTeamRequest.TokenLimit req <= 0 ->
        CreateTeamRequest.RequestLimit req <= 0 ->
        exists resp w',
          createTeam (S fuel) env km (BindOk req) w = Returns (resp, w')
          /\ policyStoreUntouched w w').
Proof.
  split; [apply CreateTeamTokenRateLimit_skip|].
  split; [apply CreateTeamRequestRateLimit_skip|].
  intros fuel env km req Htier Htok Hreq.
  by apply returns_eq, createTeam_unlimited_untouched.
Qed.

Lemma publish_skipped_witness :
  policies.CreateTeamTokenRateLimit testEngine "research" "team-research-token-limits"
    policies.unlimitedLimits emptyWorld = Returns (None, emptyWorld)
  /\ policies.CreateTeamRequestRateLimit testEngine "default" "team-default-request-limits"
       policies.standardLimits emptyWorld = Returns (None, emptyWorld)
  /\ exists resp w',
       createTeam 1 ∅ testManager (BindOk unlimitedTeam) emptyWorld = Returns (resp, w')
       /\ policyStoreUntouched emptyWorld w'.
Proof.
  split.
  { apply (publish_skipped_when_unlimited_or_default testEngine "research"
             "team-research-token-limits" policies.unlimitedLimits emptyWorld).
    left. reflexivity. }
  split.
  { apply (publish_skipped_when_unlimited_or_default testEngine "default"
             "team-default-request-limits" policies.standardLimits emptyWorld).
    right. reflexivity. }
  apply (publish_skipped_when_unlimited_or_default testEngine "research"
           "team-research-token-limits" policies.unlimitedLimits emptyWorld).
  - reflexivity.
  - simpl. lia.
  - simpl. lia.
Defined.

(** ** generateSecureToken (C10) *)

Lemma list_ind3 {A : Type} (P : list A -> Prop) :
  P [] -> (forall a, P [a]) -> (forall a b, P [a; b]) ->
  (forall a b c l, P l -> P (a :: b :: c :: l)) ->
  forall l, P l.
Proof.
  intros H0 H1 H2 H3 l.
  cut (P l /\ (forall a, P (a :: l)) /\ (forall a b, P (a :: b :: l))); [tauto|].
  induction l as [|x l (IH0 & IH1 & IH2)]; [by repeat split|].
  split; [apply IH1|]. split; [intros a; apply IH2|]. intros a b. by apply H3.
Qed.

(** The padded encoding of [n] bytes is [4 * ceil(n / 3)] characters long. *)
Lemma EncodeToString_length (src : list byte) :
  String.length (base64.EncodeToString src) = (4 * ((length src + 2) / 3))%nat.
Proof.
  induction src as [|a|a b|a b c l IH] using list_ind3; try reflexivity.
  change (String.length (base64.EncodeToString (a :: b :: c :: l)))
    with (S (S (S (S (String.length (base64.EncodeToString l)))))).
  rewrite IH. simpl length.
  replace (S (S (S (length l))) + 2)%nat with ((length l + 2) + 1 * 3)%nat by lia.
  rewrite Nat.div_add by lia. lia.
Qed.

Lemma encoded_length_covers (n : nat) : (n <= 4 * ((n + 2) / 3))%nat.
Proof.
  pose proof (Nat.div_mod_eq (n + 2) 3) as Hd.
  pose proof (Nat.mod_upper_bound (n + 2) 3 ltac:(lia)) as Hm.
  lia.
Qed.

Lemma substring_length (n : nat) (s : string) :
  (n <= String.length s)%nat -> String.length (String.substring 0 n s) = n.
Proof.
  revert s. induction n as [|n IH]; intros s Hn.
  - by destruct s.
  - destruct s as [|c s]; simpl in *; [lia|]. rewrite IH; [done|lia].
Qed.

Lemma slice_to_in_bounds (s : string) (n : Z) :
  0 <= n <= Z.of_nat (String.length s) ->
  exists t, slice_to s n = Some t /\ Z.of_nat (String.length t) = n.
Proof.
  intros [H0 Hn]. unfold slice_to.
  destruct (Z.leb_spec 0 n); [|lia].
  destruct (Z.leb_spec n (Z.of_nat (String.length s))); [|lia].
  simpl. eexists. split; [done|].
  rewrite substring_length; lia.
Qed.

Lemma make_bytes_serves (n : Z) (w : World) :
  0 <= n <= maxAlloc (runtime w) -> make_bytes n w = Returns (tt, w).
Proof.
  intros [Hlo Hhi]. unfold make_bytes.
  destruct (Z.ltb_spec n 0); [lia|].
  destruct (Z.ltb_spec (maxAlloc (runtime w)) n); [lia|done].
Qed.

Lemma make_bytes_refuses (n : Z) (w : World) :
  n < 0 \/ maxAlloc (runtime w) < n ->
  make_bytes n w = Panics "makeslice: len out of range".
Proof.
  intros Hn. unfold make_bytes.
  destruct (Z.ltb_spec n 0); [done|].
  destruct (Z.ltb_spec (maxAlloc (runtime w)) n); [done|lia].
Qed.

Lemma make_bytes_inv (n : Z) (w w' : World) (u : unit) :
  make_bytes n w = Returns (u, w') -> w' = w /\ 0 <= n <= maxAlloc (runtime w).
Proof.
  unfold make_bytes.
  destruct (Z.ltb_spec n 0); [done|].
  destruct (Z.ltb_spec (maxAlloc (runtime w)) n); [done|].
  intros [= _ <-]. split; [done|lia].
Qed.

(** What a returned token is made of. *)
Lemma generateSecureToken_inv (n : Z) (w w' : World) (token : string) :
  generateSecureToken n w = Returns (inl token, w') ->
  0 <= n
  /\ (Z.to_nat n <= length (entropy w))%nat
  /\ w' = withEntropy w (drop (Z.to_nat n) (entropy w))
  /\ slice_to (base64.EncodeToString (take (Z.to_nat n) (entropy w))) n = Some token.
Proof.
  unfold generateSecureToken. intros Hrun.
  apply bind_returns in Hrun as (u & w0 & Hmake & Hrun).
  apply make_bytes_inv in Hmake as [-> Hn].
  apply bind_returns in Hrun as (r & w1 & Hread & Hrun).
  unfold rand_Read in Hread. case_decide as Hle.
  2: { destruct (randReadFatal _); [done|]. injection Hread as <- <-. done. }
  injection Hread as <- <-.
  apply bind_returns in Hrun as (encoded & w2 & Hencode & Hrun).
  unfold URLEncoding_EncodeToString in Hencode.
  apply bind_returns in Hencode as (u' & w3 & Hmake & Hencode).
  apply make_bytes_inv in Hmake as [-> _]. injection Hencode as <- <-.
  destruct (slice_to _ n) as [t|] eqn:Hslice; [|done].
  injection Hrun as <- <-. split; [lia|]. done.
Qed.

(** The run of generateSecureToken for a length whose buffers the runtime
    can allocate, by the outcome of the read. *)
Lemma generateSecureToken_run (n : Z) (w : World) :
  0 <= n ->
  4 * ((n + 2) / 3) <= maxAlloc (runtime w) ->
  generateSecureToken n w
  = match rand_Read (Z.to_nat n) w with
    | Returns (inl src, w') =>
        match slice_to (base64.EncodeToString src) n with
        | Some token => Returns (inl token, w')
        | None => Panics "slice bounds out of range"
        end
    | Returns (inr err, w') => Returns (inr err, w')
    | OutOfFuel => OutOfFuel
    | Panics msg => Panics msg
    end.
Proof.
  intros Hn Halloc.
  assert (Hcover : n <= 4 * ((n + 2) / 3)).
  { pose proof (Z.div_mod (n + 2) 3 ltac:(lia)) as Hd.
    pose proof (Z.mod_pos_bound (n + 2) 3 ltac:(lia)) as Hm. lia. }
  unfold generateSecureToken, bind at 1.
  rewrite make_bytes_serves by lia.
  unfold bind at 1. unfold rand_Read. case_decide as Hle.
  2: { by destruct (randReadFatal _). }
  unfold bind at 1. unfold URLEncoding_EncodeToString, bind at 1.
  assert (Hlen : Z.of_nat (length (take (Z.to_nat n) (entropy w))) = n)
    by (rewrite length_take; lia).
  rewrite make_bytes_serves; [|cbn [runtime withEntropy]; rewrite Hlen; lia].
  unfold ret. by destruct (slice_to _ n).
Qed.

Lemma generateSecureToken_beyond_alloc (n : Z) (w : World) :
  maxAlloc (runtime w) < n ->
  generateSecureToken n w = Panics "makeslice: len out of range".
Proof.
  intros Hn. unfold generateSecureToken, bind. rewrite make_bytes_refuses; [done|by right].
Qed.

(** C10, amended.  For a positive byte length [n] whose buffers the
    runtime can allocate (the encoding takes [4 * ceil(n / 3)] bytes),
    generateSecureToken never indexes out of range: the URL-safe base64
    encoding of [n] bytes is [4 * ceil(n / 3)] characters long, which is at
    least [n], so the slice [[:n]] is in bounds.  When the random source
    delivers, the result is a token of exactly [n] characters.  When the
    read fails, the function does not succeed: with a toolchain before Go
    1.24 it returns the error of the read, and from Go 1.24 on the process
    is ended by the fatal error of the read.  The read fails exactly when
    the source cannot deliver [n] bytes. *)
Theorem generateSecureToken_total (n : Z) (w : World) :
  0 < n ->
  4 * ((n + 2) / 3) <= maxAlloc (runtime w) ->
  (forall src : list byte,
      length src = Z.to_nat n ->
      String.length (base64.EncodeToString src) = (4 * ((Z.to_nat n + 2) / 3))%nat
      /\ (Z.to_nat n <= String.length (base64.EncodeToString src))%nat)
  /\ match rand_Read (Z.to_nat n) w with
     | Returns (inl src, w') =>
         exists token,
           generateSecureToken n w = Returns (inl token, w')
           /\ Z.of_nat (String.length token) = n
     | Returns (inr err, w') => generateSecureToken n w = Returns (inr err, w')
     | Panics msg => generateSecureToken n w = Panics msg
     | OutOfFuel => False
     end
  /\ ((Z.to_nat n <= length (entropy w))%nat ->
      exists token,
        generateSecureToken n w
        = Returns (inl token, withEntropy w (drop (Z.to_nat n) (entropy w)))
        /\ Z.of_nat (String.length token) = n)
  /\ ((length (entropy w) < Z.to_nat n)%nat ->
      if randReadFatal (runtime w)
      then generateSecureToken n w
           = Panics "fatal error: crypto/rand: failed to read random data"
      else exists err, rand_Read (Z.to_nat n) w = Returns (inr err, w)
                       /\ generateSecureToken n w = Returns (inr err, w)).
Proof.
  intros Hn Halloc.
  assert (Hslice : forall src : list byte,
            length src = Z.to_nat n ->
            exists token, slice_to (base64.EncodeToString src) n = Some token
                          /\ Z.of_nat (String.length token) = n).
  { intros src Hsrc. apply slice_to_in_bounds.
    rewrite EncodeToString_length, Hsrc.
    pose proof (encoded_length_covers (Z.to_nat n)). lia. }
  split.
  { intros src Hlen. rewrite EncodeToString_length, Hlen.
    split; [done | apply encoded_length_covers]. }
  rewrite generateSecureToken_run by lia.
  unfold rand_Read. case_decide as Hle.
  - destruct (Hslice (take (Z.to_nat n) (entropy w))) as (token & Hs & Hl).
    { rewrite length_take. lia. }
    rewrite Hs. split; [eauto|]. split; [eauto|]. intros Hshort. lia.
  - split; [by destruct (randReadFatal _)|]. split; [intros ?; lia|].
    intros _. destruct (randReadFatal _); [done|]. eauto.
Qed.

Lemma generateSecureToken_witness :
  exists token w',
    generateSecureToken 48 seededWorld = Returns (inl token, w')
    /\ Z.of_nat (String.length token) = 48.
Proof.
  pose proof (generateSecureToken_total 48 seededWorld ltac:(lia)
                ltac:(vm_compute; discriminate)) as (_ & _ & Hrun & _).
  destruct Hrun as (token & Hrun & Hlen); [vm_compute; lia|].
  exists token. eexists. split; [exact Hrun | exact Hlen].
Defined.

(** C10 as first stated, at two failing inputs.  The length 2^62 is
    positive, and [make] refuses it on every platform (here one that
    serves up to 2^48 bytes): generateSecureToken panics, so it is not
    total on the positive lengths.  And in a process built with Go 1.24 or
    later whose random source fails, generateSecureToken(48) returns no
    error: the process is ended. *)
Lemma generateSecureToken_not_total :
  0 < 2 ^ 62
  /\ generateSecureToken (2 ^ 62) seededWorld = Panics "makeslice: len out of range"
  /\ 0 < 48
  /\ rand_Read 48 exhaustedGo124 = Panics "fatal error: crypto/rand: failed to read random data"
  /\ generateSecureToken 48 exhaustedGo124
     = Panics "fatal error: crypto/rand: failed to read random data".
Proof.
  split; [lia|]. split.
  { apply generateSecureToken_beyond_alloc. vm_compute. reflexivity. }
  split; [lia|]. split; [reflexivity|].
  rewrite generateSecureToken_run; [reflexivity|lia|vm_compute; discriminate].
Qed.

(** ** The upsert protocol (C5) *)

Lemma strings_Contains_app_r (a b substr : string) :
  strings_Contains b substr = true -> strings_Contains (a +:+ b) substr = true.
Proof.
  intros Hb. induction a as [|c a IH]; [done|].
  change (strings_Contains (String c a +:+ b) substr)
    with (if String.prefix substr (String c (a +:+ b)) then true
          else strings_Contains (a +:+ b) substr).
  by destruct (String.prefix substr (String c (a +:+ b))).
Qed.

Lemma alreadyExists_message resource name :
  strings_Contains (Error (alreadyExists resource name)) "already exists" = true.
Proof.
  unfold alreadyExists, Error.
  do 3 apply strings_Contains_app_r. reflexivity.
Qed.

Lemma pretty_N_go_nonempty (x : N) (s : string) :
  s <> EmptyString -> pretty_N_go x s <> EmptyString.
Proof.
  revert s. induction (N.lt_wf_0 x) as [x _ IH]; intros s Hs.
  destruct (decide (x = 0%N)) as [->|Hx]; [by rewrite pretty_N_go_0|].
  rewrite pretty_N_go_step by lia.
  apply IH; [apply N.div_lt; lia | done].
Qed.

Lemma pretty_N_nonempty (x : N) : pretty x <> EmptyString.
Proof.
  unfold pretty, pretty_N. case_decide; [done|].
  rewrite pretty_N_go_step by lia. by apply pretty_N_go_nonempty.
Qed.

Lemma kindManifest_name kind pe teamID now limits :
  policyName (kindManifest kind pe teamID now limits) = kindPolicyName kind teamID.
Proof. by destruct kind. Qed.

Lemma kindManifest_identity kind pe teamID now limits :
  resourceVersion (kindManifest kind pe teamID now limits) = EmptyString
  /\ uid (kindManifest kind pe teamID now limits) = EmptyString.
Proof. by destruct kind. Qed.

Lemma publish_unfold kind pe teamID limits w :
  kindLimit kind limits <> -1 -> teamID <> "default" ->
  publish kind pe teamID limits w
  = policies.createOrUpdate (kindGVR kind) (kindTypeName kind)
      (kindManifest kind pe teamID (clock w) limits) w.
Proof.
  intros Hl Ht.
  destruct kind; simpl in *;
    unfold policies.CreateTeamTokenRateLimit, policies.CreateTeamRequestRateLimit;
    repeat case_decide; done.
Qed.

(** Create on a free name: one call, the object is stored. *)
Lemma createOrUpdate_creates gvr what p w :
  faults w (PolicyCreate gvr (policyName p)) = None ->
  policyObjects w !! (gvr, policyName p) = None ->
  policies.createOrUpdate gvr what p w
  = Returns (None,
             withPolicyObjects (record (PolicyCreate gvr (policyName p)) w)
               (<[(gvr, policyName p) := created p (revision w)]> (policyObjects w))).
Proof.
  intros Hf Hl.
  unfold policies.createOrUpdate, bind, Policy_Create, storeCall.
  rewrite Hf. simpl. by rewrite Hl.
Qed.

(** Create on a taken name: the create is refused with "already exists",
    the existing object is fetched, its resource version and UID are set
    on the new definition, and the update carries them. *)
Lemma createOrUpdate_updates gvr what p existing w :
  faults w (PolicyCreate gvr (policyName p)) = None ->
  faults w (PolicyGet gvr (policyName p)) = None ->
  faults w (PolicyUpdate gvr (policyName p) (resourceVersion existing) (uid existing)) = None ->
  policyObjects w !! (gvr, policyName p) = Some existing ->
  resourceVersion existing <> EmptyString ->
  Policy_Create gvr p w
  = Returns (inr (alreadyExists (qualifiedResource gvr) (policyName p)),
             record (PolicyCreate gvr (policyName p)) w)
  /\ policies.createOrUpdate gvr what p w
     = Returns (None,
         withPolicyObjects
           (record (PolicyUpdate gvr (policyName p) (resourceVersion existing) (uid existing))
              (record (PolicyGet gvr (policyName p))
                 (record (PolicyCreate gvr (policyName p)) w)))
           (<[(gvr, policyName p) := updated p existing (revision w)]> (policyObjects w))).
Proof.
  intros Hc Hg Hu Hl Hrv.
  assert (Hcreate : Policy_Create gvr p w
            = Returns (inr (alreadyExists (qualifiedResource gvr) (policyName p)),
                       record (PolicyCreate gvr (policyName p)) w)).
  { unfold Policy_Create, storeCall. rewrite Hc. simpl. by rewrite Hl. }
  split; [exact Hcreate|].
  unfold policies.createOrUpdate, bind. rewrite Hcreate.
  rewrite alreadyExists_message.
  unfold Policy_Get, storeCall. simpl. rewrite Hg. simpl. rewrite Hl.
  unfold Policy_Update, storeCall. simpl. rewrite Hu. simpl. rewrite Hl.
  case_decide as He; [done|].
  case_decide as Hm; [done|].
  exfalso. apply Hm. auto.
Qed.

(** Any other create failure is returned, wrapped, after that one call. *)
Lemma createOrUpdate_create_fails gvr what p err w :
  faults w (PolicyCreate gvr (policyName p)) = Some err ->
  strings_Contains (Error err) "already exists" = false ->
  policies.createOrUpdate gvr what p w
  = Returns (Some (wrapError ("failed to create " +:+ what +:+ ": ") err),
             record (PolicyCreate gvr (policyName p)) w).
Proof.
  intros Hf Hn.
  unfold policies.createOrUpdate, bind, Policy_Create, storeCall.
  rewrite Hf. by rewrite Hn.
Qed.

(** A failing publication of either kind fails CreateTeamRateLimitPolicies;
    after a failed token publication the request publication is not tried. *)
Lemma CreateTeamRateLimitPolicies_token_error pe teamID limits err w w' :
  publish TokenKind pe teamID limits w = Returns (Some err, w') ->
  policies.CreateTeamRateLimitPolicies pe teamID limits w
  = Returns (Some (wrapError "failed to create token rate limit policy: " err), w').
Proof.
  unfold publish, policies.CreateTeamRateLimitPolicies, bind. simpl.
  unfold policies.tokenPolicyNameOf. by intros ->.
Qed.

Lemma CreateTeamRateLimitPolicies_request_error pe teamID limits err w w' w'' :
  publish TokenKind pe teamID limits w = Returns (None, w') ->
  publish RequestKind pe teamID limits w' = Returns (Some err, w'') ->
  policies.CreateTeamRateLimitPolicies pe teamID limits w
  = Returns (Some (wrapError "failed to create request rate limit policy: " err), w'').
Proof.
  unfold publish, policies.CreateTeamRateLimitPolicies, bind. simpl.
  unfold policies.tokenPolicyNameOf, policies.requestPolicyNameOf.
  by intros -> ->.
Qed.

(** C5.  Publishing the enforcement policy of one kind twice for one team
    is idempotent.  Starting without the object and with a policy store
    that answers, the first publication creates the object named
    team-{id}-{kind}-limits.  A second publication, at any later time and
    with any limits that are published, has its create refused with
    "already exists"; the existing object is fetched, and the update that
    follows carries that object's resource version and UID.  Afterwards the
    store holds one object under that name (the same names as after the
    first publication, one more than before it), and this object is the
    new definition, built from the new limits at the time of the second
    publication, with the UID of the first object and the version the
    store gives the update; nothing else of the first object is kept.  A
    create failure whose message does not say "already exists" is returned
    after that single call, and a failed publication of either kind fails
    CreateTeamRateLimitPolicies. *)
Theorem publish_twice_updates_in_place
    (kind : PolicyKind) (pe : policies.PolicyEngine) (teamID : string)
    (tierLimits : policies.TierLimits) (w : World) :
  let gvr := kindGVR kind in
  let name := kindPolicyName kind teamID in
  kindLimit kind tierLimits <> -1 ->
  teamID <> "default" ->
  faults w (PolicyCreate gvr name) = None ->
  policyObjects w !! (gvr, name) = None ->
  (exists w1 first,
      publish kind pe teamID tierLimits w = Returns (None, w1)
      /\ policyObjects w1 = <[(gvr, name) := first]> (policyObjects w)
      /\ limits first = limits (kindManifest kind pe teamID (clock w) tierLimits)
      /\ forall (newLimits : policies.TierLimits) (later : World),
           kindLimit kind newLimits <> -1 ->
           policyObjects later = policyObjects w1 ->
           faults later (PolicyCreate gvr name) = None ->
           faults later (PolicyGet gvr name) = None ->
           (forall rv u, faults later (PolicyUpdate gvr name rv u) = None) ->
           let definition := kindManifest kind pe teamID (clock later) newLimits in
           exists w2 second,
             Policy_Create gvr definition later
             = Returns (inr (alreadyExists (qualifiedResource gvr) name),
                        record (PolicyCreate gvr name) later)
             /\ publish kind pe teamID newLimits later = Returns (None, w2)
             /\ trace w2
                = trace later ++ [ PolicyCreate gvr name; PolicyGet gvr name;
                                   PolicyUpdate gvr name (resourceVersion first)
                                     (uid first) ]
             /\ policyObjects w2 = <[(gvr, name) := second]> (policyObjects w)
             /\ second
                = SetUID (SetResourceVersion definition (pretty (revision later)))
                         (uid first)
             /\ uid second = uid first
             /\ limits second = limits definition
             /\ policyAnnotations second = policyAnnotations definition
             /\ dom (policyObjects w2) = dom (policyObjects w1)
             /\ size (policyObjects w2) = S (size (policyObjects w)))
  /\ (forall w0 err,
        faults w0 (PolicyCreate gvr name) = Some err ->
        strings_Contains (Error err) "already exists" = false ->
        publish kind pe teamID tierLimits w0
        = Returns (Some (wrapError ("failed to create " +:+ kindTypeName kind +:+ ": ") err),
                   record (PolicyCreate gvr name) w0))
  /\ (forall w0 w' err,
        publish TokenKind pe teamID tierLimits w0 = Returns (Some err, w') ->
        policies.CreateTeamRateLimitPolicies pe teamID tierLimits w0
        = Returns (Some (wrapError "failed to create token rate limit policy: " err), w'))
  /\ (forall w0 w' w'' err,
        publish TokenKind pe teamID tierLimits w0 = Returns (None, w') ->
        publish RequestKind pe teamID tierLimits w' = Returns (Some err, w'') ->
        policies.CreateTeamRateLimitPolicies pe teamID tierLimits w0
        = Returns (Some (wrapError "failed to create request rate limit policy: " err), w'')).
Proof.
  intros gvr name Hlimit Hteam Hc Habsent.
  split; [|split; [|split]].
  - set (p := kindManifest kind pe teamID (clock w) tierLimits).
    assert (Hname : policyName p = name) by apply kindManifest_name.
    set (first := created p (revision w)).
    set (w1 := withPolicyObjects (record (PolicyCreate gvr name) w)
                 (<[(gvr, name) := first]> (policyObjects w))).
    assert (Hfirst : publish kind pe teamID tierLimits w = Returns (None, w1)).
    { rewrite publish_unfold by done. fold p gvr.
      rewrite createOrUpdate_creates; rewrite Hname; done. }
    assert (Hrv : resourceVersion first <> EmptyString) by apply pretty_N_nonempty.
    exists w1, first.
    split; [exact Hfirst|]. split; [done|]. split; [done|].
    intros newLimits later Hnew Hsame Hlc Hlg Hlu definition.
    assert (Hdname : policyName definition = name) by apply kindManifest_name.
    assert (Hl1 : policyObjects later !! (gvr, policyName definition) = Some first).
    { rewrite Hdname, Hsame. apply lookup_insert_eq. }
    destruct (createOrUpdate_updates gvr (kindTypeName kind) definition first later)
      as [Hcreate Hsecond].
    { rewrite Hdname. exact Hlc. }
    { rewrite Hdname. exact Hlg. }
    { rewrite Hdname. apply Hlu. }
    { exact Hl1. }
    { exact Hrv. }
    rewrite Hdname in Hcreate, Hsecond.
    exists
      (withPolicyObjects
         (record (PolicyUpdate gvr name (resourceVersion first) (uid first))
            (record (PolicyGet gvr name) (record (PolicyCreate gvr name) later)))
         (<[(gvr, name) := updated definition first (revision later)]> (policyObjects later))),
      (updated definition first (revision later)).
    split; [exact Hcreate|].
    split; [rewrite publish_unfold by done; exact Hsecond|].
    split; [simpl; by rewrite <- !app_assoc|].
    assert (Hobjects : policyObjects later = <[(gvr, name) := first]> (policyObjects w))
      by (by rewrite Hsame).
    split; [simpl; rewrite Hobjects; apply insert_insert_eq|].
    split; [done|]. split; [done|]. split; [done|]. split; [done|].
    split.
    + simpl. rewrite Hobjects, insert_insert_eq.
      change (policyObjects w1) with (<[(gvr, name) := first]> (policyObjects w)).
      by rewrite !dom_insert_L.
    + simpl. rewrite Hobjects, insert_insert_eq. by apply map_size_insert_None.
  - intros w0 err Hf Hn. rewrite publish_unfold by done.
    rewrite (createOrUpdate_create_fails _ _ _ err); rewrite ?kindManifest_name; done.
  - intros w0 w' err. apply CreateTeamRateLimitPolicies_token_error.
  - intros w0 w' w'' err. apply CreateTeamRateLimitPolicies_request_error.
Qed.

Lemma publish_twice_witness :
  exists w1 w2 first second,
    publish TokenKind testEngine "t1" policies.standardLimits emptyWorld = Returns (None, w1)
    /\ publish TokenKind testEngine "t1" policies.premiumLimits
         (atTime "2025-06-01T00:00:00Z" w1)
       = Returns (None, w2)
    /\ trace w2 =
       [ PolicyCreate policies.tokenRateLimitGVR "team-t1-token-limits";
         PolicyCreate policies.tokenRateLimitGVR "team-t1-token-limits";
         PolicyGet policies.tokenRateLimitGVR "team-t1-token-limits";
         PolicyUpdate policies.tokenRateLimitGVR "team-t1-token-limits"
           (resourceVersion first) (uid first) ]
    /\ policyObjects w2 = {[ (policies.tokenRateLimitGVR, "team-t1-token-limits") := second ]}
    /\ uid second = uid first
    /\ limits second
       = limits (policies.tokenPolicyManifest testEngine "t1" "team-t1-token-limits"
                   "2025-06-01T00:00:00Z" policies.premiumLimits)
    /\ limits second <> limits first
    /\ policyAnnotations first !! "maas/created-at" = Some "2025-01-01T00:00:00Z"
    /\ policyAnnotations second !! "maas/created-at" = Some "2025-06-01T00:00:00Z"
    /\ size (policyObjects w2) = 1%nat.
Proof.
  destruct (publish_twice_updates_in_place TokenKind testEngine "t1"
              policies.standardLimits emptyWorld)
    as [(w1 & first & H1 & Hw1 & Hl1 & Hagain) _];
    try done.
  assert (Htr : trace w1 = [PolicyCreate policies.tokenRateLimitGVR "team-t1-token-limits"]
                /\ first = created (policies.tokenPolicyManifest testEngine "t1"
                                      "team-t1-token-limits" "2025-01-01T00:00:00Z"
                                      policies.standardLimits) 1).
  { rewrite (publish_unfold TokenKind) in H1 by done.
    rewrite createOrUpdate_creates in H1 by done. injection H1 as <-.
    split; [done|]. simpl in Hw1.
    apply (f_equal (fun m => m !! (policies.tokenRateLimitGVR, "team-t1-token-limits")))
      in Hw1.
    rewrite !lookup_insert_eq in Hw1. by injection Hw1 as <-. }
  destruct Htr as [Htr Hfirst].
  destruct (Hagain policies.premiumLimits (atTime "2025-06-01T00:00:00Z" w1))
    as (w2 & second & _ & H2 & Ht & Hobj & Hsecond & Hu & Hl2 & Ha2 & _ & Hs);
    try done.
  { rewrite (publish_unfold TokenKind) in H1 by done.
    rewrite createOrUpdate_creates in H1 by done. by injection H1 as <-. }
  { rewrite (publish_unfold TokenKind) in H1 by done.
    rewrite createOrUpdate_creates in H1 by done. by injection H1 as <-. }
  { intros rv u. rewrite (publish_unfold TokenKind) in H1 by done.
    rewrite createOrUpdate_creates in H1 by done. by injection H1 as <-. }
  exists w1, w2, first, second.
  split; [exact H1|]. split; [exact H2|].
  split; [rewrite Ht; simpl; rewrite Htr; done|].
  split; [exact Hobj|]. split; [exact Hu|]. split; [exact Hl2|].
  split; [rewrite Hl2, Hfirst; simpl; vm_compute; discriminate|].
  split; [rewrite Hfirst; reflexivity|].
  split; [rewrite Ha2; reflexivity|exact Hs].
Defined.

(** ** What the publisher leaves alone *)

Lemma keepsSecrets_ret {A : Type} (a : A) : keepsSecrets (ret a).
Proof. intros w a' w' [= <- <-]. done. Qed.

Lemma keepsSecrets_bind {A B : Type} (m : M A) (k : A -> M B) :
  keepsSecrets m -> (forall a, keepsSecrets (k a)) -> keepsSecrets (bind m k).
Proof.
  intros Hm Hk w b w'. unfold bind.
  destruct (m w) as [[a w1]| |] eqn:Hmw; [|done|done].
  intros Hkw. destruct (Hm _ _ _ Hmw) as [Hs Hf].
  destruct (Hk _ _ _ _ Hkw) as [Hs' Hf']. split; congruence.
Qed.

Lemma keepsSecrets_storeCall {A : Type} (c : Call) (rule : World -> (A + error) * World) :
  (forall w, secrets (rule w).2 = secrets w /\ faults (rule w).2 = faults w) ->
  keepsSecrets (storeCall c rule).
Proof.
  intros Hrule w a w'. unfold storeCall.
  destruct (faults w c); [by intros [= <- <-]|].
  destruct (rule (record c w)) as [r w1] eqn:Hr. intros [= <- <-].
  specialize (Hrule (record c w)). rewrite Hr in Hrule. exact Hrule.
Qed.

Lemma keepsSecrets_time_Now : keepsSecrets time_Now_RFC3339.
Proof. intros w a w' [= <- <-]. done. Qed.

Lemma keepsSecrets_Policy_Create gvr p : keepsSecrets (Policy_Create gvr p).
Proof. apply keepsSecrets_storeCall. intros w. by case_match. Qed.

Lemma keepsSecrets_Policy_Get gvr name : keepsSecrets (Policy_Get gvr name).
Proof. apply keepsSecrets_storeCall. intros w. by case_match. Qed.

Lemma keepsSecrets_Policy_Update gvr p : keepsSecrets (Policy_Update gvr p).
Proof. apply keepsSecrets_storeCall. intros w. by repeat case_match. Qed.

Lemma keepsSecrets_Policy_Delete gvr name : keepsSecrets (Policy_Delete gvr name).
Proof. apply keepsSecrets_storeCall. intros w. by case_match. Qed.

Create HintDb keeps.
#[local] Hint Resolve keepsSecrets_ret keepsSecrets_time_Now keepsSecrets_Policy_Create
  keepsSecrets_Policy_Get keepsSecrets_Policy_Update keepsSecrets_Policy_Delete : keeps.

Ltac keeps :=
  repeat first
    [ apply keepsSecrets_bind; [auto with keeps | intros ?]
    | progress auto with keeps
    | case_match ].

Lemma keepsSecrets_createOrUpdate gvr what p : keepsSecrets (policies.createOrUpdate gvr what p).
Proof. unfold policies.createOrUpdate. keeps. Qed.

Lemma keepsSecrets_CreateTeamRateLimitPolicies pe teamID limits :
  keepsSecrets (policies.CreateTeamRateLimitPolicies pe teamID limits).
Proof.
  pose proof keepsSecrets_createOrUpdate.
  unfold policies.CreateTeamRateLimitPolicies, policies.CreateTeamTokenRateLimit,
    policies.CreateTeamRequestRateLimit.
  keeps.
Qed.

Lemma keepsSecrets_DeleteTeamPolicies pe teamID :
  keepsSecrets (policies.DeleteTeamPolicies pe teamID).
Proof.
  unfold policies.DeleteTeamPolicies, policies.DeleteTeamTokenRateLimit,
    policies.DeleteTeamRequestRateLimit.
  keeps.
Qed.

(** ** CreateTeam: the compensating delete (C1) *)

Lemma createTeamConfigSecret_written km req w0 teamSecret w1 :
  createTeamConfigSecret km req w0 = Returns (inl teamSecret, w1) ->
  teamSecret = teamConfigSecret req (clock w0)
  /\ faults w0 (SecretCreate (secretName teamSecret)) = None
  /\ secrets w0 !! secretName teamSecret = None
  /\ w1 = withSecrets (record (SecretCreate (secretName teamSecret)) w0)
            (<[secretName teamSecret := teamSecret]> (secrets w0)).
Proof.
  unfold createTeamConfigSecret, bind, time_Now_RFC3339, Secrets_Create, storeCall.
  destruct (faults w0 _) eqn:Hf; [done|]. simpl.
  destruct (secrets w0 !! _) eqn:Hl; [done|].
  by intros [= <- <-].
Qed.

Lemma teamLimits_world fuel env req w limits w' :
  teamLimits fuel env req w = Returns (limits, w') -> w' = w.
Proof.
  unfold teamLimits, GetTierLimits, bind, lift, ret.
  destruct (policies.GetTierLimits _ _ _); [|done|done]. by intros [= _ <-].
Qed.

Lemma errors_Is_refl e : errors_Is e e.
Proof. destruct e; simpl; auto. Qed.

Lemma errors_Is_wrap ctx e : errors_Is (wrapError ctx e) e.
Proof. simpl. right. apply errors_Is_refl. Qed.

Lemma Secrets_Delete_issues name w :
  exists d w',
    Secrets_Delete name w = Returns (d, w')
    /\ trace w' = trace w ++ [SecretDelete name]
    /\ (faults w (SecretDelete name) = None -> secrets w' = delete name (secrets w)).
Proof.
  unfold Secrets_Delete, storeCall.
  destruct (faults w (SecretDelete name)) as [e|].
  { eexists _, _. split; [done|]. split; [done|]. done. }
  simpl. destruct (secrets w !! name) eqn:Hl.
  - eexists _, _. split; [done|]. split; [done|]. done.
  - eexists _, _. split; [done|]. split; [done|]. intros _. simpl. by rewrite delete_id.
Qed.

(** C1, amended.  Let a CreateTeam request pass validation with policy
    management enabled, let its team record be written successfully (from
    the world left by the existence check), and let the
    resolution-and-publication that follows return the error [perr].  Then
    both entry points issue the delete of the record named team-{id}-config
    as their last store call and return: createTeamInternal returns [perr]
    wrapped as "failed to apply team policies: ...", so that [perr] is what
    [errors.Is] finds, while the createTeam handler, which only logs
    [perr], answers 500 with the fixed text "Failed to apply team
    policies", the same for every [perr]; the outcome of the delete does
    not change what is returned.  When the secret store serves that delete,
    the record does not exist afterwards and the secret store is back to
    what it was before the request. *)
Theorem createTeam_compensating_delete
    (fuel : nat) (env : Environ) (km : KeyManager)
    (req req' : CreateTeamRequest.t) (teamSecret : Secret) (perr : error)
    (w w1 w2 : World) :
  let name := teamConfigName (CreateTeamRequest.TeamID req') in
  enablePolicyMgmt km = true ->
  validateTeamRequest env km req = (req', None) ->
  createTeamConfigSecret km req' (record (SecretGet name) w) = Returns (inl teamSecret, w1) ->
  (let* limits := teamLimits fuel env req' in
   policies.CreateTeamRateLimitPolicies (newPolicyEngine km)
     (CreateTeamRequest.TeamID req') limits) w1 = Returns (Some perr, w2) ->
  exists w3,
    createTeamInternal fuel env km req w
    = Returns (Some (wrapError "failed to apply team policies: " perr), w3)
    /\ errors_Is (wrapError "failed to apply team policies: " perr) perr
    /\ createTeam fuel env km (BindOk req) w
       = Returns ({| status := StatusInternalServerError;
                     body := ErrorBody "Failed to apply team policies" |}, w3)
    /\ secretName teamSecret = name
    /\ secrets w1 !! name = Some teamSecret
    /\ trace w3 = trace w2 ++ [SecretDelete name]
    /\ (faults w (SecretDelete name) = None ->
        secrets w3 !! name = None /\ secrets w3 = secrets w).
Proof.
  intros name Hen Hv Hwritten Hpublish.
  destruct (createTeamConfigSecret_written _ _ _ _ _ Hwritten)
    as (Hsecret & Hcf & Habsent & Hw1).
  assert (Hname : secretName teamSecret = name) by (by rewrite Hsecret).
  rewrite Hname in Hcf, Habsent, Hw1. simpl in Habsent.
  unfold bind in Hpublish.
  destruct (teamLimits fuel env req' w1) as [[limits w1']| |] eqn:Hlimits; [|done|done].
  pose proof (teamLimits_world _ _ _ _ _ _ Hlimits) as ->.
  destruct (keepsSecrets_CreateTeamRateLimitPolicies _ _ _ _ _ _ Hpublish) as [Hs2 Hf2].
  assert (Hs1 : secrets w1 = <[name := teamSecret]> (secrets w)) by (by rewrite Hw1).
  assert (Hf1 : faults w1 = faults w) by (by rewrite Hw1).
  assert (Hget : exists r, Secrets_Get name w = Returns (inr r, record (SecretGet name) w)).
  { unfold Secrets_Get, storeCall.
    destruct (faults w (SecretGet name)); [eexists; reflexivity|].
    simpl. rewrite Habsent. eexists; reflexivity. }
  destruct Hget as [r Hget].
  destruct (Secrets_Delete_issues name w2) as (d & w3 & Hdel & Htrace & Hgone).
  exists w3.
  split.
  { unfold createTeamInternal. rewrite Hv. fold name.
    unfold bind. rewrite Hget, Hwritten.
    rewrite Hen, (policyEngine_enabled km Hen), Hlimits, Hpublish, Hname, Hdel. done. }
  split; [apply errors_Is_wrap|].
  split.
  { unfold createTeam. rewrite Hv. fold name.
    unfold bind. rewrite Hget, Hwritten.
    rewrite Hen, Hlimits, (policyEngine_enabled km Hen), Hpublish, Hname, Hdel. done. }
  split; [done|].
  split; [by rewrite Hs1, lookup_insert_eq|].
  split; [done|].
  intros Hserved. rewrite Hgone by (by rewrite Hf2, Hf1).
  rewrite Hs2, Hs1.
  split; [apply lookup_delete_eq | by apply delete_insert_id].
Qed.

Lemma createTeam_compensating_delete_witness :
  exists w3,
    createTeamInternal 1 ∅ testManager teamOne publishRefused
    = Returns (Some (wrapError "failed to apply team policies: " publishError), w3)
    /\ createTeam 1 ∅ testManager (BindOk teamOne) publishRefused
       = Returns ({| status := 500; body := ErrorBody "Failed to apply team policies" |}, w3)
    /\ secrets teamOneWritten !! "team-t1-config"
       = Some (teamConfigSecret teamOne "2025-01-01T00:00:00Z")
    /\ secrets w3 !! "team-t1-config" = None.
Proof.
  destruct (createTeam_compensating_delete 1 ∅ testManager teamOne teamOne
              (teamConfigSecret teamOne "2025-01-01T00:00:00Z") publishError
              publishRefused teamOneWritten
              (record (PolicyCreate policies.tokenRateLimitGVR "team-t1-token-limits")
                 teamOneWritten))
    as (w3 & Hinternal & _ & Hhandler & _ & Hbefore & _ & Hafter).
  - reflexivity.
  - reflexivity.
  - vm_compute. reflexivity.
  - vm_compute. reflexivity.
  - exists w3. split; [exact Hinternal|]. split; [exact Hhandler|].
    split; [exact Hbefore | exact (proj1 (Hafter eq_refl))].
Defined.

(** C1 as first stated, at a failing input.  CreateTeam(t1, standard) on
    an empty secret store whose policy store refuses every create: the
    team record is written, the publication returns [publishError], and
    the createTeam handler answers with the fixed text "Failed to apply
    team policies".  That text is not the text of the publish error and
    holds neither it nor its cause, and the answer is the same whatever
    the store answered to the create: the caller of the endpoint is not
    given the original publish error, which the handler only logs. *)
Lemma createTeam_answer_hides_publish_error :
  createTeamConfigSecret testManager teamOne
    (record (SecretGet "team-t1-config") publishRefused)
  = Returns (inl (teamConfigSecret teamOne "2025-01-01T00:00:00Z"), teamOneWritten)
  /\ answer (let* limits := teamLimits 1 ∅ teamOne in
             policies.CreateTeamRateLimitPolicies (newPolicyEngine testManager) "t1" limits)
            teamOneWritten
     = Some (Some publishError)
  /\ answer (createTeam 1 ∅ testManager (BindOk teamOne)) publishRefused
     = Some {| status := StatusInternalServerError;
               body := ErrorBody "Failed to apply team policies" |}
  /\ ErrorBody "Failed to apply team policies" <> ErrorBody (Error publishError)
  /\ strings_Contains "Failed to apply team policies" (Error publishError) = false
  /\ strings_Contains "Failed to apply team policies" (Error (rootCause publishError)) = false
  /\ answer (createTeam 1 ∅ testManager (BindOk teamOne)) publishForbidden
     = answer (createTeam 1 ∅ testManager (BindOk teamOne)) publishRefused.
Proof.
  split; [reflexivity|].
  split; [vm_compute; reflexivity|].
  split; [vm_compute; reflexivity|].
  split; [discriminate|].
  split; [vm_compute; reflexivity|].
  split; vm_compute; reflexivity.
Qed.

(** ** Create a key, then delete it by its secret (C6) *)

Lemma append_length (a b : string) :
  String.length (a +:+ b) = (String.length a + String.length b)%nat.
Proof. induction a as [|c a IH]; simpl; [done | by rewrite IH]. Qed.

Lemma hexWord_length (x : N) : String.length (sha256.hexWord x) = 8%nat.
Proof. reflexivity. Qed.

(** A SHA-256 digest in hex is 64 characters, whatever the input. *)
Lemma hexSum_length (s : string) : String.length (sha256.hexSum s) = 64%nat.
Proof.
  unfold sha256.hexSum. rewrite !append_length, !hexWord_length. done.
Qed.

Lemma fingerprint_total (apiKey : string) :
  fingerprint apiKey = Some (fingerprintOf apiKey)
  /\ String.length (fingerprintOf apiKey) = 32%nat.
Proof.
  split.
  - unfold fingerprint, fingerprintOf, slice_to. by rewrite hexSum_length.
  - unfold fingerprintOf. apply substring_length. rewrite hexSum_length. lia.
Qed.

Lemma slice_to_hash8 (apiKey : string) :
  slice_to (sha256.hexSum apiKey) 8 = Some (String.substring 0 8 (sha256.hexSum apiKey)).
Proof. unfold slice_to. rewrite hexSum_length. done. Qed.

Lemma matches_fingerprint apiKey labels :
  matchesSelector (fingerprintSelector apiKey) labels = true
  <-> labels !! "maas/key-sha256" = Some (fingerprintOf apiKey).
Proof.
  unfold matchesSelector, fingerprintSelector. simpl.
  rewrite andb_true_r. apply bool_decide_eq_true.
Qed.

Lemma selected_none sel (m : gmap string Secret) :
  (forall name s, m !! name = Some s -> matchesSelector sel (secretLabels s) <> true) ->
  selected sel m = [].
Proof.
  intros Hnone. unfold selected.
  assert (Hall : Forall (fun kv => m !! kv.1 = Some kv.2) (map_to_list m)).
  { apply Forall_forall. intros [name s] Hin. by apply elem_of_map_to_list. }
  induction Hall as [|[name s] l Hhead _ IH]; [done|].
  rewrite fmap_cons, filter_cons_False; [exact IH|].
  by apply (Hnone name).
Qed.

Lemma selected_insert_only sel (m : gmap string Secret) name s :
  m !! name = None ->
  matchesSelector sel (secretLabels s) = true ->
  (forall n x, m !! n = Some x -> matchesSelector sel (secretLabels x) <> true) ->
  selected sel (<[name := s]> m) = [s].
Proof.
  intros Hfresh Hs Hnone. apply Permutation_singleton_r.
  unfold selected. rewrite map_to_list_insert by done.
  rewrite fmap_cons, filter_cons_True by done.
  fold (selected sel m). by rewrite selected_none.
Qed.

Lemma keepsSecrets_lift {A : Type} (r : Run A) : keepsSecrets (lift r).
Proof. intros w a w'. unfold lift. destruct r; [|done|done]. by intros [= <- <-]. Qed.

Lemma keepsSecrets_Secrets_Get name : keepsSecrets (Secrets_Get name).
Proof. apply keepsSecrets_storeCall. intros w. by case_match. Qed.

Lemma keepsSecrets_Secrets_List sel : keepsSecrets (Secrets_List sel).
Proof. by apply keepsSecrets_storeCall. Qed.

Lemma keepsSecrets_make_bytes n : keepsSecrets (make_bytes n).
Proof. intros w u w' Hmake. by apply make_bytes_inv in Hmake as [-> _]. Qed.

Lemma keepsSecrets_generateSecureToken n : keepsSecrets (generateSecureToken n).
Proof.
  unfold generateSecureToken.
  apply keepsSecrets_bind; [apply keepsSecrets_make_bytes|]. intros _.
  apply keepsSecrets_bind.
  - intros w a w'. unfold rand_Read. case_decide; [by intros [= <- <-]|].
    destruct (randReadFatal _); [done|]. by intros [= <- <-].
  - intros [src|err]; [|apply keepsSecrets_ret].
    apply keepsSecrets_bind.
    + unfold URLEncoding_EncodeToString.
      apply keepsSecrets_bind; [apply keepsSecrets_make_bytes|].
      intros _. apply keepsSecrets_ret.
    + intros encoded.
      destruct (slice_to _ _); [apply keepsSecrets_ret | by intros w a w'].
Qed.

#[local] Hint Resolve keepsSecrets_lift keepsSecrets_Secrets_Get keepsSecrets_Secrets_List
  keepsSecrets_generateSecureToken : keeps.

Lemma keepsSecrets_buildInheritedPolicies fuel env km member :
  keepsSecrets (buildInheritedPolicies fuel env km member).
Proof. unfold buildInheritedPolicies, GetTierLimits. keeps. Qed.

Lemma keepsSecrets_defaultTeamMember fuel env km teamID userID :
  keepsSecrets (defaultTeamMember fuel env km teamID userID).
Proof. unfold defaultTeamMember, GetTierLimits. keeps. Qed.

Lemma keepsSecrets_validateTeamMembershipFromAPIKey fuel env km teamID userID :
  keepsSecrets (validateTeamMembershipFromAPIKey fuel env km teamID userID).
Proof. unfold validateTeamMembershipFromAPIKey, GetTierLimits. keeps. Qed.

(** What a successful createEnhancedKeySecret has written. *)
Lemma createEnhancedKeySecret_created km teamID req apiKey member w s w' :
  createEnhancedKeySecret km teamID req apiKey member w = Returns (inl s, w') ->
  secrets w !! secretName s = None
  /\ secrets w' = <[secretName s := s]> (secrets w)
  /\ faults w' = faults w
  /\ secretLabels s !! "maas/key-sha256" = Some (fingerprintOf apiKey)
  /\ secretStringData s !! "api_key" = Some apiKey.
Proof.
  unfold createEnhancedKeySecret.
  rewrite slice_to_hash8, (proj1 (fingerprint_total apiKey)).
  unfold bind, time_Now_RFC3339, Secrets_Create, storeCall.
  destruct (faults w _) eqn:Hf; [done|]. cbn [secretName].
  destruct (secrets _ !! _) eqn:Hl; [done|].
  intros [= <- <-]. cbn [secretName secretLabels secretStringData secrets faults withSecrets record].
  split; [exact Hl|]. split; [done|]. split; [done|]. split.
  - cbn [list_to_map foldr fst snd uncurry].
    rewrite !lookup_insert_ne by done. apply lookup_insert_eq.
  - apply lookup_singleton_eq.
Qed.

Lemma issueTeamKey_created fuel env km teamID req member w r w1 :
  issueTeamKey fuel env km teamID req member w
  = Returns ({| status := StatusOK; body := KeyCreated r |}, w1) ->
  exists s, keyRecordOf r w w1 s.
Proof.
  unfold issueTeamKey. intros Hrun.
  apply bind_returns in Hrun as ([apiKey|err] & wa & Hgen & Hrun); [|done].
  destruct (keepsSecrets_generateSecureToken _ _ _ _ Hgen) as [Hsa Hfa].
  apply bind_returns in Hrun as ([s|err] & wb & Hcreate & Hrun);
    [|by destruct (strings_Contains _ _)].
  destruct (createEnhancedKeySecret_created _ _ _ _ _ _ _ _ Hcreate)
    as (Hfresh & Hsb & Hfb & Hlabel & Hdata).
  apply bind_returns in Hrun as (h & wc & Hbuild & Hrun).
  destruct (keepsSecrets_buildInheritedPolicies _ _ _ _ _ _ _ Hbuild) as [Hsc Hfc].
  injection Hrun as <- <-.
  exists s. unfold keyRecordOf. simpl.
  rewrite Hsc, Hsb, Hfc, Hfb, <- Hsa, <- Hfa. done.
Qed.

Lemma createTeamKey_created fuel env km teamID req w r w1 :
  createTeamKey fuel env km teamID (BindOk req) w
  = Returns ({| status := StatusOK; body := KeyCreated r |}, w1) ->
  exists s, keyRecordOf r w w1 s.
Proof.
  unfold createTeamKey. intros Hrun.
  apply bind_returns in Hrun as ([got|err] & w0 & Hget & Hrun); [|done].
  destruct (keepsSecrets_Secrets_Get _ _ _ _ Hget) as [Hs0 Hf0].
  assert (Hissue : exists member w0', secrets w0' = secrets w /\ faults w0' = faults w
            /\ issueTeamKey fuel env km teamID req member w0'
               = Returns ({| status := StatusOK; body := KeyCreated r |}, w1)).
  { case_decide.
    - apply bind_returns in Hrun as (member & w0' & Hmember & Hrun).
      destruct (keepsSecrets_defaultTeamMember _ _ _ _ _ _ _ _ Hmember) as [Hs Hf].
      exists member, w0'. split; [congruence|]. split; [congruence|done].
    - apply bind_returns in Hrun as ([member|err] & w0' & Hmember & Hrun); [|done].
      destruct (keepsSecrets_validateTeamMembershipFromAPIKey _ _ _ _ _ _ _ _ Hmember)
        as [Hs Hf].
      exists member, w0'. split; [congruence|]. split; [congruence|done]. }
  destruct Hissue as (member & w0' & Hs & Hf & Hissue).
  destruct (issueTeamKey_created _ _ _ _ _ _ _ _ _ Hissue) as (s & Hrec).
  exists s. unfold keyRecordOf in *. by rewrite <- Hs, <- Hf.
Qed.

(** C6.  Let CreateAPIKey answer 200 with a secret, in a store where no
    other record carried that secret's fingerprint, and let the store
    serve the list and the delete.  The record written for the key carries
    as its lookup label the first 32 hex characters of the SHA-256 of the
    secret, which is what DeleteAPIKeyBySecret recomputes; so the first
    delete by that secret finds exactly this record, deletes it and
    answers 200, and a second delete by the same secret finds nothing and
    answers 404 "API key not found". *)
Theorem deleteKey_after_createTeamKey
    (fuel : nat) (env : Environ) (km : KeyManager) (teamID : string)
    (req : CreateTeamKeyRequest.t) (r : CreateTeamKeyResponse.t) (w w1 : World) :
  let secret := CreateTeamKeyResponse.APIKey r in
  let byKey := BindOk {| DeleteKeyRequest.Key := secret |} in
  createTeamKey fuel env km teamID (BindOk req) w
  = Returns ({| status := StatusOK; body := KeyCreated r |}, w1) ->
  fingerprintFree secret (secrets w) ->
  faults w (SecretList (fingerprintSelector secret)) = None ->
  faults w (SecretDelete (CreateTeamKeyResponse.SecretName r)) = None ->
  exists keyRecord w2 w3,
    fingerprint secret = Some (fingerprintOf secret)
    /\ String.length (fingerprintOf secret) = 32%nat
    /\ secrets w1 !! CreateTeamKeyResponse.SecretName r = Some keyRecord
    /\ secretLabels keyRecord !! "maas/key-sha256" = Some (fingerprintOf secret)
    /\ secretStringData keyRecord !! "api_key" = Some secret
    /\ selected (fingerprintSelector secret) (secrets w1) = [keyRecord]
    /\ deleteKey km byKey w1
       = Returns (keyDeleted (CreateTeamKeyResponse.SecretName r), w2)
    /\ secrets w2 !! CreateTeamKeyResponse.SecretName r = None
    /\ secrets w2 = secrets w
    /\ deleteKey km byKey w2 = Returns (keyNotFound, w3).
Proof.
  intros secret byKey Hcreate Hfree Hlist Hdelete.
  destruct (createTeamKey_created _ _ _ _ _ _ _ _ Hcreate)
    as (s & Hname & Hfresh & Hs1 & Hf1 & Hlabel & Hdata).
  fold secret in Hlabel, Hdata.
  destruct (fingerprint_total secret) as [Hfp Hlen].
  assert (Hsel1 : selected (fingerprintSelector secret) (secrets w1) = [s]).
  { rewrite Hs1. apply selected_insert_only; [done | by apply matches_fingerprint |].
    intros n x Hx Hm. apply matches_fingerprint in Hm. by apply (Hfree n x). }
  assert (Hsel0 : selected (fingerprintSelector secret) (secrets w) = []).
  { apply selected_none. intros n x Hx Hm.
    apply matches_fingerprint in Hm. by apply (Hfree n x). }
  set (wl := record (SecretList (fingerprintSelector secret)) w1).
  set (w2 := withSecrets (record (SecretDelete (secretName s)) wl)
               (delete (secretName s) (secrets wl))).
  assert (Hs2 : secrets w2 = secrets w).
  { unfold w2, wl. simpl. rewrite Hs1. by apply delete_insert_id. }
  assert (Hlook : secrets w1 !! secretName s = Some s).
  { rewrite Hs1. apply lookup_insert_eq. }
  assert (Hdelete' : faults w (SecretDelete (secretName s)) = None) by (by rewrite Hname).
  assert (Hfirst : deleteKey km byKey w1 = Returns (keyDeleted (secretName s), w2)).
  { unfold deleteKey, byKey. cbn [DeleteKeyRequest.Key]. rewrite Hfp.
    unfold bind, Secrets_List, storeCall.
    fold (fingerprintSelector secret). rewrite Hf1, Hlist. simpl.
    rewrite Hsel1. unfold Secrets_Delete, storeCall. simpl.
    rewrite Hf1, Hdelete'. simpl. rewrite Hlook. done. }
  assert (Hf2 : faults w2 = faults w) by (unfold w2, wl; simpl; exact Hf1).
  clearbody w2.
  exists s, w2, (record (SecretList (fingerprintSelector secret)) w2).
  split; [done|]. split; [done|].
  split; [by rewrite <- Hname|].
  split; [done|]. split; [done|]. split; [done|].
  split; [by rewrite <- Hname|].
  split; [by rewrite Hs2, <- Hname|].
  split; [done|].
  unfold deleteKey, byKey. cbn [DeleteKeyRequest.Key]. rewrite Hfp.
  unfold bind, Secrets_List, storeCall.
  fold (fingerprintSelector secret).
  rewrite Hf2, Hlist. simpl. rewrite Hs2, Hsel0. done.
Qed.

Lemma answer_returns {A : Type} (m : M A) (w : World) (a : A) :
  answer m w = Some a -> m w = Returns (a, worldAfter m w).
Proof.
  unfold answer, worldAfter. destruct (m w) as [[x w']| |]; [|done|done].
  by intros [= ->].
Qed.

Lemma deleteKey_after_createTeamKey_witness :
  let r := keyResponse aliceCreates defaultTeamWorld in
  let secret := CreateTeamKeyResponse.APIKey r in
  let byKey := BindOk {| DeleteKeyRequest.Key := secret |} in
  secret = "QUFBQUFBQUFBQUFBQUFBQUFBQUFBQUFBQUFBQUFBQUFBQUFB"
  /\ exists w2 w3,
       deleteKey testManager byKey (worldAfter aliceCreates defaultTeamWorld)
       = Returns (keyDeleted "apikey-alice-default-3da46860", w2)
       /\ secrets w2 = secrets defaultTeamWorld
       /\ deleteKey testManager byKey w2 = Returns (keyNotFound, w3).
Proof.
  intros r secret byKey. split; [vm_compute; reflexivity|].
  destruct (deleteKey_after_createTeamKey 1 ∅ testManager "default" aliceKey r
              defaultTeamWorld (worldAfter aliceCreates defaultTeamWorld))
    as (keyRecord & w2 & w3 & _ & _ & _ & _ & _ & _ & Hfirst & _ & Hrestored & Hsecond).
  - apply answer_returns. vm_compute. reflexivity.
  - intros name s Hs. cbn [secrets defaultTeamWorld] in Hs.
    apply lookup_singleton_Some in Hs as [_ <-].
    vm_compute. discriminate.
  - reflexivity.
  - reflexivity.
  - exists w2, w3. split; [exact Hfirst|]. split; [exact Hrestored | exact Hsecond].
Defined.

(** ** CreateAPIKey and membership (C3) *)

(** C3, what the code does.  On an existing team other than "default", a
    CreateAPIKey call for a user who holds no key record on that team is
    answered 403 "User is not a member of this team" after the existence
    check and the membership listing, and nothing is written.  The very
    first call for a (team, user) pair is such a call, so it is refused as
    well, where the claim says it succeeds and establishes membership. *)
Theorem createTeamKey_without_prior_key_refused
    (fuel : nat) (env : Environ) (km : KeyManager) (teamID : string)
    (req : CreateTeamKeyRequest.t) (teamRecord : Secret) (w : World) :
  let userID := CreateTeamKeyRequest.UserID req in
  teamID <> "default" ->
  faults w (SecretGet (teamConfigName teamID)) = None ->
  secrets w !! teamConfigName teamID = Some teamRecord ->
  faults w (SecretList (membershipSelector teamID userID)) = None ->
  selected (membershipSelector teamID userID) (secrets w) = [] ->
  exists w',
    createTeamKey fuel env km teamID (BindOk req) w = Returns (notAMember, w')
    /\ secrets w' = secrets w
    /\ trace w' = trace w ++ [ SecretGet (teamConfigName teamID);
                               SecretList (membershipSelector teamID userID) ].
Proof.
  intros userID Hteam Hfget Hexists Hflist Hnokey.
  eexists. split.
  - unfold createTeamKey, bind, Secrets_Get, storeCall.
    rewrite Hfget. simpl. rewrite Hexists.
    case_decide; [done|].
    unfold validateTeamMembershipFromAPIKey, bind, Secrets_List, storeCall. simpl.
    fold userID. rewrite Hflist. simpl. rewrite Hnokey. reflexivity.
  - simpl. split; [done|]. by rewrite <- app_assoc.
Qed.

Lemma createTeamKey_first_call_witness :
  exists w',
    createTeamKey 1 ∅ testManager "t1" (BindOk aliceKey) teamOneWorld
    = Returns ({| status := 403; body := ErrorBody "User is not a member of this team" |}, w')
    /\ secrets w' = secrets teamOneWorld
    /\ trace w' = [ SecretGet "team-t1-config";
                    SecretList [ ("kuadrant.io/apikeys-by", "rhcl-keys");
                                 ("maas/team-id", "t1"); ("maas/user-id", "alice") ] ].
Proof.
  apply (createTeamKey_without_prior_key_refused 1 ∅ testManager "t1" aliceKey
           (teamConfigSecret teamOne "2025-01-01T00:00:00Z") teamOneWorld).
  - discriminate.
  - reflexivity.
  - reflexivity.
  - reflexivity.
  - vm_compute. reflexivity.
Defined.

(** For the default team the membership is synthesized: no answer is a
    403, whatever the store holds. *)
Lemma issueTeamKey_never_forbidden fuel env km teamID req member w resp w' :
  issueTeamKey fuel env km teamID req member w = Returns (resp, w') ->
  status resp <> StatusForbidden.
Proof.
  unfold issueTeamKey. intros Hrun.
  apply bind_returns in Hrun as ([apiKey|err] & wa & _ & Hrun);
    [|by injection Hrun as <- _].
  apply bind_returns in Hrun as ([s|err] & wb & _ & Hrun).
  - apply bind_returns in Hrun as (h & wc & _ & Hrun). by injection Hrun as <- _.
  - destruct (strings_Contains _ _); by injection Hrun as <- _.
Qed.

Lemma createTeamKey_default_never_forbidden fuel env km bound w resp w' :
  createTeamKey fuel env km "default" bound w = Returns (resp, w') ->
  status resp <> StatusForbidden.
Proof.
  unfold createTeamKey. destruct bound as [req|err]; [|by intros [= <- _]].
  intros Hrun.
  apply bind_returns in Hrun as ([got|err] & w0 & _ & Hrun); [|by injection Hrun as <- _].
  case_decide; [|done].
  apply bind_returns in Hrun as (member & w1 & _ & Hrun).
  by eapply issueTeamKey_never_forbidden.
Qed.

(** On the default team a first key is issued without any key record. *)
Example createTeamKey_default_first_call :
  exists r w',
    createTeamKey 1 ∅ testManager "default" (BindOk aliceKey) defaultTeamWorld
    = Returns ({| status := 200; body := KeyCreated r |}, w')
    /\ selected (membershipSelector "default" "alice") (secrets defaultTeamWorld) = [].
Proof.
  exists (keyResponse aliceCreates defaultTeamWorld),
         (worldAfter aliceCreates defaultTeamWorld).
  split; [apply answer_returns|]; vm_compute; reflexivity.
Qed.

(** ** DeleteTeam (C8) *)

Section Preserves.
Context (R : relation World) `{!PreOrder R}.
Hypothesis R_record : forall c w, R w (record c w).

Lemma preserves_ret {A : Type} (a : A) : preserves R (ret a).
Proof. intros w a' w' [= <- <-]. reflexivity. Qed.

Lemma preserves_bind {A B : Type} (m : M A) (k : A -> M B) :
  preserves R m -> (forall a, preserves R (k a)) -> preserves R (bind m k).
Proof.
  intros Hm Hk w b w' Hrun.
  apply bind_returns in Hrun as (a & w1 & Hmw & Hkw).
  etrans; [by eapply Hm | by eapply Hk].
Qed.

Lemma preserves_storeCall {A : Type} (c : Call) (rule : World -> (A + error) * World) :
  (forall w, R w (rule w).2) -> preserves R (storeCall c rule).
Proof.
  intros Hrule w a w'. unfold storeCall.
  destruct (faults w c); [intros [= <- <-]; apply R_record|].
  destruct (rule (record c w)) as [r w1] eqn:Hr. intros [= <- <-].
  etrans; [apply R_record|]. specialize (Hrule (record c w)). by rewrite Hr in Hrule.
Qed.

Lemma preserves_JSON code b : preserves R (JSON code b).
Proof. apply preserves_ret. Qed.
End Preserves.

#[local] Instance sameRequestPolicies_preorder : PreOrder sameRequestPolicies.
Proof.
  split; [by intros w name|].
  intros w1 w2 w3 H12 H23 name. by rewrite H23, H12.
Qed.

Lemma sameRequestPolicies_record c w : sameRequestPolicies w (record c w).
Proof. by intros name. Qed.

Lemma sameRequestPolicies_Policy_Delete gvr name :
  gvr <> policies.rateLimitGVR ->
  preserves sameRequestPolicies (Policy_Delete gvr name).
Proof.
  intros Hgvr. apply preserves_storeCall; [apply _ | apply sameRequestPolicies_record |].
  intros w. case_match; simpl; [|done].
  intros n. simpl. apply lookup_delete_ne. congruence.
Qed.

Lemma sameRequestPolicies_secretRule {A : Type} (c : Call)
    (rule : World -> (A + error) * World) :
  (forall w, policyObjects (rule w).2 = policyObjects w) ->
  preserves sameRequestPolicies (storeCall c rule).
Proof.
  intros Hrule. apply preserves_storeCall; [apply _ | apply sameRequestPolicies_record |].
  intros w name. by rewrite Hrule.
Qed.

Lemma sameRequestPolicies_ret {A : Type} (a : A) : preserves sameRequestPolicies (ret a).
Proof. apply preserves_ret. apply _. Qed.

Lemma sameRequestPolicies_bind {A B : Type} (m : M A) (k : A -> M B) :
  preserves sameRequestPolicies m ->
  (forall a, preserves sameRequestPolicies (k a)) ->
  preserves sameRequestPolicies (bind m k).
Proof. apply preserves_bind. apply _. Qed.

Lemma sameRequestPolicies_DeleteTeamPolicies pe teamID :
  preserves sameRequestPolicies (policies.DeleteTeamPolicies pe teamID).
Proof.
  unfold policies.DeleteTeamPolicies, policies.DeleteTeamTokenRateLimit,
    policies.DeleteTeamRequestRateLimit.
  apply sameRequestPolicies_bind.
  { apply sameRequestPolicies_bind; [by apply sameRequestPolicies_Policy_Delete|].
    intros [?|?]; apply sameRequestPolicies_ret. }
  intros _. apply sameRequestPolicies_bind; [|intros _; apply sameRequestPolicies_ret].
  apply sameRequestPolicies_bind; [by apply sameRequestPolicies_Policy_Delete|].
  intros [?|?]; apply sameRequestPolicies_ret.
Qed.

(** Whatever DeleteTeam answers, every object stored where
    CreateTeamRequestRateLimit creates request policies is still there:
    the delete is addressed to version v1beta3, the create to v1. *)
Lemma deleteTeam_keeps_request_policies km teamID :
  preserves sameRequestPolicies (deleteTeam km teamID).
Proof.
  unfold deleteTeam, deleteAllTeamKeys, nilPolicyEngine.
  apply sameRequestPolicies_bind.
  { apply sameRequestPolicies_secretRule. intros w. by case_match. }
  intros [teamSecret|err]; [|apply sameRequestPolicies_ret].
  apply sameRequestPolicies_bind.
  { destruct (enablePolicyMgmt km); [|apply sameRequestPolicies_ret].
    destruct (policyEngine km); [|by intros w a w'].
    apply sameRequestPolicies_DeleteTeamPolicies. }
  intros _. apply sameRequestPolicies_bind.
  { apply sameRequestPolicies_bind; [by apply sameRequestPolicies_secretRule|].
    intros [?|?]; apply sameRequestPolicies_ret. }
  intros _. apply sameRequestPolicies_bind.
  { apply sameRequestPolicies_secretRule. intros w. by case_match. }
  intros [?|?]; apply sameRequestPolicies_ret.
Qed.

(** C8, at the failing input.  CreateTeam(t1, standard) followed at once
    by DeleteTeam(t1): DeleteTeam answers 200 and has issued, in this
    order, the two policy deletes, the key-collection delete and the delete
    of the team record; the token policy and the team record are gone, but
    the request policy team-t1-request-limits, created under
    kuadrant.io/v1 ratelimitpolicies, is still in the policy store, because
    DeleteTeamRequestRateLimit addresses kuadrant.io/v1beta3. *)
Theorem createTeam_deleteTeam_leaves_request_policy :
  let w2 := worldAfter (deleteTeam testManager "t1") teamOneCreated in
  (map_to_list (policyObjects teamOneCreated)).*1
  = [ (policies.rateLimitGVR, "team-t1-request-limits");
      (policies.tokenRateLimitGVR, "team-t1-token-limits") ]
  /\ deleteTeam testManager "t1" teamOneCreated = Returns (teamDeleted "t1", w2)
  /\ trace w2 = trace teamOneCreated ++
       [ SecretGet "team-t1-config";
         PolicyDelete policies.tokenRateLimitGVR "team-t1-token-limits";
         PolicyDelete policies.rateLimitGVR_delete "team-t1-request-limits";
         SecretDeleteCollection [ ("kuadrant.io/apikeys-by", "rhcl-keys"); ("maas/team-id", "t1") ];
         SecretDelete "team-t1-config" ]
  /\ secrets w2 = ∅
  /\ policyObjects w2 !! (policies.tokenRateLimitGVR, "team-t1-token-limits") = None
  /\ (kind <$> policyObjects w2 !! (policies.rateLimitGVR, "team-t1-request-limits"))
     = Some "RateLimitPolicy"
  /\ ((fun p => policyLabels p !! "maas/team-id") <$>
        policyObjects w2 !! (policies.rateLimitGVR, "team-t1-request-limits"))
     = Some (Some "t1").
Proof.
  cbv zeta. repeat match goal with |- _ /\ _ => split end;
    try apply answer_returns; vm_compute; reflexivity.
Qed.

(** *** The cascade of DeleteTeam: order and tolerance of failures *)

Lemma Policy_Delete_issues gvr name w :
  exists r w',
    Policy_Delete gvr name w = Returns (r, w')
    /\ trace w' = trace w ++ [PolicyDelete gvr name]
    /\ secrets w' = secrets w /\ faults w' = faults w.
Proof.
  unfold Policy_Delete, storeCall.
  destruct (faults w _); [by eauto 10|]. simpl.
  destruct (policyObjects w !! _); by eauto 10.
Qed.

Lemma DeleteTeamPolicies_issues pe teamID w :
  exists w',
    policies.DeleteTeamPolicies pe teamID w = Returns (None, w')
    /\ trace w' = trace w ++
         [ PolicyDelete policies.tokenRateLimitGVR (policies.tokenPolicyNameOf teamID);
           PolicyDelete policies.rateLimitGVR_delete (policies.requestPolicyNameOf teamID) ]
    /\ secrets w' = secrets w /\ faults w' = faults w.
Proof.
  unfold policies.DeleteTeamPolicies, policies.DeleteTeamTokenRateLimit,
    policies.DeleteTeamRequestRateLimit, bind.
  destruct (Policy_Delete_issues policies.tokenRateLimitGVR
              (policies.tokenPolicyNameOf teamID) w) as (r1 & w1 & -> & Ht1 & Hs1 & Hf1).
  destruct (Policy_Delete_issues policies.rateLimitGVR_delete
              (policies.requestPolicyNameOf teamID)
              (match r1 with inl _ => w1 | inr _ => w1 end))
    as (r2 & w2 & Hrun2 & Ht2 & Hs2 & Hf2).
  exists w2. destruct r1; simpl in *; rewrite Hrun2; destruct r2; simpl;
    (split; [done|]); rewrite Ht2, Ht1, <- app_assoc; (split; [done|]); split; congruence.
Qed.

Lemma selected_delete_nil sel name (m : gmap string Secret) :
  selected sel m = [] -> selected sel (delete name m) = [].
Proof.
  intros Hnil. apply selected_none. intros n s Hs Hm.
  apply lookup_delete_Some in Hs as [_ Hs].
  assert (Hin : s ∈ selected sel m).
  { unfold selected. apply list_elem_of_filter. split; [done|].
    apply list_elem_of_fmap. exists (n, s). split; [done|]. by apply elem_of_map_to_list. }
  rewrite Hnil in Hin. by apply not_elem_of_nil in Hin.
Qed.

Lemma selected_after_collection_delete sel (m : gmap string Secret) :
  selected sel
    (filter (fun kv : string * Secret => matchesSelector sel (secretLabels kv.2) = false) m)
  = [].
Proof.
  apply selected_none. intros n s Hs Hm.
  apply map_lookup_filter_Some in Hs as [_ Hfalse]. simpl in Hfalse. congruence.
Qed.

(** On an existing team, with policy management enabled, DeleteTeam
    issues the two policy deletes, then the delete of the team's key
    records, then the delete of the team record, in this order and whether
    or not the first three fail; when the store serves the collection
    delete, no key record labelled with the team is left. *)
Lemma deleteTeam_cascade km teamID teamRecord w :
  enablePolicyMgmt km = true ->
  faults w (SecretGet (teamConfigName teamID)) = None ->
  secrets w !! teamConfigName teamID = Some teamRecord ->
  exists resp w',
    deleteTeam km teamID w = Returns (resp, w')
    /\ trace w' = trace w ++
         [ SecretGet (teamConfigName teamID);
           PolicyDelete policies.tokenRateLimitGVR (policies.tokenPolicyNameOf teamID);
           PolicyDelete policies.rateLimitGVR_delete (policies.requestPolicyNameOf teamID);
           SecretDeleteCollection (teamKeysSelector teamID);
           SecretDelete (secretName teamRecord) ]
    /\ (faults w (SecretDeleteCollection (teamKeysSelector teamID)) = None ->
        selected (teamKeysSelector teamID) (secrets w') = []).
Proof.
  intros Hen Hfget Hexists.
  unfold deleteTeam, bind at 1. unfold Secrets_Get, storeCall.
  rewrite Hfget. simpl. rewrite Hexists, Hen, (policyEngine_enabled km Hen).
  set (w0 := record (SecretGet (teamConfigName teamID)) w).
  unfold bind at 1.
  destruct (DeleteTeamPolicies_issues (newPolicyEngine km) teamID w0)
    as (w1 & -> & Ht1 & Hs1 & Hf1).
  unfold bind at 1. unfold deleteAllTeamKeys, bind at 1.
  unfold Secrets_DeleteCollection, storeCall.
  set (sel := teamKeysSelector teamID).
  assert (Hfaults : faults w1 (SecretDeleteCollection sel) = faults w (SecretDeleteCollection sel))
    by (by rewrite Hf1).
  assert (Hcoll : exists r w2,
    (match faults w1 (SecretDeleteCollection sel) with
     | Some e => Returns (inr e, record (SecretDeleteCollection sel) w1)
     | None => Returns (inl (),
         withSecrets (record (SecretDeleteCollection sel) w1)
           (filter (fun kv : string * Secret => matchesSelector sel (secretLabels kv.2) = false)
                   (secrets (record (SecretDeleteCollection sel) w1))))
     end : Run ((unit + error) * World)) = Returns (r, w2)
    /\ trace w2 = trace w1 ++ [SecretDeleteCollection sel]
    /\ (faults w (SecretDeleteCollection sel) = None -> selected sel (secrets w2) = [])).
  { rewrite Hfaults. destruct (faults w (SecretDeleteCollection sel)).
    - eexists _, _. split; [done|]. split; [done|]. done.
    - eexists _, _. split; [done|]. split; [done|].
      intros _. apply selected_after_collection_delete. }
  destruct Hcoll as (r & w2 & Hrun & Ht2 & Hkeys).
  simpl in Hrun |- *. rewrite Hrun.
  assert (Hdel : exists d w3,
    Secrets_Delete (secretName teamRecord) w2 = Returns (d, w3)
    /\ trace w3 = trace w2 ++ [SecretDelete (secretName teamRecord)]
    /\ (selected sel (secrets w2) = [] -> selected sel (secrets w3) = [])).
  { unfold Secrets_Delete, storeCall.
    destruct (faults w2 _); [by eauto 10|]. simpl.
    destruct (secrets w2 !! _); [|by eauto 10].
    eexists _, _. split; [done|]. split; [done|]. apply selected_delete_nil. }
  destruct Hdel as (d & w3 & Hrun3 & Ht3 & Hkeep).
  assert (Htrace : trace w3 = trace w ++
         [ SecretGet (teamConfigName teamID);
           PolicyDelete policies.tokenRateLimitGVR (policies.tokenPolicyNameOf teamID);
           PolicyDelete policies.rateLimitGVR_delete (policies.requestPolicyNameOf teamID);
           SecretDeleteCollection sel;
           SecretDelete (secretName teamRecord) ]).
  { rewrite Ht3, Ht2, Ht1. unfold w0. simpl. by rewrite <- !app_assoc. }
  destruct r; simpl; unfold bind; rewrite Hrun3; destruct d; simpl;
    eexists _, w3; (split; [done|]); (split; [exact Htrace|]); auto.
Qed.

(** ** SyncTeamPolicy (C9) *)

(** SyncTeamPolicy writes to no record of the secret store. *)
Lemma keepsSecrets_syncTeamPolicies fuel env km teamID bound :
  keepsSecrets (syncTeamPolicies fuel env km teamID bound).
Proof.
  pose proof keepsSecrets_CreateTeamRateLimitPolicies.
  unfold syncTeamPolicies, GetTierLimits, JSON, nilPolicyEngine.
  destruct (enablePolicyMgmt km); simpl; [|apply keepsSecrets_ret].
  destruct bound; [|apply keepsSecrets_ret].
  apply keepsSecrets_bind; [auto with keeps|]. intros [teamSecret|err]; [|apply keepsSecrets_ret].
  apply keepsSecrets_bind; [auto with keeps|]. intros limits.
  destruct (policyEngine km); [|by intros w a w'].
  apply keepsSecrets_bind; [auto|]. intros [perr|]; [apply keepsSecrets_ret|].
  apply keepsSecrets_bind; [auto with keeps|]. intros now. apply keepsSecrets_ret.
Qed.

(** What SyncTeamPolicy hands to the publisher is the tier's limits as
    GetTierLimits returns them: of the team record only the annotation
    maas/default-tier is read. *)
Lemma syncTeamPolicies_publishes_tier_defaults
    fuel env km teamID body teamRecord tierDefaults w :
  enablePolicyMgmt km = true ->
  faults w (SecretGet (teamConfigName teamID)) = None ->
  secrets w !! teamConfigName teamID = Some teamRecord ->
  policies.GetTierLimits fuel env (annotation teamRecord "maas/default-tier")
  = Returns tierDefaults ->
  syncTeamPolicies fuel env km teamID (BindOk body) w
  = (let* perr := policies.CreateTeamRateLimitPolicies (newPolicyEngine km) teamID tierDefaults in
     match perr with
     | Some _ => JSON StatusInternalServerError (ErrorBody "Failed to sync team policies")
     | None =>
         let* now := time_Now_RFC3339 in
         JSON StatusOK (Fields [ ("message", VString "Team policies synchronized successfully");
                                 ("team_id", VString teamID);
                                 ("tier", VString (annotation teamRecord "maas/default-tier"));
                                 ("synced_at", VString now) ])
     end) (record (SecretGet (teamConfigName teamID)) w).
Proof.
  intros Hen Hf Hl Hg. unfold syncTeamPolicies. rewrite Hen. simpl.
  unfold bind at 1. unfold Secrets_Get, storeCall. rewrite Hf. simpl. rewrite Hl.
  unfold bind at 1. unfold GetTierLimits, lift. fold (annotation teamRecord "maas/default-tier").
  rewrite Hg. by rewrite (policyEngine_enabled km Hen).
Qed.

(** C9, at the failing input.  Team t2 is created with tier free and the
    override token_limit=500: its effective token limit is 500, the record
    stores the override, and CreateTeam publishes 500.  SyncTeamPolicy then
    answers 200, leaves the team record as it was, and republishes the
    token policy with the free tier's default 2000: the stored override is
    not read. *)
Theorem syncTeamPolicies_drops_stored_override :
  let w1 := worldAfter (syncTeamPolicies 1 ∅ testManager "t2" (BindOk [])) customTeamCreated in
  (policies.TokenLimit <$>
     match teamLimits 1 ∅ customTeam customTeamCreated with
     | Returns (limits, _) => Some limits
     | _ => None
     end) = Some 500
  /\ ((fun s => annotation s "maas/token-limit") <$> secrets customTeamCreated !! "team-t2-config")
     = Some "500"
  /\ publishedTokenRates customTeamCreated "t2"
     = Some [ {| rateLimit := 500; rateWindow := "1m" |} ]
  /\ syncTeamPolicies 1 ∅ testManager "t2" (BindOk []) customTeamCreated
     = Returns (teamSynced "t2" "free" "2025-01-01T00:00:00Z", w1)
  /\ secrets w1 = secrets customTeamCreated
  /\ publishedTokenRates w1 "t2" = Some [ {| rateLimit := 2000; rateWindow := "1m" |} ].
Proof.
  cbv zeta.
  assert (Hsync : syncTeamPolicies 1 ∅ testManager "t2" (BindOk []) customTeamCreated
                  = Returns (teamSynced "t2" "free" "2025-01-01T00:00:00Z",
                             worldAfter (syncTeamPolicies 1 ∅ testManager "t2" (BindOk []))
                               customTeamCreated)).
  { apply answer_returns. vm_compute. reflexivity. }
  repeat match goal with |- _ /\ _ => split end;
    [ vm_compute; reflexivity
    | vm_compute; reflexivity
    | vm_compute; reflexivity
    | exact Hsync
    | exact (proj1 (keepsSecrets_syncTeamPolicies _ _ _ _ _ _ _ _ Hsync))
    | vm_compute; reflexivity ].
Qed.

(** * Further properties of the endpoints *)

(** * Further properties of the code *)

(** ** The admin gate *)

Lemma substring_whole (s : string) : String.substring 0 (String.length s) s = s.
Proof. induction s as [|c s IH]; simpl; [done | by rewrite IH]. Qed.

Lemma prefix_split (p s : string) :
  String.prefix p s = true ->
  s = p +:+ String.substring (String.length p) (String.length s - String.length p) s.
Proof.
  revert s. induction p as [|c p IH]; intros s Hp.
  - simpl. rewrite Nat.sub_0_r. by rewrite substring_whole.
  - destruct s as [|d s]; [done|]. simpl in Hp.
    destruct (ascii_dec c d) as [->|]; [|done].
    simpl String.length. rewrite Nat.sub_succ.
    change (String d s = String d (p +:+ substring (String.length p)
                                      (String.length s - String.length p) s)).
    f_equal. by apply IH.
Qed.

Lemma prefix_app (p s : string) : String.prefix p (p +:+ s) = true.
Proof.
  induction p as [|c p IH]; simpl; [by destruct s|].
  destruct (ascii_dec c c); [exact IH | done].
Qed.

Lemma strings_TrimPrefix_app (p s : string) : strings_TrimPrefix (p +:+ s) p = s.
Proof.
  unfold strings_TrimPrefix, strings_HasPrefix. rewrite prefix_app.
  pose proof (prefix_split p (p +:+ s) (prefix_app p s)) as Hs.
  by apply (inj (append p)) in Hs.
Qed.

(** X1.  The admin gate lets a request through exactly when no admin key is
    configured in the environment, or the Authorization header is the
    configured key behind the prefix "Bearer " or "ADMIN "; every other
    request is aborted with status 401. *)
Theorem requireAdminAuth_admits_iff (env : Environ) (km : KeyManager) (authHeader : string) :
  let adminKey := getEnvOrDefault env "ADMIN_API_KEY" EmptyString in
  (requireAdminAuth env km authHeader = Next
   <-> adminKey = EmptyString
       \/ authHeader = "Bearer " +:+ adminKey
       \/ authHeader = "ADMIN " +:+ adminKey)
  /\ (forall r, requireAdminAuth env km authHeader = Abort r -> status r = StatusUnauthorized).
Proof.
  intros adminKey. unfold requireAdminAuth. fold adminKey.
  destruct (decide (adminKey = EmptyString)) as [Hk|Hk]; [split; [tauto | done]|].
  destruct (decide (authHeader = EmptyString)) as [Hh|Hh].
  { subst authHeader. split; [|by intros r [= <-]].
    split; [done|]. intros [?|[?|?]]; done. }
  destruct (strings_HasPrefix authHeader "Bearer ") eqn:Hb.
  { apply prefix_split in Hb.
    set (rest := String.substring _ _ authHeader) in Hb.
    assert (Htrim : strings_TrimPrefix authHeader "Bearer " = rest).
    { rewrite Hb. apply strings_TrimPrefix_app. }
    rewrite Htrim. case_decide as Hne.
    - split; [|by intros r [= <-]]. split; [done|].
      intros [?|[Heq|Heq]]; [done| |].
      + rewrite Hb in Heq. apply (inj _) in Heq. done.
      + rewrite Hb in Heq. done.
    - split; [|done].
      split; [|done]. intros _. right. left. by rewrite <- Hne. }
  destruct (strings_HasPrefix authHeader "ADMIN ") eqn:Ha.
  { apply prefix_split in Ha.
    set (rest := String.substring _ _ authHeader) in Ha.
    assert (Htrim : strings_TrimPrefix authHeader "ADMIN " = rest).
    { rewrite Ha. apply strings_TrimPrefix_app. }
    rewrite Htrim. case_decide as Hne.
    - split; [|by intros r [= <-]]. split; [done|].
      intros [?|[Heq|Heq]]; [done| |].
      + rewrite Ha in Heq. done.
      + rewrite Ha in Heq. apply (inj _) in Heq. done.
    - split; [|done].
      split; [|done]. intros _. right. right. by rewrite <- Hne. }
  split; [|by intros r [= <-]]. split; [done|].
  intros [?|[Heq|Heq]]; [done| |]; subst authHeader.
  - unfold strings_HasPrefix in Hb. by rewrite (prefix_app "Bearer ") in Hb.
  - unfold strings_HasPrefix in Ha. by rewrite (prefix_app "ADMIN ") in Ha.
Qed.

(** ** Limits written with [%d] and read back with [Sscanf] *)

Lemma digitOf_pretty_N_char (d : N) :
  (d < 10)%N -> digitOf (pretty_N_char d) = Some (Z.of_N d).
Proof.
  intros Hd.
  assert (Hcases : (d = 0 \/ d = 1 \/ d = 2 \/ d = 3 \/ d = 4 \/ d = 5 \/ d = 6
                    \/ d = 7 \/ d = 8 \/ d = 9)%N) by lia.
  repeat (destruct Hcases as [Hc | Hcases]; [subst d; reflexivity|]). subst d; reflexivity.
Qed.

Lemma scanDigits_pretty_N_go (x : N) (s : string) :
  (0 < x)%N ->
  scanDigits (list_ascii_of_string (pretty_N_go x s)) None
  = scanDigits (list_ascii_of_string s) (Some (Z.of_N x)).
Proof.
  revert s. induction (N.lt_wf_0 x) as [x _ IH]; intros s Hx.
  rewrite pretty_N_go_step by done.
  assert (Hd : (x `mod` 10 < 10)%N) by (apply N.mod_lt; lia).
  pose proof (N.div_mod x 10 ltac:(lia)) as Hdm.
  destruct (decide (x `div` 10 = 0)%N) as [Hz|Hz].
  - rewrite Hz, pretty_N_go_0. simpl.
    rewrite (digitOf_pretty_N_char _ Hd). simpl. do 2 f_equal. lia.
  - rewrite IH; [| apply N.div_lt; lia | lia]. simpl.
    rewrite (digitOf_pretty_N_char _ Hd). simpl. do 2 f_equal. lia.
Qed.

Lemma scanDigits_pretty (x : N) :
  scanDigits (list_ascii_of_string (pretty x)) None = Some (Z.of_N x).
Proof.
  unfold pretty, pretty_N. case_decide as Hx; [by subst|].
  rewrite scanDigits_pretty_N_go by lia. done.
Qed.

Lemma scanDigits_head (c : ascii) (rest : list ascii) (v : Z) :
  scanDigits (c :: rest) None = Some v -> is_Some (digitOf c).
Proof. simpl. destruct (digitOf c); [eauto | done]. Qed.

Lemma digit_not_sign (c : ascii) :
  is_Some (digitOf c) -> (nat_of_ascii c =? 45)%nat = false /\ (nat_of_ascii c =? 43)%nat = false.
Proof.
  unfold digitOf. intros [d Hd].
  destruct (48 <=? nat_of_ascii c)%nat eqn:Hlo; [|done].
  apply Nat.leb_le in Hlo.
  split; apply Nat.eqb_neq; lia.
Qed.

(** A limit rendered with [fmt.Sprintf("%d", n)], as the team and key
    records store it, is read back as [n] by [fmt.Sscanf(s, "%d", &x)],
    for every integer [n], negative ones and the sentinel -1 included. *)
Lemma Sscanf_d_Sprintf_d (n : Z) : Sscanf_d (Sprintf_d n) = Some n.
Proof.
  destruct n as [|p|p]; [reflexivity| |].
  - unfold Sprintf_d, Sscanf_d.
    pose proof (scanDigits_pretty (Npos p)) as Hscan.
    destruct (list_ascii_of_string (pretty (Npos p))) as [|c rest]; [done|].
    destruct (digit_not_sign c (scanDigits_head _ _ _ Hscan)) as [-> ->].
    exact Hscan.
  - unfold Sprintf_d, Sscanf_d.
    change (list_ascii_of_string ("-" +:+ pretty (Npos p)))
      with ("-"%char :: list_ascii_of_string (pretty (Npos p))).
    simpl Nat.eqb. cbv iota. by rewrite scanDigits_pretty.
Qed.

(** ** The alphabet of generated tokens *)

Lemma encodeURLChar_safe (x : N) :
  (x < 64)%N -> isURLSafeChar (base64.encodeURLChar x) = true.
Proof.
  intros Hx.
  assert (Hall : forallb (fun n => isURLSafeChar (base64.encodeURLChar (N.of_nat n)))
                         (seq 0 64) = true) by (vm_compute; reflexivity).
  rewrite forallb_forall in Hall.
  specialize (Hall (N.to_nat x)). rewrite N2Nat.id in Hall.
  apply Hall. apply in_seq. lia.
Qed.

Lemma sextet_safe (v : N) : isURLSafeChar (base64.encodeURLChar (N.land v 63)) = true.
Proof.
  apply encodeURLChar_safe.
  change 63%N with (N.ones 6). rewrite N.land_ones.
  apply N.mod_lt. done.
Qed.

(** The encoding is a run of alphabet characters, at least as many as
    there are source bytes, followed by the padding. *)
Lemma EncodeToString_body (src : list byte) :
  exists body pad,
    list_ascii_of_string (base64.EncodeToString src) = body ++ pad
    /\ Forall (fun c => isURLSafeChar c = true) body
    /\ (length src <= length body)%nat.
Proof.
  induction src as [|a|a b|a b c l IH] using list_ind3.
  - exists [], []. by repeat split.
  - eexists [_; _], [_; _]. split; [reflexivity|].
    split; [|simpl; lia]. repeat constructor; apply sextet_safe.
  - eexists [_; _; _], [_]. split; [reflexivity|].
    split; [|simpl; lia]. repeat constructor; apply sextet_safe.
  - destruct IH as (body & pad & Heq & Hsafe & Hlen).
    eexists (_ :: _ :: _ :: _ :: body), pad. split.
    + change (base64.EncodeToString (a :: b :: c :: l)) with
        (let v := (N.shiftl (Byte.to_N a) 16 + N.shiftl (Byte.to_N b) 8 + Byte.to_N c)%N in
         String (base64.encodeURLChar (N.land (N.shiftr v 18) 63))
           (String (base64.encodeURLChar (N.land (N.shiftr v 12) 63))
              (String (base64.encodeURLChar (N.land (N.shiftr v 6) 63))
                 (String (base64.encodeURLChar (N.land v 63)) (base64.EncodeToString l))))).
      cbv zeta. simpl list_ascii_of_string. rewrite Heq. reflexivity.
    + split; [|simpl; lia]. repeat (constructor; [apply sextet_safe|]). exact Hsafe.
Qed.

Lemma list_ascii_of_substring (n : nat) (s : string) :
  list_ascii_of_string (String.substring 0 n s) = take n (list_ascii_of_string s).
Proof.
  revert s. induction n as [|n IH]; intros [|c s]; simpl; try done.
  by rewrite IH.
Qed.

(** X2.  The token generateSecureToken returns consists of characters of the
    URL-safe alphabet only (A-Z, a-z, 0-9, hyphen, underscore): the cut at
    [length] characters always falls before the padding of the encoding,
    so no token contains the padding character. *)
Theorem generateSecureToken_url_safe (n : Z) (w w' : World) (token : string) :
  generateSecureToken n w = Returns (inl token, w') ->
  Forall (fun c => isURLSafeChar c = true) (list_ascii_of_string token)
  /\ entropy w' = drop (Z.to_nat n) (entropy w).
Proof.
  intros Hrun. apply generateSecureToken_inv in Hrun as (Hn & Hle & -> & Hslice).
  set (src := take (Z.to_nat n) (entropy w)) in Hslice.
  unfold slice_to in Hslice.
  destruct ((0 <=? n) && (n <=? Z.of_nat (String.length (base64.EncodeToString src))));
    [|done].
  injection Hslice as <-. split; [|done].
  rewrite list_ascii_of_substring.
  destruct (EncodeToString_body src) as (body & pad & -> & Hsafe & Hlen).
  assert (Hsrc : length src = Z.to_nat n) by (unfold src; rewrite length_take; lia).
  rewrite take_app_le by lia.
  by apply Forall_take.
Qed.

Lemma generateSecureToken_url_safe_witness :
  Forall (fun c => isURLSafeChar c = true)
         (list_ascii_of_string "QUFBQUFBQUFBQUFBQUFBQUFBQUFBQUFBQUFBQUFBQUFBQUFB")
  /\ entropy (worldAfter (generateSecureToken 48) seededWorld) = repeat x41%byte 48.
Proof.
  apply (generateSecureToken_url_safe 48 seededWorld
           (worldAfter (generateSecureToken 48) seededWorld)).
  apply answer_returns. vm_compute. reflexivity.
Defined.

(** ** Computations that always return *)

Lemma total_ret {A : Type} (a : A) : total (ret a).
Proof. intros w. by eexists _, _. Qed.

Lemma total_bind {A B : Type} (m : M A) (k : A -> M B) :
  total m -> (forall a, total (k a)) -> total (bind m k).
Proof.
  intros Hm Hk w. destruct (Hm w) as (a & w1 & Hmw).
  destruct (Hk a w1) as (b & w2 & Hkw).
  exists b, w2. unfold bind. by rewrite Hmw.
Qed.

Lemma total_storeCall {A : Type} (c : Call) (rule : World -> (A + error) * World) :
  total (storeCall c rule).
Proof.
  intros w. unfold storeCall. destruct (faults w c); [by eexists _, _|].
  destruct (rule (record c w)) as [r w']. by exists r, w'.
Qed.

Lemma total_time_Now : total time_Now_RFC3339.
Proof. intros w. by eexists _, _. Qed.

Lemma total_JSON code b : total (JSON code b).
Proof. apply total_ret. Qed.

Lemma total_c_JSON code o : total (c_JSON code o).
Proof. apply total_ret. Qed.

Create HintDb total.
#[local] Hint Resolve total_ret total_storeCall total_time_Now total_JSON total_c_JSON
  : total.

Ltac total :=
  repeat first
    [ apply total_bind; [auto with total | intros ?]
    | progress auto with total
    | case_match ].

Lemma total_Secrets_Get name : total (Secrets_Get name).
Proof. apply total_storeCall. Qed.

Lemma total_Secrets_Create s : total (Secrets_Create s).
Proof. apply total_storeCall. Qed.

Lemma total_Secrets_Delete name : total (Secrets_Delete name).
Proof. apply total_storeCall. Qed.

Lemma total_Secrets_List sel : total (Secrets_List sel).
Proof. apply total_storeCall. Qed.

Lemma total_Secrets_DeleteCollection sel : total (Secrets_DeleteCollection sel).
Proof. apply total_storeCall. Qed.

Lemma total_Policy_Create gvr p : total (Policy_Create gvr p).
Proof. apply total_storeCall. Qed.

Lemma total_Policy_Get gvr name : total (Policy_Get gvr name).
Proof. apply total_storeCall. Qed.

Lemma total_Policy_Update gvr p : total (Policy_Update gvr p).
Proof. apply total_storeCall. Qed.

Lemma total_Policy_Delete gvr name : total (Policy_Delete gvr name).
Proof. apply total_storeCall. Qed.

#[local] Hint Resolve total_Secrets_Get total_Secrets_Create total_Secrets_Delete
  total_Secrets_List total_Secrets_DeleteCollection total_Policy_Create total_Policy_Get
  total_Policy_Update total_Policy_Delete : total.

Lemma total_createOrUpdate gvr what p : total (policies.createOrUpdate gvr what p).
Proof. unfold policies.createOrUpdate. total. Qed.

Lemma total_CreateTeamRateLimitPolicies pe teamID limits :
  total (policies.CreateTeamRateLimitPolicies pe teamID limits).
Proof.
  pose proof total_createOrUpdate.
  unfold policies.CreateTeamRateLimitPolicies, policies.CreateTeamTokenRateLimit,
    policies.CreateTeamRequestRateLimit.
  total.
Qed.

Lemma total_createTeamConfigSecret km req : total (createTeamConfigSecret km req).
Proof. unfold createTeamConfigSecret. total. Qed.

#[local] Hint Resolve total_CreateTeamRateLimitPolicies total_createTeamConfigSecret : total.

Lemma total_lift_Returns {A : Type} (r : Run A) (a : A) : r = Returns a -> total (lift r).
Proof. intros -> w. by eexists _, _. Qed.

(** A tier that passes validation with policy management enabled is one
    of the four of the table. *)
Lemma validateTeamRequest_known env km req req' :
  validateTeamRequest env km req = (req', None) ->
  enablePolicyMgmt km = true ->
  knownTier (CreateTeamRequest.DefaultTier req').
Proof.
  unfold validateTeamRequest. intros Hv Hen. rewrite Hen in Hv.
  destruct (negb (isValidTeamID _)); [done|].
  destruct (decide (CreateTeamRequest.TeamName req = EmptyString)); [done|].
  destruct (negb (existsb _ _)) eqn:Hvalid; [done|].
  injection Hv as <-.
  apply negb_false_iff, existsb_exists in Hvalid as (tier & Hin & Heq).
  apply bool_decide_eq_true in Heq. rewrite <- Heq.
  apply tierCase_known_names. unfold getAvailableTiers in Hin.
  rewrite Hen in Hin. simpl in Hin. intuition congruence.
Qed.

Lemma total_GetTierLimits_known fuel env tier :
  knownTier tier -> total (GetTierLimits (S fuel) env tier).
Proof.
  intros [limits Hk]. unfold GetTierLimits.
  eapply total_lift_Returns. by apply GetTierLimits_known.
Qed.

Lemma total_getTierLimits fuel env km tier :
  (enablePolicyMgmt km = true -> knownTier tier) ->
  total (getTierLimits (S fuel) env km tier).
Proof.
  intros Hk. unfold getTierLimits.
  destruct (enablePolicyMgmt km); simpl; [|apply total_ret].
  apply total_bind; [by apply total_GetTierLimits_known, Hk|]. intros limits. apply total_ret.
Qed.

Lemma total_teamLimits fuel env req :
  knownTier (CreateTeamRequest.DefaultTier req) -> total (teamLimits (S fuel) env req).
Proof.
  intros Hk. unfold teamLimits.
  apply total_bind; [by apply total_GetTierLimits_known|]. intros limits. apply total_ret.
Qed.

Lemma total_createTeam fuel env km bound : total (createTeam (S fuel) env km bound).
Proof.
  unfold createTeam. destruct bound as [req|err]; [|apply total_JSON].
  destruct (validateTeamRequest env km req) as [req' [verr|]] eqn:Hv; [apply total_JSON|].
  pose proof (validateTeamRequest_known env km req req' Hv) as Hk.
  apply total_bind; [auto with total|]. intros [existing|_]; [apply total_JSON|].
  apply total_bind; [auto with total|]. intros [teamSecret|err]; [|apply total_JSON].
  destruct (enablePolicyMgmt km) eqn:Hen.
  - rewrite (policyEngine_enabled km Hen).
    apply total_bind; [by apply total_teamLimits, Hk|]. intros limits.
    apply total_bind; [auto with total|]. intros [perr|].
    + apply total_bind; [auto with total|]. intros _. apply total_JSON.
    + apply total_bind; [apply total_getTierLimits; auto|]. intros h. apply total_JSON.
  - apply total_bind; [apply total_getTierLimits; rewrite Hen; done|]. intros h. apply total_JSON.
Qed.

Lemma createTeam_statuses fuel env km bound w resp w' :
  createTeam fuel env km bound w = Returns (resp, w') ->
  status resp = StatusOK \/ status resp = StatusBadRequest
  \/ status resp = StatusConflict \/ status resp = StatusInternalServerError.
Proof.
  unfold createTeam. destruct bound as [req|err]; [|intros [= <- _]; auto].
  destruct (validateTeamRequest env km req) as [req' [verr|]]; [intros [= <- _]; auto|].
  intros Hrun.
  apply bind_returns in Hrun as ([existing|e] & w0 & _ & Hrun); [injection Hrun as <- _; auto|].
  apply bind_returns in Hrun as ([teamSecret|e'] & w1 & _ & Hrun);
    [|injection Hrun as <- _; auto].
  assert (Hrespond : forall w2,
            (let* inheritedLimits := getTierLimits fuel env km (CreateTeamRequest.DefaultTier req') in
             JSON StatusOK (TeamCreated
               {| CreateTeamResponse.TeamID := CreateTeamRequest.TeamID req';
                  CreateTeamResponse.TeamName := CreateTeamRequest.TeamName req';
                  CreateTeamResponse.DefaultTier := CreateTeamRequest.DefaultTier req';
                  CreateTeamResponse.PoliciesApplied := enablePolicyMgmt km;
                  CreateTeamResponse.InheritedLimits := inheritedLimits |})) w2
            = Returns (resp, w') -> status resp = StatusOK).
  { intros w2 H2. apply bind_returns in H2 as (h & w3 & _ & H2). by injection H2 as <- _. }
  destruct (enablePolicyMgmt km); [|left; by eapply Hrespond].
  apply bind_returns in Hrun as (limits & w2 & _ & Hrun).
  destruct (policyEngine km) as [pe|]; [|done].
  apply bind_returns in Hrun as ([perr|] & w3 & _ & Hrun); [|left; by eapply Hrespond].
  apply bind_returns in Hrun as (d & w4 & _ & Hrun). injection Hrun as <- _. auto.
Qed.

(** X3.  CreateTeam always answers: for every request, environment, store
    content and injected fault the handler returns a response, and its
    status is 200, 400, 409 or 500.  In particular the unbounded recursion
    of GetTierLimits cannot be reached through CreateTeam: with policy
    management enabled only the four tiers of the table pass validation
    (an empty tier is replaced by the configured default before it is
    checked), and with it disabled the tier table is not consulted. *)
Theorem createTeam_always_answers
    (fuel : nat) (env : Environ) (km : KeyManager) (bound : Bound CreateTeamRequest.t)
    (w : World) :
  exists resp w',
    createTeam (S fuel) env km bound w = Returns (resp, w')
    /\ (status resp = StatusOK \/ status resp = StatusBadRequest
        \/ status resp = StatusConflict \/ status resp = StatusInternalServerError).
Proof.
  destruct (total_createTeam fuel env km bound w) as (resp & w' & Hrun).
  exists resp, w'. split; [exact Hrun|]. by eapply createTeam_statuses.
Qed.

(** ** CreateTeam: what a 200 has written, and duplicates *)

Lemma validateTeamRequest_fields env km req req' verr :
  validateTeamRequest env km req = (req', verr) ->
  CreateTeamRequest.TeamID req' = CreateTeamRequest.TeamID req
  /\ CreateTeamRequest.TeamName req' = CreateTeamRequest.TeamName req
  /\ CreateTeamRequest.Description req' = CreateTeamRequest.Description req
  /\ CreateTeamRequest.TokenLimit req' = CreateTeamRequest.TokenLimit req
  /\ CreateTeamRequest.RequestLimit req' = CreateTeamRequest.RequestLimit req
  /\ CreateTeamRequest.TimeWindow req' = CreateTeamRequest.TimeWindow req.
Proof.
  unfold validateTeamRequest.
  repeat case_match; intros [= <- <-]; done.
Qed.

Lemma validateTeamRequest_tier env km req req' :
  validateTeamRequest env km req = (req', None) ->
  CreateTeamRequest.DefaultTier req'
  = (if decide (CreateTeamRequest.DefaultTier req = EmptyString)
     then getEnvOrDefault env "DEFAULT_TIER" "standard"
     else CreateTeamRequest.DefaultTier req).
Proof.
  unfold validateTeamRequest.
  repeat case_match; intros [= <-]; done.
Qed.

(** What a 200 answer of CreateTeam has left behind. *)
Lemma createTeam_created fuel env km req r w w1 :
  createTeam fuel env km (BindOk req) w
  = Returns ({| status := StatusOK; body := TeamCreated r |}, w1) ->
  exists req',
    validateTeamRequest env km req = (req', None)
    /\ secrets w !! teamConfigName (CreateTeamRequest.TeamID req') = None
    /\ secrets w1 = <[teamConfigName (CreateTeamRequest.TeamID req')
                      := teamConfigSecret req' (clock w)]> (secrets w)
    /\ faults w1 = faults w
    /\ CreateTeamResponse.TeamID r = CreateTeamRequest.TeamID req'
    /\ CreateTeamResponse.TeamName r = CreateTeamRequest.TeamName req'
    /\ CreateTeamResponse.DefaultTier r = CreateTeamRequest.DefaultTier req'.
Proof.
  unfold createTeam.
  destruct (validateTeamRequest env km req) as [req' [verr|]]; [done|].
  intros Hrun. exists req'. split; [done|].
  apply bind_returns in Hrun as ([existing|e] & w0 & Hget & Hrun); [done|].
  destruct (keepsSecrets_Secrets_Get _ _ _ _ Hget) as [Hs0 Hf0].
  assert (Hc0 : clock w0 = clock w).
  { unfold Secrets_Get, storeCall in Hget.
    destruct (faults w _); [by injection Hget as _ <-|].
    simpl in Hget. destruct (secrets w !! _); by injection Hget as _ <-. }
  apply bind_returns in Hrun as ([teamSecret|e'] & wc & Hcreate & Hrun); [|done].
  destruct (createTeamConfigSecret_written _ _ _ _ _ Hcreate) as (Hsecret & _ & Habsent & Hwc).
  assert (Hname : secretName teamSecret = teamConfigName (CreateTeamRequest.TeamID req'))
    by (by rewrite Hsecret).
  rewrite Hname in Habsent, Hwc.
  assert (Hsc : secrets wc = <[teamConfigName (CreateTeamRequest.TeamID req')
                               := teamConfigSecret req' (clock w)]> (secrets w)).
  { rewrite Hwc. simpl. by rewrite Hsecret, Hs0, Hc0. }
  assert (Hfc : faults wc = faults w) by (rewrite Hwc; simpl; exact Hf0).
  assert (Hrespond : forall w2, secrets w2 = secrets wc -> faults w2 = faults wc ->
            (let* inheritedLimits := getTierLimits fuel env km (CreateTeamRequest.DefaultTier req') in
             JSON StatusOK (TeamCreated
               {| CreateTeamResponse.TeamID := CreateTeamRequest.TeamID req';
                  CreateTeamResponse.TeamName := CreateTeamRequest.TeamName req';
                  CreateTeamResponse.DefaultTier := CreateTeamRequest.DefaultTier req';
                  CreateTeamResponse.PoliciesApplied := enablePolicyMgmt km;
                  CreateTeamResponse.InheritedLimits := inheritedLimits |})) w2
            = Returns ({| status := StatusOK; body := TeamCreated r |}, w1) ->
            secrets w1 = secrets wc /\ faults w1 = faults wc
            /\ CreateTeamResponse.TeamID r = CreateTeamRequest.TeamID req'
            /\ CreateTeamResponse.TeamName r = CreateTeamRequest.TeamName req'
            /\ CreateTeamResponse.DefaultTier r = CreateTeamRequest.DefaultTier req').
  { intros w2 Hs2 Hf2 H2. apply bind_returns in H2 as (h & w3 & Hh & H2).
    assert (w3 = w2) as ->.
    { unfold getTierLimits, GetTierLimits, bind, lift, ret in Hh.
      destruct (negb _); [by injection Hh as _ <-|].
      destruct (policies.GetTierLimits _ _ _); [|done|done]. by injection Hh as _ <-. }
    injection H2 as <- <-. done. }
  rewrite Hs0 in Habsent.
  assert (Hgoal : secrets w1 = secrets wc /\ faults w1 = faults wc
            /\ CreateTeamResponse.TeamID r = CreateTeamRequest.TeamID req'
            /\ CreateTeamResponse.TeamName r = CreateTeamRequest.TeamName req'
            /\ CreateTeamResponse.DefaultTier r = CreateTeamRequest.DefaultTier req').
  { destruct (enablePolicyMgmt km); [|by eapply Hrespond].
    apply bind_returns in Hrun as (limits & w2 & Hlimits & Hrun).
    apply teamLimits_world in Hlimits as ->.
    destruct (policyEngine km) as [pe|]; [|done].
    apply bind_returns in Hrun as ([perr|] & w3 & Hpublish & Hrun).
    { apply bind_returns in Hrun as (d & w4 & _ & Hrun). done. }
    destruct (keepsSecrets_CreateTeamRateLimitPolicies _ _ _ _ _ _ Hpublish) as [Hs3 Hf3].
    by eapply Hrespond. }
  destruct Hgoal as (Hs1 & Hf1 & Hr). rewrite Hs1, Hf1. done.
Qed.

(** X4.  After a CreateTeam that answered 200, the same request again is
    answered 409 "Team already exists" (the store serving the existence
    check), and this second request changes neither store. *)
Theorem createTeam_twice_conflict
    (fuel : nat) (env : Environ) (km : KeyManager) (req : CreateTeamRequest.t)
    (r : CreateTeamResponse.t) (w w1 : World) :
  createTeam fuel env km (BindOk req) w
  = Returns ({| status := StatusOK; body := TeamCreated r |}, w1) ->
  faults w (SecretGet (teamConfigName (CreateTeamRequest.TeamID req))) = None ->
  exists w2,
    createTeam fuel env km (BindOk req) w1
    = Returns ({| status := StatusConflict; body := ErrorBody "Team already exists" |}, w2)
    /\ secrets w2 = secrets w1
    /\ policyObjects w2 = policyObjects w1
    /\ trace w2 = trace w1 ++ [SecretGet (teamConfigName (CreateTeamRequest.TeamID req))].
Proof.
  intros Hfirst Hget.
  destruct (createTeam_created _ _ _ _ _ _ _ Hfirst)
    as (req' & Hv & _ & Hs1 & Hf1 & _).
  destruct (validateTeamRequest_fields _ _ _ _ _ Hv) as (Hid & _).
  rewrite Hid in Hs1.
  exists (record (SecretGet (teamConfigName (CreateTeamRequest.TeamID req))) w1).
  split; [|done].
  unfold createTeam. rewrite Hv, Hid.
  unfold bind, Secrets_Get, storeCall. rewrite Hf1, Hget. simpl.
  by rewrite Hs1, lookup_insert_eq.
Qed.

Lemma createTeam_twice_conflict_witness :
  exists w2,
    createTeam 1 ∅ testManager (BindOk teamOne) teamOneCreated
    = Returns ({| status := 409; body := ErrorBody "Team already exists" |}, w2)
    /\ secrets w2 = secrets teamOneCreated
    /\ policyObjects w2 = policyObjects teamOneCreated
    /\ trace w2 = trace teamOneCreated ++ [SecretGet "team-t1-config"].
Proof.
  apply (createTeam_twice_conflict 1 ∅ testManager teamOne
           {| CreateTeamResponse.TeamID := "t1";
              CreateTeamResponse.TeamName := "Team One";
              CreateTeamResponse.DefaultTier := "standard";
              CreateTeamResponse.PoliciesApplied := true;
              CreateTeamResponse.InheritedLimits :=
                [ ("tier", VString "standard");
                  ("token_limit_per_hour", VInt 50000);
                  ("token_limit_per_day", VInt 500000);
                  ("token_limit", VInt 10000);
                  ("request_limit", VInt 120);
                  ("token_window", VString "1m");
                  ("request_window", VString "1m");
                  ("models_allowed", VStrings ["simulator-model"; "qwen3-0-6b-instruct"]);
                  ("max_concurrent_requests", VInt 10) ] |}
           emptyWorld teamOneCreated).
  - unfold teamOneCreated. apply answer_returns. vm_compute. reflexivity.
  - reflexivity.
Defined.

(** ** Listing the members and the keys of a team *)

(** With a default tier that is in the table, two calls deep are enough
    for every tier name. *)
Lemma GetTierLimits_total fuel env tier :
  knownTier (policies.GetDefaultTier env) ->
  exists limits, policies.GetTierLimits (S (S fuel)) env tier = Returns limits.
Proof.
  intros [limits Hd].
  destruct (policies.tierCase tier) as [l|] eqn:Hk.
  - exists l. by apply GetTierLimits_known.
  - exists limits. by apply GetTierLimits_fallback_once.
Qed.

Lemma total_GetTierLimits fuel env tier :
  knownTier (policies.GetDefaultTier env) -> total (GetTierLimits (S (S fuel)) env tier).
Proof.
  intros Hd. destruct (GetTierLimits_total fuel env tier Hd) as [limits Hl].
  unfold GetTierLimits. by eapply total_lift_Returns.
Qed.

Lemma total_memberOfKey fuel env km teamID userID secret :
  knownTier (policies.GetDefaultTier env) ->
  total (memberOfKey (S (S fuel)) env km teamID userID secret).
Proof.
  intros Hd. unfold memberOfKey.
  apply total_bind; [|intros; apply total_ret].
  destruct (enablePolicyMgmt km); [|apply total_ret].
  apply total_bind; [by apply total_GetTierLimits|]. intros; apply total_ret.
Qed.

Lemma total_collectMembers fuel env km teamID items memberMap :
  knownTier (policies.GetDefaultTier env) ->
  total (collectMembers (S (S fuel)) env km teamID items memberMap).
Proof.
  intros Hd. revert memberMap.
  induction items as [|secret rest IH]; intros memberMap; simpl; [apply total_ret|].
  case_decide; [apply IH|].
  apply total_bind; [by apply total_memberOfKey|]. intros member. apply IH.
Qed.

Lemma total_getTeamMembersFromAPIKeys fuel env rangeMembers km teamID :
  knownTier (policies.GetDefaultTier env) ->
  total (getTeamMembersFromAPIKeys (S (S fuel)) env rangeMembers km teamID).
Proof.
  intros Hd. unfold getTeamMembersFromAPIKeys.
  apply total_bind; [auto with total|]. intros [items|err]; [|apply total_ret].
  apply total_bind; [by apply total_collectMembers|]. intros; apply total_ret.
Qed.

Lemma total_getTeamAPIKeys km teamID : total (getTeamAPIKeys km teamID).
Proof. unfold getTeamAPIKeys. total. Qed.

(** The member loop does not touch the world. *)
Lemma memberOfKey_pure fuel env km teamID userID secret w member w' :
  memberOfKey fuel env km teamID userID secret w = Returns (member, w') ->
  w' = w /\ TeamMember.UserID member = userID.
Proof.
  unfold memberOfKey, GetTierLimits, bind, lift, ret.
  destruct (enablePolicyMgmt km).
  - destruct (policies.GetTierLimits _ _ _); [|done|done]. by intros [= <- <-].
  - by intros [= <- <-].
Qed.

Lemma collectMembers_spec fuel env km teamID items memberMap w result w' :
  collectMembers fuel env km teamID items memberMap w = Returns (result, w') ->
  (forall u member, memberMap !! u = Some member -> TeamMember.UserID member = u) ->
  w' = w
  /\ (forall u member, result !! u = Some member -> TeamMember.UserID member = u)
  /\ (forall u, is_Some (result !! u)
                <-> is_Some (memberMap !! u)
                    \/ (u <> EmptyString /\ exists s, s ∈ items /\ userOf s = u)).
Proof.
  revert memberMap w. induction items as [|secret rest IH]; intros memberMap w; simpl.
  { intros [= <- <-] Hkeys. split; [done|]. split; [done|].
    intros u. split; [auto|]. intros [?|(_ & s & Hin & _)]; [done|].
    by apply elem_of_nil in Hin. }
  fold (userOf secret). case_decide as Hu.
  { intros Hrun Hkeys. destruct (IH _ _ Hrun Hkeys) as (-> & Hres & Hdom).
    split; [done|]. split; [done|]. intros u. rewrite Hdom.
    split; (intros [?|(Hne & s & Hin & Hs)]; [by left|right; split; [done|]]).
    - exists s. split; [by apply list_elem_of_further|done].
    - apply elem_of_cons in Hin as [->|Hin]; [congruence|]. by exists s. }
  intros Hrun Hkeys.
  apply bind_returns in Hrun as (member & w1 & Hmember & Hrun).
  apply memberOfKey_pure in Hmember as [-> Hid].
  destruct (IH _ _ Hrun) as (-> & Hres & Hdom).
  { intros u m. destruct (memberMap !! userOf secret) eqn:Hl; [apply Hkeys|].
    intros Hm. apply lookup_insert_Some in Hm as [[Hu' Hm']|[_ Hm]]; [by subst|by apply Hkeys]. }
  split; [done|]. split; [done|]. intros u. rewrite Hdom.
  assert (Hstep : is_Some ((match memberMap !! userOf secret with
                            | Some _ => memberMap
                            | None => <[userOf secret := member]> memberMap
                            end) !! u)
                  <-> is_Some (memberMap !! u) \/ u = userOf secret).
  { destruct (memberMap !! userOf secret) eqn:Hl.
    - split; [auto|]. intros [? | ->]; [done|]. by rewrite Hl.
    - rewrite lookup_insert_is_Some'. intuition. }
  rewrite Hstep. split.
  - intros [[? | ->]|(Hne & s & Hin & Hs)]; [by left| |].
    + right. split; [done|]. exists secret. split; [by apply list_elem_of_here|done].
    + right. split; [done|]. exists s. split; [by apply list_elem_of_further|done].
  - intros [?|(Hne & s & Hin & Hs)]; [by left; left|].
    apply elem_of_cons in Hin as [->|Hin]; [by left; right|].
    right. split; [done|]. by exists s.
Qed.

Lemma elem_of_selected sel (m : gmap string Secret) s :
  s ∈ selected sel m
  <-> matchesSelector sel (secretLabels s) = true /\ exists name, m !! name = Some s.
Proof.
  unfold selected. rewrite list_elem_of_filter, list_elem_of_fmap.
  split.
  - intros [Hm ([name s'] & -> & Hin)]. split; [done|].
    exists name. by apply elem_of_map_to_list.
  - intros [Hm (name & Hl)]. split; [done|].
    exists (name, s). split; [done|]. by apply elem_of_map_to_list.
Qed.

Lemma NoDup_member_ids (m : gmap string TeamMember.t) :
  (forall u member, m !! u = Some member -> TeamMember.UserID member = u) ->
  NoDup (TeamMember.UserID <$> (map_to_list m).*2).
Proof.
  intros Hkeys.
  assert (Heq : TeamMember.UserID <$> (map_to_list m).*2 = (map_to_list m).*1).
  { rewrite <- list_fmap_compose. apply Forall_fmap_ext_1, Forall_forall.
    intros [u member] Hin. simpl. apply Hkeys. by apply elem_of_map_to_list. }
  rewrite Heq. apply NoDup_fst_map_to_list.
Qed.

Lemma member_ids_listed (rangeMembers : gmap string TeamMember.t -> list TeamMember.t)
    (m : gmap string TeamMember.t) (u : string) :
  mapIteration rangeMembers ->
  (forall u member, m !! u = Some member -> TeamMember.UserID member = u) ->
  u ∈ (TeamMember.UserID <$> rangeMembers m) <-> is_Some (m !! u).
Proof.
  intros Horder Hkeys. rewrite (Horder m), list_elem_of_fmap. split.
  - intros (member & -> & Hin). apply list_elem_of_fmap in Hin as ([u member'] & -> & Hin).
    apply elem_of_map_to_list in Hin. simpl. rewrite (Hkeys _ _ Hin). by eexists.
  - intros [member Hl]. exists member. split; [by rewrite (Hkeys _ _ Hl)|].
    apply list_elem_of_fmap. exists (u, member). split; [done|].
    by apply elem_of_map_to_list.
Qed.

(** What a successful getTeamMembersFromAPIKeys has done: it returns the
    iteration of a map from user ids to members whose keys are the
    non-empty user labels of the listed records. *)
Lemma getTeamMembersFromAPIKeys_run fuel env rangeMembers km teamID w w' members :
  getTeamMembersFromAPIKeys fuel env rangeMembers km teamID w = Returns (inl members, w') ->
  exists memberMap,
    members = rangeMembers memberMap
    /\ (forall u member, memberMap !! u = Some member -> TeamMember.UserID member = u)
    /\ (forall u, is_Some (memberMap !! u)
                  <-> u <> EmptyString
                      /\ exists s, s ∈ selected (teamKeysSelector teamID) (secrets w)
                                   /\ userOf s = u)
    /\ secrets w' = secrets w.
Proof.
  unfold getTeamMembersFromAPIKeys. intros Hrun.
  apply bind_returns in Hrun as ([items|err] & w0 & Hlist & Hrun); [|done].
  assert (Hitems : items = selected (teamKeysSelector teamID) (secrets w)
                   /\ secrets w0 = secrets w).
  { unfold Secrets_List, storeCall in Hlist.
    destruct (faults w _); [done|]. by injection Hlist as <- <-. }
  destruct Hitems as [-> Hs0].
  apply bind_returns in Hrun as (memberMap & w1 & Hcollect & Hrun).
  injection Hrun as <- <-.
  destruct (collectMembers_spec _ _ _ _ _ _ _ _ _ Hcollect) as (-> & Hkeys & Hdom).
  { intros u member Hl. by rewrite lookup_empty in Hl. }
  exists memberMap. split; [done|]. split; [done|]. split; [|done].
  intros u. rewrite Hdom, lookup_empty. split; [|by right].
  intros [[? ?]|?]; done.
Qed.

(** X5.  getTeamMembersFromAPIKeys lists every user once: the user ids of the
    members it returns are, without repetition, exactly the non-empty
    maas/user-id labels found on the key records labelled with the team,
    however many keys a user holds and whatever the iteration order of the
    map; and the call leaves the secret store as it was. *)
Theorem getTeamMembersFromAPIKeys_lists_each_user_once
    (fuel : nat) (env : Environ) (rangeMembers : gmap string TeamMember.t -> list TeamMember.t)
    (km : KeyManager) (teamID : string) (w w' : World) (members : list TeamMember.t) :
  mapIteration rangeMembers ->
  getTeamMembersFromAPIKeys fuel env rangeMembers km teamID w = Returns (inl members, w') ->
  NoDup (TeamMember.UserID <$> members)
  /\ (forall u, u ∈ (TeamMember.UserID <$> members)
                <-> u <> EmptyString
                    /\ exists s, s ∈ selected (teamKeysSelector teamID) (secrets w)
                                 /\ userOf s = u)
  /\ secrets w' = secrets w.
Proof.
  intros Horder Hrun.
  destruct (getTeamMembersFromAPIKeys_run _ _ _ _ _ _ _ _ Hrun)
    as (memberMap & -> & Hkeys & Hdom & Hsecrets).
  split; [|split; [|exact Hsecrets]].
  - rewrite (Horder memberMap). by apply NoDup_member_ids.
  - intros u. rewrite <- Hdom. by apply member_ids_listed.
Qed.

Lemma getTeamMembersFromAPIKeys_lists_each_user_once_witness :
  exists members w',
    getTeamMembersFromAPIKeys 1 ∅ keyOrder testManager "default" threeKeysWorld
    = Returns (inl members, w')
    /\ (TeamMember.UserID <$> members) = ["alice"; "bob"]
    /\ length (selected (teamKeysSelector "default") (secrets threeKeysWorld)) = 3%nat
    /\ NoDup (TeamMember.UserID <$> members)
    /\ (forall u, u ∈ (TeamMember.UserID <$> members)
                  <-> u <> EmptyString
                      /\ exists s, s ∈ selected (teamKeysSelector "default") (secrets threeKeysWorld)
                                   /\ userOf s = u)
    /\ secrets w' = secrets threeKeysWorld.
Proof.
  assert (Hrun : { members |
            answer (getTeamMembersFromAPIKeys 1 ∅ keyOrder testManager "default") threeKeysWorld
            = Some (inl members)
            /\ (TeamMember.UserID <$> members) = ["alice"; "bob"] }).
  { eexists. split; vm_compute; reflexivity. }
  destruct Hrun as (members & Hrun & Hids).
  apply answer_returns in Hrun.
  exists members. eexists. split; [exact Hrun|]. split; [exact Hids|].
  split; [vm_compute; reflexivity|].
  apply (getTeamMembersFromAPIKeys_lists_each_user_once 1 ∅ keyOrder testManager "default"
           threeKeysWorld _ members); [|exact Hrun].
  intros m. reflexivity.
Defined.

(** ** Listed members and the membership check *)

Lemma matches_membershipSelector teamID userID labels :
  matchesSelector (membershipSelector teamID userID) labels = true
  <-> matchesSelector (teamKeysSelector teamID) labels = true
      /\ labels !! "maas/user-id" = Some userID.
Proof.
  unfold matchesSelector, membershipSelector, teamKeysSelector. simpl.
  rewrite !andb_true_iff, !bool_decide_eq_true. tauto.
Qed.

Lemma userOf_Some (s : Secret) (userID : string) :
  userID <> EmptyString ->
  (userOf s = userID <-> secretLabels s !! "maas/user-id" = Some userID).
Proof.
  intros Hne. unfold userOf, label.
  destruct (secretLabels s !! "maas/user-id") as [u|]; simpl; split; congruence.
Qed.

Lemma validateTeamMembershipFromAPIKey_decides fuel env km teamID userID w :
  knownTier (policies.GetDefaultTier env) ->
  faults w (SecretList (membershipSelector teamID userID)) = None ->
  exists r w',
    validateTeamMembershipFromAPIKey (S (S fuel)) env km teamID userID w = Returns (r, w')
    /\ secrets w' = secrets w /\ faults w' = faults w
    /\ trace w' = trace w ++ [SecretList (membershipSelector teamID userID)]
    /\ ((exists member, r = inl member)
        <-> selected (membershipSelector teamID userID) (secrets w) <> []).
Proof.
  intros Hd Hf. unfold validateTeamMembershipFromAPIKey, bind at 1.
  unfold Secrets_List, storeCall. rewrite Hf. simpl.
  destruct (selected (membershipSelector teamID userID) (secrets w)) as [|secret rest].
  { eexists _, _. split; [done|]. repeat split; try done. by intros [member ?]. }
  destruct (enablePolicyMgmt km).
  - destruct (GetTierLimits_total fuel env (label secret "maas/tier") Hd) as [limits Hl].
    unfold bind, GetTierLimits, lift, ret. rewrite Hl.
    eexists _, _. split; [done|]. repeat split; try done. by eexists.
  - unfold bind, ret. eexists _, _. split; [done|]. repeat split; try done. by eexists.
Qed.

(** X6.  The users ListTeamMembers shows are exactly the users whose key
    requests pass the membership check: for a team id and a user id that
    pass isValidUserID (lowercase letters, digits and inner hyphens, so
    that the selector strings the two functions paste them into spell the
    equality requirements and nothing else), with a default tier that is
    in the table and a store that serves both listings,
    getTeamMembersFromAPIKeys returns a member with that id if and only if
    validateTeamMembershipFromAPIKey accepts the user. *)
Theorem listed_iff_membership_check_passes
    (fuel : nat) (env : Environ) (rangeMembers : gmap string TeamMember.t -> list TeamMember.t)
    (km : KeyManager) (teamID userID : string) (w : World) :
  mapIteration rangeMembers ->
  isValidUserID teamID = true ->
  isValidUserID userID = true ->
  knownTier (policies.GetDefaultTier env) ->
  faults w (SecretList (teamKeysSelector teamID)) = None ->
  faults w (SecretList (membershipSelector teamID userID)) = None ->
  exists members w1 checked w2,
    getTeamMembersFromAPIKeys (S (S fuel)) env rangeMembers km teamID w
    = Returns (inl members, w1)
    /\ validateTeamMembershipFromAPIKey (S (S fuel)) env km teamID userID w
       = Returns (checked, w2)
    /\ (userID ∈ (TeamMember.UserID <$> members) <-> exists member, checked = inl member).
Proof.
  intros Horder _ Hvalid Hd Hflist Hfcheck.
  assert (Hne : userID <> EmptyString) by (intros ->; done).
  destruct (total_getTeamMembersFromAPIKeys fuel env rangeMembers km teamID Hd w)
    as (listed & w1 & Hlisted).
  assert (Hinl : exists members, listed = inl members).
  { unfold getTeamMembersFromAPIKeys in Hlisted.
    apply bind_returns in Hlisted as (r & w0 & Hlist & Hrest).
    unfold Secrets_List, storeCall in Hlist. rewrite Hflist in Hlist.
    injection Hlist as <- <-.
    apply bind_returns in Hrest as (memberMap & w0' & _ & Hrest).
    injection Hrest as <- _. by eexists. }
  destruct Hinl as [members ->].
  destruct (validateTeamMembershipFromAPIKey_decides fuel env km teamID userID w Hd Hfcheck)
    as (checked & w2 & Hchecked & _ & _ & _ & Hiff).
  exists members, w1, checked, w2. split; [done|]. split; [done|].
  destruct (getTeamMembersFromAPIKeys_run _ _ _ _ _ _ _ _ Hlisted)
    as (memberMap & Hiter & Hkeys & Hdom & _).
  assert (Hmembers : userID ∈ (TeamMember.UserID <$> members)
                     <-> userID <> EmptyString
                         /\ exists s, s ∈ selected (teamKeysSelector teamID) (secrets w)
                                      /\ userOf s = userID).
  { rewrite Hiter, <- Hdom. by apply member_ids_listed. }
  rewrite Hmembers, Hiff. split.
  - intros (_ & s & Hin & Hs) Hnil.
    assert (Hin' : s ∈ selected (membershipSelector teamID userID) (secrets w)).
    { apply elem_of_selected in Hin as [Hm Hstored].
      apply elem_of_selected. split; [|done].
      apply matches_membershipSelector. split; [done|]. by apply userOf_Some. }
    rewrite Hnil in Hin'. by apply elem_of_nil in Hin'.
  - intros Hsome. split; [done|].
    destruct (selected (membershipSelector teamID userID) (secrets w)) as [|s rest] eqn:Hsel;
      [done|].
    assert (Hin : s ∈ selected (membershipSelector teamID userID) (secrets w))
      by (rewrite Hsel; apply list_elem_of_here).
    apply elem_of_selected in Hin as [Hm Hstored].
    apply matches_membershipSelector in Hm as [Hteam Huser].
    exists s. split; [by apply elem_of_selected | by apply userOf_Some].
Qed.

Lemma listed_iff_membership_check_passes_witness :
  exists members w1 checked w2,
    getTeamMembersFromAPIKeys 2 ∅ keyOrder testManager "default" threeKeysWorld
    = Returns (inl members, w1)
    /\ validateTeamMembershipFromAPIKey 2 ∅ testManager "default" "bob" threeKeysWorld
       = Returns (checked, w2)
    /\ ("bob" ∈ (TeamMember.UserID <$> members) <-> exists member, checked = inl member).
Proof.
  apply (listed_iff_membership_check_passes 0 ∅ keyOrder testManager "default" "bob"
           threeKeysWorld).
  - intros m. reflexivity.
  - reflexivity.
  - reflexivity.
  - apply tierCase_known_names. right. left. reflexivity.
  - vm_compute. reflexivity.
  - vm_compute. reflexivity.
Defined.

(** ** The two copies of the key-issuing logic *)

Lemma agrees_bind {A : Type} (m : M A)
    (internal : A -> M (CreateTeamKeyResponse.t + error)) (handler : A -> M Response) w :
  (forall a w', agrees (internal a w') (handler a w')) ->
  agrees (bind m internal w) (bind m handler w).
Proof.
  intros Hk. unfold bind. destruct (m w) as [[a w']| |]; [apply Hk|done|done].
Qed.

Lemma agrees_error err code b w :
  code <> StatusOK ->
  agrees (ret (inr err) w) (JSON code b w).
Proof. intros Hc. simpl. eexists. split; [reflexivity|done]. Qed.

Lemma issueTeamKey_agrees fuel env km teamID req member w :
  agrees (issueTeamKeyInternal fuel env km teamID req member w)
         (issueTeamKey fuel env km teamID req member w).
Proof.
  unfold issueTeamKeyInternal, issueTeamKey.
  apply agrees_bind. intros [apiKey|err] wa; [|by apply agrees_error].
  apply agrees_bind. intros [keySecret|err] wb.
  - apply (agrees_bind (buildInheritedPolicies fuel env km member)). intros h wc. reflexivity.
  - destruct (strings_Contains _ _); by apply agrees_error.
Qed.

Lemma createTeamKey_agrees
    (fuel : nat) (env : Environ) (km : KeyManager) (teamID : string)
    (req : CreateTeamKeyRequest.t) (w : World) :
  agrees (createTeamKeyInternal fuel env km teamID req w)
         (createTeamKey fuel env km teamID (BindOk req) w).
Proof.
  unfold createTeamKeyInternal, createTeamKey.
  apply agrees_bind. intros [got|err] w0; [|by apply agrees_error].
  case_decide.
  - apply agrees_bind. intros member w1. apply issueTeamKey_agrees.
  - apply agrees_bind. intros [member|err] w1; [|by apply agrees_error].
    apply issueTeamKey_agrees.
Qed.

(** X7.  createTeamKey and createTeamKeyInternal are two copies of one logic,
    and they agree on every team, request and world: they issue the same
    store calls and leave the same world; the handler answers 200 with
    exactly the response the internal function returns, answers another
    status exactly when the internal function returns an error, and fails
    to return exactly when the internal function does. *)
Theorem createTeamKey_agrees_with_internal
    (fuel : nat) (env : Environ) (km : KeyManager) (teamID : string)
    (req : CreateTeamKeyRequest.t) (w : World) :
  match createTeamKeyInternal fuel env km teamID req w with
  | Returns (inl r, w') =>
      createTeamKey fuel env km teamID (BindOk req) w
      = Returns ({| status := StatusOK; body := KeyCreated r |}, w')
  | Returns (inr _, w') =>
      exists resp,
        createTeamKey fuel env km teamID (BindOk req) w = Returns (resp, w')
        /\ status resp <> StatusOK
  | OutOfFuel => createTeamKey fuel env km teamID (BindOk req) w = OutOfFuel
  | Panics msg => createTeamKey fuel env km teamID (BindOk req) w = Panics msg
  end.
Proof.
  pose proof (createTeamKey_agrees fuel env km teamID req w) as Hagree.
  unfold agrees in Hagree.
  destruct (createTeamKeyInternal fuel env km teamID req w) as [[[r|err] w']| |];
    exact Hagree.
Qed.

(** ** The legacy endpoints *)

Lemma generateKey_of_internal fuel env km userID w :
  isValidUserID userID = true ->
  generateKey fuel env km (BindOk {| GenerateKeyRequest.UserID := userID |}) w
  = match createTeamKeyInternal fuel env km "default" (legacyKeyRequest userID) w with
    | Returns (inl r, w') =>
        Returns (keyGenerated (CreateTeamKeyResponse.APIKey r) (CreateTeamKeyResponse.UserID r), w')
    | Returns (inr err, w') =>
        Returns (if strings_Contains (Error err) "already has an active API key"
                 then {| status := StatusConflict; body := ErrorBody (Error err) |}
                 else {| status := StatusInternalServerError;
                         body := ErrorBody "Failed to create API key" |}, w')
    | OutOfFuel => OutOfFuel
    | Panics msg => Panics msg
    end.
Proof.
  intros Hvalid. unfold generateKey. cbn [GenerateKeyRequest.UserID]. rewrite Hvalid.
  change (negb true) with false. cbv iota zeta. unfold bind.
  destruct (createTeamKeyInternal _ _ _ _ _ _) as [[[r|err] w']| |];
    [reflexivity | | done | done].
  by destruct (strings_Contains _ _).
Qed.

Lemma issueTeamKeyInternal_user fuel env km teamID req member w r w' :
  issueTeamKeyInternal fuel env km teamID req member w = Returns (inl r, w') ->
  CreateTeamKeyResponse.UserID r = CreateTeamKeyRequest.UserID req.
Proof.
  unfold issueTeamKeyInternal. intros Hrun.
  apply bind_returns in Hrun as ([apiKey|err] & wa & _ & Hrun); [|done].
  apply bind_returns in Hrun as ([s|err] & wb & _ & Hrun); [|done].
  apply bind_returns in Hrun as (h & wc & _ & Hrun). by injection Hrun as <- _.
Qed.

Lemma createTeamKeyInternal_user fuel env km teamID req w r w' :
  createTeamKeyInternal fuel env km teamID req w = Returns (inl r, w') ->
  CreateTeamKeyResponse.UserID r = CreateTeamKeyRequest.UserID req.
Proof.
  unfold createTeamKeyInternal. intros Hrun.
  apply bind_returns in Hrun as ([got|err] & w0 & _ & Hrun); [|done].
  case_decide.
  - apply bind_returns in Hrun as (member & w1 & _ & Hrun).
    by eapply issueTeamKeyInternal_user.
  - apply bind_returns in Hrun as ([member|err] & w1 & _ & Hrun); [|done].
    by eapply issueTeamKeyInternal_user.
Qed.

(** X8.  The legacy endpoint generateKey is CreateAPIKey on the default team
    under the alias "legacy-key".  For a user id that passes isValidUserID
    it leaves the same world as createTeamKey("default") called with that
    request and fails to return exactly when that does; it answers 200,
    with the same key and the user id, exactly when that answers 200; and
    when that answers another status (404 for a missing default team
    included) it answers 409 or 500.  A user id that does not pass is
    answered 400 without any store call. *)
Theorem generateKey_is_createTeamKey_on_default
    (fuel : nat) (env : Environ) (km : KeyManager) (userID : string) (w : World) :
  let legacy := BindOk {| GenerateKeyRequest.UserID := userID |} in
  if isValidUserID userID then
    match createTeamKey fuel env km "default" (BindOk (legacyKeyRequest userID)) w with
    | Returns (resp, w') =>
        exists resp',
          generateKey fuel env km legacy w = Returns (resp', w')
          /\ (status resp = StatusOK <-> status resp' = StatusOK)
          /\ (forall r, resp = {| status := StatusOK; body := KeyCreated r |} ->
                        resp' = keyGenerated (CreateTeamKeyResponse.APIKey r) userID)
          /\ (status resp <> StatusOK ->
              status resp' = StatusConflict \/ status resp' = StatusInternalServerError)
    | OutOfFuel => generateKey fuel env km legacy w = OutOfFuel
    | Panics msg => generateKey fuel env km legacy w = Panics msg
    end
  else
    exists resp, generateKey fuel env km legacy w = Returns (resp, w)
                 /\ status resp = StatusBadRequest.
Proof.
  intros legacy. destruct (isValidUserID userID) eqn:Hvalid.
  2: { unfold legacy, generateKey. cbn [GenerateKeyRequest.UserID].
       rewrite Hvalid. simpl. eexists. split; reflexivity. }
  unfold legacy. rewrite generateKey_of_internal by done.
  pose proof (createTeamKey_agrees fuel env km "default"
                (legacyKeyRequest userID) w) as Hagree.
  unfold agrees in Hagree.
  destruct (createTeamKeyInternal fuel env km "default" (legacyKeyRequest userID) w)
    as [[[r|err] w']| |] eqn:Hinternal.
  - rewrite Hagree. eexists. split; [reflexivity|].
    split; [done|]. split; [|done].
    intros r' [= <-]. by rewrite (createTeamKeyInternal_user _ _ _ _ _ _ _ _ Hinternal).
  - destruct Hagree as (resp & -> & Hstatus).
    eexists. split; [reflexivity|].
    destruct (strings_Contains _ _); simpl.
    + split; [split; [done|discriminate]|]. split; [|auto]. by intros r ->.
    + split; [split; [done|discriminate]|]. split; [|auto]. by intros r ->.
  - by rewrite Hagree.
  - by rewrite Hagree.
Qed.

(** What deleteKey does to the record of an issued key. *)
Lemma deleteKey_of_record km r w w1 s :
  keyRecordOf r w w1 s ->
  fingerprintFree (CreateTeamKeyResponse.APIKey r) (secrets w) ->
  faults w (SecretList (fingerprintSelector (CreateTeamKeyResponse.APIKey r))) = None ->
  faults w (SecretDelete (CreateTeamKeyResponse.SecretName r)) = None ->
  exists w2,
    deleteKey km (BindOk {| DeleteKeyRequest.Key := CreateTeamKeyResponse.APIKey r |}) w1
    = Returns (keyDeleted (CreateTeamKeyResponse.SecretName r), w2)
    /\ secrets w2 = secrets w /\ faults w2 = faults w.
Proof.
  intros (Hname & Hfresh & Hs1 & Hf1 & Hlabel & Hdata) Hfree Hlist Hdelete.
  set (secret := CreateTeamKeyResponse.APIKey r) in *.
  destruct (fingerprint_total secret) as [Hfp _].
  assert (Hsel1 : selected (fingerprintSelector secret) (secrets w1) = [s]).
  { rewrite Hs1. apply selected_insert_only; [done | by apply matches_fingerprint |].
    intros n x Hx Hm. apply matches_fingerprint in Hm. by apply (Hfree n x). }
  assert (Hlook : secrets w1 !! secretName s = Some s).
  { rewrite Hs1. apply lookup_insert_eq. }
  rewrite <- Hname in Hdelete |- *.
  eexists. split; [|split].
  - unfold deleteKey. cbn [DeleteKeyRequest.Key]. rewrite Hfp.
    unfold bind, Secrets_List, storeCall.
    fold (fingerprintSelector secret). rewrite Hf1, Hlist. simpl.
    rewrite Hsel1. unfold Secrets_Delete, storeCall. simpl.
    rewrite Hf1, Hdelete. simpl. rewrite Hlook. reflexivity.
  - simpl. rewrite Hs1. by apply delete_insert_id.
  - simpl. exact Hf1.
Qed.

(** X9.  A key issued by the legacy endpoint generateKey is revoked by the
    legacy endpoint deleteKey: when generateKey answered 200 with a key, in
    a store where no other record carried that key's fingerprint, and the
    store serves the listing and the delete, deleteKey called with that key
    answers 200 and the secret store is back to what it was before the key
    was issued. *)
Theorem generateKey_then_deleteKey
    (fuel : nat) (env : Environ) (km : KeyManager) (userID apiKey : string) (w w1 : World) :
  generateKey fuel env km (BindOk {| GenerateKeyRequest.UserID := userID |}) w
  = Returns (keyGenerated apiKey userID, w1) ->
  fingerprintFree apiKey (secrets w) ->
  faults w (SecretList (fingerprintSelector apiKey)) = None ->
  (forall name, faults w (SecretDelete name) = None) ->
  exists name w2,
    deleteKey km (BindOk {| DeleteKeyRequest.Key := apiKey |}) w1
    = Returns (keyDeleted name, w2)
    /\ secrets w1 !! name <> None
    /\ secrets w2 = secrets w.
Proof.
  intros Hgen Hfree Hlist Hdelete.
  destruct (isValidUserID userID) eqn:Hvalid.
  2: { unfold generateKey in Hgen. cbn [GenerateKeyRequest.UserID] in Hgen.
       by rewrite Hvalid in Hgen. }
  rewrite generateKey_of_internal in Hgen by done.
  pose proof (createTeamKey_agrees fuel env km "default"
                (legacyKeyRequest userID) w) as Hagree.
  unfold agrees in Hagree.
  destruct (createTeamKeyInternal fuel env km "default" (legacyKeyRequest userID) w)
    as [[[r|err] w']| |]; [| |done|done].
  2: { by destruct (strings_Contains _ _). }
  injection Hgen as Hkey _ ->.
  destruct (createTeamKey_created _ _ _ _ _ _ _ _ Hagree) as (s & Hrec).
  rewrite <- Hkey in Hfree, Hlist |- *.
  destruct (deleteKey_of_record km r w w1 s Hrec Hfree Hlist (Hdelete _))
    as (w2 & Hrun & Hs2 & _).
  exists (CreateTeamKeyResponse.SecretName r), w2.
  split; [exact Hrun|]. split; [|exact Hs2].
  destruct Hrec as (Hname & _ & Hs1 & _). rewrite Hs1, <- Hname, lookup_insert_eq. done.
Qed.

Lemma generateKey_then_deleteKey_witness :
  exists name w2,
    deleteKey testManager
      (BindOk {| DeleteKeyRequest.Key := "QUFBQUFBQUFBQUFBQUFBQUFBQUFBQUFBQUFBQUFBQUFBQUFB" |})
      (worldAfter (generateKey 1 ∅ testManager (BindOk {| GenerateKeyRequest.UserID := "alice" |}))
         defaultTeamWorld)
    = Returns (keyDeleted name, w2)
    /\ secrets (worldAfter (generateKey 1 ∅ testManager
                              (BindOk {| GenerateKeyRequest.UserID := "alice" |}))
                  defaultTeamWorld) !! name <> None
    /\ secrets w2 = secrets defaultTeamWorld.
Proof.
  apply (generateKey_then_deleteKey 1 ∅ testManager "alice"
           "QUFBQUFBQUFBQUFBQUFBQUFBQUFBQUFBQUFBQUFBQUFBQUFB" defaultTeamWorld).
  - apply answer_returns. vm_compute. reflexivity.
  - intros name s Hs. cbn [secrets defaultTeamWorld] in Hs.
    apply lookup_singleton_Some in Hs as [_ <-].
    vm_compute. discriminate.
  - reflexivity.
  - reflexivity.
Defined.

(** ** The labels of a key record and the selectors that look for it *)

Lemma createEnhancedKeySecret_labels km teamID req apiKey member w s w' :
  createEnhancedKeySecret km teamID req apiKey member w = Returns (inl s, w') ->
  secretLabels s !! "kuadrant.io/apikeys-by" = Some (secretSelectorValue km)
  /\ secretLabels s !! "maas/user-id" = Some (CreateTeamKeyRequest.UserID req)
  /\ secretLabels s !! "maas/team-id" = Some teamID
  /\ secretLabels s !! "maas/tier" = Some (TeamMember.Tier member).
Proof.
  unfold createEnhancedKeySecret.
  rewrite slice_to_hash8, (proj1 (fingerprint_total apiKey)).
  unfold bind, time_Now_RFC3339, Secrets_Create, storeCall.
  destruct (faults w _) eqn:Hf; [done|]. cbn [secretName].
  destruct (secrets _ !! _) eqn:Hl; [done|].
  intros [= <- <-]. cbn [secretLabels list_to_map foldr fst snd uncurry].
  repeat split;
    repeat first [ apply lookup_insert_eq | rewrite lookup_insert_ne by done ].
Qed.

(** The record behind a 200 answer of the key-issuing tail, with the
    labels the selectors look at. *)
Lemma issueTeamKey_record fuel env km teamID req member w r w1 :
  issueTeamKey fuel env km teamID req member w
  = Returns ({| status := StatusOK; body := KeyCreated r |}, w1) ->
  exists s,
    keyRecordOf r w w1 s
    /\ secretLabels s !! "kuadrant.io/apikeys-by" = Some (secretSelectorValue km)
    /\ secretLabels s !! "maas/user-id" = Some (CreateTeamKeyRequest.UserID req)
    /\ secretLabels s !! "maas/team-id" = Some teamID.
Proof.
  unfold issueTeamKey. intros Hrun.
  apply bind_returns in Hrun as ([apiKey|err] & wa & Hgen & Hrun); [|done].
  destruct (keepsSecrets_generateSecureToken _ _ _ _ Hgen) as [Hsa Hfa].
  apply bind_returns in Hrun as ([s|err] & wb & Hcreate & Hrun);
    [|by destruct (strings_Contains _ _)].
  destruct (createEnhancedKeySecret_created _ _ _ _ _ _ _ _ Hcreate)
    as (Hfresh & Hsb & Hfb & Hlabel & Hdata).
  destruct (createEnhancedKeySecret_labels _ _ _ _ _ _ _ _ Hcreate) as (Hby & Huser & Hteam & _).
  apply bind_returns in Hrun as (h & wc & Hbuild & Hrun).
  destruct (keepsSecrets_buildInheritedPolicies _ _ _ _ _ _ _ Hbuild) as [Hsc Hfc].
  injection Hrun as <- <-.
  exists s. split; [|done]. unfold keyRecordOf. simpl.
  rewrite Hsc, Hsb, Hfc, Hfb, <- Hsa, <- Hfa. done.
Qed.

Lemma createTeamKey_record fuel env km teamID req w r w1 :
  createTeamKey fuel env km teamID (BindOk req) w
  = Returns ({| status := StatusOK; body := KeyCreated r |}, w1) ->
  exists s,
    keyRecordOf r w w1 s
    /\ secretLabels s !! "kuadrant.io/apikeys-by" = Some (secretSelectorValue km)
    /\ secretLabels s !! "maas/user-id" = Some (CreateTeamKeyRequest.UserID req)
    /\ secretLabels s !! "maas/team-id" = Some teamID.
Proof.
  unfold createTeamKey. intros Hrun.
  apply bind_returns in Hrun as ([got|err] & w0 & Hget & Hrun); [|done].
  destruct (keepsSecrets_Secrets_Get _ _ _ _ Hget) as [Hs0 Hf0].
  assert (Hissue : exists member w0', secrets w0' = secrets w /\ faults w0' = faults w
            /\ issueTeamKey fuel env km teamID req member w0'
               = Returns ({| status := StatusOK; body := KeyCreated r |}, w1)).
  { case_decide.
    - apply bind_returns in Hrun as (member & w0' & Hmember & Hrun).
      destruct (keepsSecrets_defaultTeamMember _ _ _ _ _ _ _ _ Hmember) as [Hs Hf].
      exists member, w0'. split; [congruence|]. split; [congruence|done].
    - apply bind_returns in Hrun as ([member|err] & w0' & Hmember & Hrun); [|done].
      destruct (keepsSecrets_validateTeamMembershipFromAPIKey _ _ _ _ _ _ _ _ Hmember)
        as [Hs Hf].
      exists member, w0'. split; [congruence|]. split; [congruence|done]. }
  destruct Hissue as (member & w0' & Hs & Hf & Hissue).
  destruct (issueTeamKey_record _ _ _ _ _ _ _ _ _ Hissue) as (s & Hrec & Hlabels).
  exists s. split; [|done]. unfold keyRecordOf in *. by rewrite <- Hs, <- Hf.
Qed.

Lemma wellKeyed_insert (m : gmap string Secret) (s : Secret) :
  wellKeyed m -> wellKeyed (<[secretName s := s]> m).
Proof.
  intros Hm name x Hl.
  apply lookup_insert_Some in Hl as [[<- <-]|[_ Hl]]; [done|by apply Hm].
Qed.

Lemma matches_teamKeysSelector teamID labels :
  matchesSelector (teamKeysSelector teamID) labels = true
  <-> labels !! "kuadrant.io/apikeys-by" = Some "rhcl-keys"
      /\ labels !! "maas/team-id" = Some teamID.
Proof.
  unfold matchesSelector, teamKeysSelector. simpl.
  rewrite !andb_true_iff, !bool_decide_eq_true. tauto.
Qed.

(** X10.  The key record CreateAPIKey writes is labelled kuadrant.io/apikeys-by
    with the configured selector value, while the listing, membership and
    cascade selectors spell "rhcl-keys": after a CreateAPIKey that answered
    200, getTeamAPIKeys (the store serving the listing) returns the name of
    the new record if and only if the manager's secretSelectorValue is
    "rhcl-keys". *)
Theorem created_key_listed_iff_selector_value
    (fuel : nat) (env : Environ) (km : KeyManager) (teamID : string)
    (req : CreateTeamKeyRequest.t) (r : CreateTeamKeyResponse.t) (w w1 : World) :
  createTeamKey fuel env km teamID (BindOk req) w
  = Returns ({| status := StatusOK; body := KeyCreated r |}, w1) ->
  wellKeyed (secrets w) ->
  faults w (SecretList (teamKeysSelector teamID)) = None ->
  exists keys w2,
    getTeamAPIKeys km teamID w1 = Returns (inl keys, w2)
    /\ (CreateTeamKeyResponse.SecretName r ∈ keys <-> secretSelectorValue km = "rhcl-keys").
Proof.
  intros Hcreate Hkeyed Hlist.
  destruct (createTeamKey_record _ _ _ _ _ _ _ _ Hcreate)
    as (s & (Hname & Hfresh & Hs1 & Hf1 & _) & Hby & Huser & Hteam).
  eexists _, _. split.
  { unfold getTeamAPIKeys, bind, Secrets_List, storeCall. rewrite Hf1, Hlist. reflexivity. }
  simpl. rewrite list_elem_of_fmap. split.
  - intros (s' & Hn & Hin). apply elem_of_selected in Hin as [Hm (name & Hl)].
    assert (Hkeyed1 : wellKeyed (secrets w1)) by (rewrite Hs1; by apply wellKeyed_insert).
    assert (name = secretName s) as ->.
    { rewrite <- (Hkeyed1 _ _ Hl). congruence. }
    assert (s' = s) as ->.
    { rewrite Hs1, lookup_insert_eq in Hl. congruence. }
    apply matches_teamKeysSelector in Hm as [Hm _]. congruence.
  - intros Hvalue. exists s. split; [done|].
    apply elem_of_selected. split.
    + apply matches_teamKeysSelector. split; [congruence|done].
    + exists (secretName s). rewrite Hs1. apply lookup_insert_eq.
Qed.

Lemma created_key_listed_iff_selector_value_witness :
  exists keys w2,
    getTeamAPIKeys testManager "default" (worldAfter aliceCreates defaultTeamWorld)
    = Returns (inl keys, w2)
    /\ (CreateTeamKeyResponse.SecretName (keyResponse aliceCreates defaultTeamWorld) ∈ keys
        <-> secretSelectorValue testManager = "rhcl-keys").
Proof.
  apply (created_key_listed_iff_selector_value 1 ∅ testManager "default" aliceKey
           (keyResponse aliceCreates defaultTeamWorld) defaultTeamWorld).
  - apply answer_returns. vm_compute. reflexivity.
  - intros name s Hs. cbn [secrets defaultTeamWorld] in Hs.
    apply lookup_singleton_Some in Hs as [<- <-]. reflexivity.
  - reflexivity.
Defined.

(** ** deleteTeamKey *)

Lemma deleteTeamKey_of_record km name s w :
  secrets w !! name = Some s ->
  label s "maas/team-id" <> EmptyString ->
  faults w (SecretGet name) = None ->
  faults w (SecretDelete name) = None ->
  deleteTeamKey km name w
  = Returns (teamKeyDeleted name (label s "maas/team-id"),
             withSecrets (record (SecretDelete name) (record (SecretGet name) w))
               (delete name (secrets w))).
Proof.
  intros Hl Hteam Hget Hdelete.
  unfold deleteTeamKey, bind, Secrets_Get, storeCall. rewrite Hget. simpl. rewrite Hl.
  case_decide; [done|].
  unfold Secrets_Delete, storeCall. simpl. rewrite Hdelete. simpl. by rewrite Hl.
Qed.

(** X11.  A key issued by CreateAPIKey for a team with a non-empty id is
    deleted by DELETE /keys/{name} under the secret name of the response:
    deleteTeamKey answers 200 naming the key and its team, and the secret
    store is back to what it was before the key was issued. *)
Theorem createTeamKey_then_deleteTeamKey
    (fuel : nat) (env : Environ) (km : KeyManager) (teamID : string)
    (req : CreateTeamKeyRequest.t) (r : CreateTeamKeyResponse.t) (w w1 : World) :
  let name := CreateTeamKeyResponse.SecretName r in
  createTeamKey fuel env km teamID (BindOk req) w
  = Returns ({| status := StatusOK; body := KeyCreated r |}, w1) ->
  teamID <> EmptyString ->
  faults w (SecretGet name) = None ->
  faults w (SecretDelete name) = None ->
  exists w2,
    deleteTeamKey km name w1 = Returns (teamKeyDeleted name teamID, w2)
    /\ secrets w2 = secrets w
    /\ policyObjects w2 = policyObjects w1.
Proof.
  intros name Hcreate Hteam Hget Hdelete.
  destruct (createTeamKey_record _ _ _ _ _ _ _ _ Hcreate)
    as (s & (Hname & Hfresh & Hs1 & Hf1 & _) & _ & _ & Hlabel).
  fold name in Hname.
  assert (Hl : secrets w1 !! name = Some s) by (by rewrite Hs1, <- Hname, lookup_insert_eq).
  assert (Hid : label s "maas/team-id" = teamID) by (unfold label; by rewrite Hlabel).
  eexists. split.
  { rewrite (deleteTeamKey_of_record km name s w1 Hl); rewrite ?Hid, ?Hf1; done. }
  simpl. split; [|done]. rewrite Hs1, <- Hname. by apply delete_insert_id.
Qed.

Lemma createTeamKey_then_deleteTeamKey_witness :
  exists w2,
    deleteTeamKey testManager "apikey-alice-default-3da46860"
      (worldAfter aliceCreates defaultTeamWorld)
    = Returns (teamKeyDeleted "apikey-alice-default-3da46860" "default", w2)
    /\ secrets w2 = secrets defaultTeamWorld
    /\ policyObjects w2 = policyObjects (worldAfter aliceCreates defaultTeamWorld).
Proof.
  assert (Hname : CreateTeamKeyResponse.SecretName (keyResponse aliceCreates defaultTeamWorld)
                  = "apikey-alice-default-3da46860") by (vm_compute; reflexivity).
  rewrite <- Hname.
  apply (createTeamKey_then_deleteTeamKey 1 ∅ testManager "default" aliceKey
           (keyResponse aliceCreates defaultTeamWorld) defaultTeamWorld).
  - apply answer_returns. vm_compute. reflexivity.
  - discriminate.
  - reflexivity.
  - reflexivity.
Defined.

Lemma teamConfigSecret_team req now :
  label (teamConfigSecret req now) "maas/team-id" = CreateTeamRequest.TeamID req.
Proof. reflexivity. Qed.

Lemma isValidUserID_nonempty s : isValidUserID s = true -> s <> EmptyString.
Proof. by intros Hv ->. Qed.

Lemma validateTeamRequest_id env km req req' :
  validateTeamRequest env km req = (req', None) ->
  CreateTeamRequest.TeamID req' <> EmptyString.
Proof.
  intros Hv. destruct (validateTeamRequest_fields _ _ _ _ _ Hv) as (-> & _).
  unfold validateTeamRequest in Hv.
  destruct (isValidTeamID (CreateTeamRequest.TeamID req)) eqn:Hid; [|done].
  by apply isValidUserID_nonempty.
Qed.

(** X12.  deleteTeamKey does not look at the resource type of the record it is
    given: it deletes any record that carries a non-empty maas/team-id
    label.  The record of a team is such a record, so after a CreateTeam
    that answered 200, DELETE /keys/team-{id}-config answers 200 "API key
    deleted successfully" (the store serving the get and the delete), the
    team record is gone, and the policy store is not touched: the team's
    enforcement policies stay published. *)
Theorem deleteTeamKey_deletes_team_record
    (fuel : nat) (env : Environ) (km : KeyManager) (req : CreateTeamRequest.t)
    (r : CreateTeamResponse.t) (w w1 : World) :
  let name := teamConfigName (CreateTeamResponse.TeamID r) in
  createTeam fuel env km (BindOk req) w
  = Returns ({| status := StatusOK; body := TeamCreated r |}, w1) ->
  faults w (SecretGet name) = None ->
  faults w (SecretDelete name) = None ->
  exists w2,
    deleteTeamKey km name w1
    = Returns (teamKeyDeleted name (CreateTeamResponse.TeamID r), w2)
    /\ secrets w1 !! name <> None
    /\ secrets w2 !! name = None
    /\ secrets w2 = secrets w
    /\ policyObjects w2 = policyObjects w1
    /\ policyStoreUntouched w1 w2.
Proof.
  intros name Hcreate Hget Hdelete.
  destruct (createTeam_created _ _ _ _ _ _ _ Hcreate)
    as (req' & Hv & Hfresh & Hs1 & Hf1 & Hid & _).
  unfold name in *. rewrite Hid in *.
  set (n := teamConfigName (CreateTeamRequest.TeamID req')) in *.
  set (s := teamConfigSecret req' (clock w)) in *.
  assert (Hl : secrets w1 !! n = Some s) by (by rewrite Hs1, lookup_insert_eq).
  eexists. split.
  { rewrite (deleteTeamKey_of_record km n s w1 Hl); rewrite ?Hf1; try done.
    unfold s. rewrite teamConfigSecret_team. by eapply validateTeamRequest_id. }
  simpl. split; [by rewrite Hl|]. split; [apply lookup_delete_eq|].
  split; [rewrite Hs1; by apply delete_insert_id|]. split; [done|].
  split; [done|]. split; [done|].
  exists [SecretGet n; SecretDelete n]. split; [simpl; by rewrite <- app_assoc|].
  by repeat constructor.
Qed.

Lemma deleteTeamKey_deletes_team_record_witness :
  exists w2,
    deleteTeamKey testManager "team-t1-config" teamOneCreated
    = Returns (teamKeyDeleted "team-t1-config" "t1", w2)
    /\ secrets teamOneCreated !! "team-t1-config" <> None
    /\ secrets w2 !! "team-t1-config" = None
    /\ secrets w2 = secrets emptyWorld
    /\ policyObjects w2 = policyObjects teamOneCreated
    /\ policyStoreUntouched teamOneCreated w2.
Proof.
  apply (deleteTeamKey_deletes_team_record 1 ∅ testManager teamOne
           {| CreateTeamResponse.TeamID := "t1";
              CreateTeamResponse.TeamName := "Team One";
              CreateTeamResponse.DefaultTier := "standard";
              CreateTeamResponse.PoliciesApplied := true;
              CreateTeamResponse.InheritedLimits :=
                [ ("tier", VString "standard");
                  ("token_limit_per_hour", VInt 50000);
                  ("token_limit_per_day", VInt 500000);
                  ("token_limit", VInt 10000);
                  ("request_limit", VInt 120);
                  ("token_window", VString "1m");
                  ("request_window", VString "1m");
                  ("models_allowed", VStrings ["simulator-model"; "qwen3-0-6b-instruct"]);
                  ("max_concurrent_requests", VInt 10) ] |}
           emptyWorld teamOneCreated).
  - unfold teamOneCreated. apply answer_returns. vm_compute. reflexivity.
  - reflexivity.
  - reflexivity.
Defined.

(** ** removeUserFromTeam *)

(** X13.  removeUserFromTeam revokes a membership and nothing else.  For
    a team id and a user id that pass isValidUserID (so that the selector
    string they are pasted into spells the equality requirements and
    nothing else), on an existing team, with a store that serves the
    calls, it answers 200; afterwards no key record labelled with that team and user is left,
    every other record (other users' keys, other teams' keys, the team
    records) is still there, nothing was added and the policy store is as
    it was; and on a team other than "default" whose record is not itself
    labelled as a key, the next CreateAPIKey for that user is answered
    403. *)
Theorem removeUserFromTeam_revokes_membership
    (km : KeyManager) (teamID userID : string) (teamRecord : Secret) (w : World) :
  let sel := membershipSelector teamID userID in
  isValidUserID teamID = true ->
  isValidUserID userID = true ->
  faults w (SecretGet (teamConfigName teamID)) = None ->
  secrets w !! teamConfigName teamID = Some teamRecord ->
  faults w (SecretDeleteCollection sel) = None ->
  exists w1,
    removeUserFromTeam km teamID userID w = Returns (userRemoved userID teamID, w1)
    /\ selected sel (secrets w1) = []
    /\ (forall name s,
          secrets w1 !! name = Some s
          <-> secrets w !! name = Some s /\ matchesSelector sel (secretLabels s) = false)
    /\ policyObjects w1 = policyObjects w
    /\ (teamID <> "default" ->
        secretLabels teamRecord !! "kuadrant.io/apikeys-by" = None ->
        faults w (SecretList sel) = None ->
        forall fuel env req,
          CreateTeamKeyRequest.UserID req = userID ->
          exists w2,
            createTeamKey fuel env km teamID (BindOk req) w1 = Returns (notAMember, w2)
            /\ secrets w2 = secrets w1).
Proof.
  intros sel _ _ Hget Hrecord Hcollection.
  set (w1 := withSecrets
               (record (SecretDeleteCollection sel) (record (SecretGet (teamConfigName teamID)) w))
               (filter (fun kv : string * Secret => matchesSelector sel (secretLabels kv.2) = false)
                       (secrets w))).
  assert (Hgone : selected sel (secrets w1) = []) by apply selected_after_collection_delete.
  assert (Hframe : forall name s,
            secrets w1 !! name = Some s
            <-> secrets w !! name = Some s /\ matchesSelector sel (secretLabels s) = false).
  { intros name s. unfold w1. simpl. apply map_lookup_filter_Some. }
  assert (Hrun : removeUserFromTeam km teamID userID w
                 = Returns (userRemoved userID teamID, w1)).
  { unfold removeUserFromTeam, bind at 1. unfold Secrets_Get, storeCall.
    rewrite Hget. simpl. rewrite Hrecord.
    unfold deleteAllUserTeamKeys, bind, Secrets_DeleteCollection, storeCall. simpl.
    fold sel. rewrite Hcollection. reflexivity. }
  assert (Hf1 : faults w1 = faults w) by done.
  assert (Hp1 : policyObjects w1 = policyObjects w) by done.
  clearbody w1.
  exists w1. split; [exact Hrun|].
  split; [exact Hgone|]. split; [exact Hframe|]. split; [exact Hp1|].
  intros Hteam Hnokey Hlist fuel env req Huser.
  assert (Hstill : secrets w1 !! teamConfigName teamID = Some teamRecord).
  { apply Hframe. split; [done|].
    apply not_true_is_false. intros Hm.
    apply matches_membershipSelector in Hm as [Hm _].
    apply matches_teamKeysSelector in Hm as [Hby _]. congruence. }
  eexists. split.
  { unfold createTeamKey, bind, Secrets_Get, storeCall.
    rewrite Hf1, Hget. simpl. rewrite Hstill.
    case_decide; [done|].
    unfold validateTeamMembershipFromAPIKey, bind, Secrets_List, storeCall. simpl.
    rewrite Huser. fold sel. rewrite Hf1, Hlist. simpl.
    rewrite Hgone. reflexivity. }
  done.
Qed.

Example teamOneWithKey_member :
  length (selected (membershipSelector "t1" "alice") (secrets teamOneWithKey)) = 1%nat.
Proof. vm_compute. reflexivity. Qed.

Lemma removeUserFromTeam_revokes_membership_witness :
  exists w1,
    removeUserFromTeam testManager "t1" "alice" teamOneWithKey
    = Returns (userRemoved "alice" "t1", w1)
    /\ selected (membershipSelector "t1" "alice") (secrets w1) = []
    /\ secrets w1 !! "team-t1-config" = Some (teamConfigSecret teamOne "2025-01-01T00:00:00Z")
    /\ exists w2,
         createTeamKey 1 ∅ testManager "t1" (BindOk aliceKey) w1 = Returns (notAMember, w2)
         /\ secrets w2 = secrets w1.
Proof.
  destruct (removeUserFromTeam_revokes_membership testManager "t1" "alice"
              (teamConfigSecret teamOne "2025-01-01T00:00:00Z") teamOneWithKey)
    as (w1 & Hrun & Hgone & Hframe & _ & Hnext).
  - reflexivity.
  - reflexivity.
  - vm_compute. reflexivity.
  - vm_compute. reflexivity.
  - vm_compute. reflexivity.
  - exists w1. split; [exact Hrun|]. split; [exact Hgone|]. split.
    + apply Hframe. split; vm_compute; reflexivity.
    + apply Hnext; [discriminate | reflexivity | vm_compute; reflexivity | reflexivity].
Defined.

(** ** UpdateTeamTokenRateLimitUsers *)

(** X14.  On a stored token policy, UpdateTeamTokenRateLimitUsers changes the
    annotation maas/updated-at and nothing else: with the policy store
    serving the get and the update, it returns success, the object under
    that name keeps its limits, labels, target and UID and gets the
    current time as maas/updated-at, every other object is as before, and
    so the rates published for every team are the same as before. *)
Theorem UpdateTeamTokenRateLimitUsers_keeps_limits
    (pe : policies.PolicyEngine) (teamID name : string) (p : Policy) (w : World) :
  let gvr := policies.tokenRateLimitGVR in
  policyObjects w !! (gvr, name) = Some p ->
  policyName p = name ->
  policyAnnotations p <> ∅ ->
  resourceVersion p <> EmptyString ->
  faults w (PolicyGet gvr name) = None ->
  faults w (PolicyUpdate gvr name (resourceVersion p) (uid p)) = None ->
  exists p' w',
    policies.UpdateTeamTokenRateLimitUsers pe teamID name w = Returns (None, w')
    /\ policyObjects w' = <[(gvr, name) := p']> (policyObjects w)
    /\ limits p' = limits p
    /\ policyLabels p' = policyLabels p
    /\ targetRef p' = targetRef p
    /\ uid p' = uid p
    /\ policyAnnotations p' = <["maas/updated-at" := clock w]> (policyAnnotations p)
    /\ (forall team, publishedTokenRates w' team = publishedTokenRates w team)
    /\ secrets w' = secrets w.
Proof.
  intros gvr Hstored Hname Hann Hrv Hget Hupdate.
  eexists _, _. split.
  { unfold policies.UpdateTeamTokenRateLimitUsers, bind at 1.
    unfold Policy_Get, storeCall. fold gvr. rewrite Hget. simpl. rewrite Hstored.
    case_decide; [done|].
    unfold bind, time_Now_RFC3339, Policy_Update, storeCall. simpl.
    fold gvr. rewrite Hname, Hupdate. simpl. rewrite Hstored.
    case_decide; [done|]. case_decide as Hmatch; [reflexivity|].
    exfalso. apply Hmatch. auto. }
  simpl. repeat match goal with |- _ /\ _ => split end; try done.
  intros team. unfold publishedTokenRates. simpl.
  destruct (decide (name = policies.tokenPolicyNameOf team)) as [->|Hne].
  - fold gvr. rewrite lookup_insert_eq, Hstored. done.
  - fold gvr. rewrite lookup_insert_ne by congruence. done.
Qed.

Lemma UpdateTeamTokenRateLimitUsers_keeps_limits_witness :
  exists p' w',
    policies.UpdateTeamTokenRateLimitUsers testEngine "t1" "team-t1-token-limits" teamOneCreated
    = Returns (None, w')
    /\ policyObjects w' !! (policies.tokenRateLimitGVR, "team-t1-token-limits") = Some p'
    /\ policyAnnotations p' !! "maas/updated-at" = Some (clock teamOneCreated)
    /\ limits p' = limits (policies.tokenPolicyManifest testEngine "t1" "team-t1-token-limits"
                             "2025-01-01T00:00:00Z" policies.standardLimits).
Proof.
  set (p := created (policies.tokenPolicyManifest testEngine "t1" "team-t1-token-limits"
                       "2025-01-01T00:00:00Z" policies.standardLimits) 1).
  destruct (UpdateTeamTokenRateLimitUsers_keeps_limits testEngine "t1" "team-t1-token-limits"
              p teamOneCreated)
    as (p' & w' & Hrun & Hobjects & Hlimits & _ & _ & _ & Hann & _).
  - vm_compute. reflexivity.
  - reflexivity.
  - intros Hempty. apply (f_equal (fun m => m !! "maas/created-at")) in Hempty.
    vm_compute in Hempty. discriminate.
  - vm_compute. discriminate.
  - vm_compute. reflexivity.
  - vm_compute. reflexivity.
  - exists p', w'. split; [exact Hrun|].
    split; [rewrite Hobjects; apply lookup_insert_eq|].
    split; [rewrite Hann; apply lookup_insert_eq|].
    exact Hlimits.
Defined.

(** X15.  Where no token policy is stored under the name (an unlimited team,
    the default team), or the get fails for any other reason,
    UpdateTeamTokenRateLimitUsers reports success after that single get:
    it neither creates nor updates an object. *)
Theorem UpdateTeamTokenRateLimitUsers_without_policy
    (pe : policies.PolicyEngine) (teamID name : string) (w : World) :
  let gvr := policies.tokenRateLimitGVR in
  faults w (PolicyGet gvr name) <> None \/ policyObjects w !! (gvr, name) = None ->
  policies.UpdateTeamTokenRateLimitUsers pe teamID name w
  = Returns (None, record (PolicyGet gvr name) w).
Proof.
  intros gvr Hmissing.
  unfold policies.UpdateTeamTokenRateLimitUsers, bind, Policy_Get, storeCall. fold gvr.
  destruct (faults w (PolicyGet gvr name)) as [e|]; [done|].
  destruct Hmissing as [?|Hnone]; [done|]. simpl. by rewrite Hnone.
Qed.

Lemma UpdateTeamTokenRateLimitUsers_without_policy_witness :
  policies.UpdateTeamTokenRateLimitUsers testEngine "research" "team-research-token-limits"
    (worldAfter (createTeam 1 ∅ testManager (BindOk unlimitedTeam)) emptyWorld)
  = Returns (None,
             record (PolicyGet policies.tokenRateLimitGVR "team-research-token-limits")
               (worldAfter (createTeam 1 ∅ testManager (BindOk unlimitedTeam)) emptyWorld)).
Proof.
  apply (UpdateTeamTokenRateLimitUsers_without_policy testEngine "research"
           "team-research-token-limits").
  right. vm_compute. reflexivity.
Defined.

(** ** CreateTeam when only the second publication fails *)

(** X16.  CreateTeamRateLimitPolicies publishes the token policy before the
    request policy, and the compensating delete of CreateTeam removes the
    team record only.  So when the token policy is created and the create
    of the request policy then fails (with an error that does not say
    "already exists"), CreateTeam answers 500 "Failed to apply team
    policies" and the secret store is back to what it was, but the token
    policy of the team that was not created stays published, with the
    limits resolved for the request. *)
Theorem createTeam_request_failure_leaves_token_policy
    (fuel : nat) (env : Environ) (km : KeyManager) (req req' : CreateTeamRequest.t)
    (tierDefaults : policies.TierLimits) (err : error) (w : World) :
  let id := CreateTeamRequest.TeamID req' in
  let name := teamConfigName id in
  let resolved := overrideLimits req' tierDefaults in
  enablePolicyMgmt km = true ->
  validateTeamRequest env km req = (req', None) ->
  id <> "default" ->
  policies.GetTierLimits fuel env (CreateTeamRequest.DefaultTier req') = Returns tierDefaults ->
  policies.TokenLimit resolved <> -1 ->
  policies.RequestLimit resolved <> -1 ->
  secrets w !! name = None ->
  faults w (SecretCreate name) = None ->
  faults w (SecretDelete name) = None ->
  policyObjects w !! (policies.tokenRateLimitGVR, policies.tokenPolicyNameOf id) = None ->
  faults w (PolicyCreate policies.tokenRateLimitGVR (policies.tokenPolicyNameOf id)) = None ->
  faults w (PolicyCreate policies.rateLimitGVR (policies.requestPolicyNameOf id)) = Some err ->
  strings_Contains (Error err) "already exists" = false ->
  exists w3,
    createTeam fuel env km (BindOk req) w
    = Returns ({| status := StatusInternalServerError;
                  body := ErrorBody "Failed to apply team policies" |}, w3)
    /\ secrets w3 = secrets w
    /\ publishedTokenRates w3 id
       = Some [ {| rateLimit := policies.TokenLimit resolved;
                   rateWindow := policies.TokenWindow resolved |} ]
    /\ policyObjects w3 !! (policies.rateLimitGVR, policies.requestPolicyNameOf id)
       = policyObjects w !! (policies.rateLimitGVR, policies.requestPolicyNameOf id).
Proof.
  intros id name resolved Hen Hv Hid Htier Htoken Hrequest Habsent Hfc Hfd Hnopolicy Hft Hfr Hmsg.
  set (pe := newPolicyEngine km).
  set (w0 := record (SecretGet name) w).
  assert (Hget : exists e, Secrets_Get name w = Returns (inr e, w0)).
  { unfold Secrets_Get, storeCall.
    destruct (faults w (SecretGet name)); [eexists; reflexivity|].
    simpl. rewrite Habsent. eexists; reflexivity. }
  destruct Hget as [e Hget].
  set (s := teamConfigSecret req' (clock w)).
  set (w1 := withSecrets (record (SecretCreate name) w0) (<[name := s]> (secrets w))).
  assert (Hcreate : createTeamConfigSecret km req' w0 = Returns (inl s, w1)).
  { unfold createTeamConfigSecret, bind, time_Now_RFC3339, Secrets_Create, storeCall.
    change (secretName (teamConfigSecret req' (clock w0))) with name.
    change (faults w0) with (faults w). rewrite Hfc. simpl.
    change (secretName (teamConfigSecret req' (clock w))) with name.
    by rewrite Habsent. }
  assert (Hlimits : teamLimits fuel env req' w1 = Returns (resolved, w1))
    by (by apply teamLimits_eq).
  set (tokenName := policies.tokenPolicyNameOf id).
  set (requestName := policies.requestPolicyNameOf id).
  set (p := kindManifest TokenKind pe id (clock w1) resolved).
  set (w2 := withPolicyObjects (record (PolicyCreate policies.tokenRateLimitGVR tokenName) w1)
               (<[(policies.tokenRateLimitGVR, tokenName) := created p (revision w1)]>
                  (policyObjects w1))).
  assert (Htok : publish TokenKind pe id resolved w1 = Returns (None, w2)).
  { rewrite publish_unfold by done. fold p.
    rewrite createOrUpdate_creates; done. }
  set (w2' := record (PolicyCreate policies.rateLimitGVR requestName) w2).
  assert (Hreq : publish RequestKind pe id resolved w2
                 = Returns (Some (wrapError "failed to create RateLimitPolicy: " err), w2')).
  { rewrite publish_unfold by done.
    rewrite (createOrUpdate_create_fails _ _ _ err); done. }
  pose proof (CreateTeamRateLimitPolicies_request_error pe id resolved _ _ _ _ Htok Hreq)
    as Hpublish.
  set (w3 := withSecrets (record (SecretDelete name) w2') (delete name (secrets w2'))).
  assert (Hdelete : Secrets_Delete name w2' = Returns (inl tt, w3)).
  { unfold Secrets_Delete, storeCall. change (faults w2') with (faults w). rewrite Hfd.
    simpl. change (secrets w2') with (<[name := s]> (secrets w)).
    by rewrite lookup_insert_eq. }
  assert (Hs3 : secrets w3 = secrets w).
  { change (secrets w3) with (delete name (<[name := s]> (secrets w))).
    by apply delete_insert_id. }
  assert (Hp3 : policyObjects w3
                = <[(policies.tokenRateLimitGVR, tokenName) := created p (revision w1)]>
                    (policyObjects w)) by done.
  clearbody w3 w2' w2.
  exists w3. split.
  { unfold createTeam. rewrite Hv. fold id name.
    unfold bind. rewrite Hget, Hcreate.
    rewrite Hen, Hlimits, (policyEngine_enabled km Hen). fold pe.
    rewrite Hpublish. change (secretName s) with name. rewrite Hdelete. done. }
  split; [exact Hs3|]. split.
  - unfold publishedTokenRates. fold tokenName. rewrite Hp3, lookup_insert_eq. reflexivity.
  - rewrite Hp3. by apply lookup_insert_ne.
Qed.

Lemma createTeam_request_failure_leaves_token_policy_witness :
  exists w3,
    createTeam 1 ∅ testManager (BindOk teamOne) requestRefused
    = Returns ({| status := 500; body := ErrorBody "Failed to apply team policies" |}, w3)
    /\ secrets w3 = ∅
    /\ publishedTokenRates w3 "t1" = Some [ {| rateLimit := 10000; rateWindow := "1m" |} ]
    /\ policyObjects w3 !! (policies.rateLimitGVR, "team-t1-request-limits") = None.
Proof.
  apply (createTeam_request_failure_leaves_token_policy 1 ∅ testManager teamOne teamOne
           policies.standardLimits (errorString "connection refused") requestRefused);
    try reflexivity; try discriminate.
Defined.

(** ** The default team at startup *)

Lemma getEnvOrDefault_nonempty env key fallback :
  fallback <> EmptyString -> getEnvOrDefault env key fallback <> EmptyString.
Proof. intros Hd. unfold getEnvOrDefault. by case_decide. Qed.

Lemma startupTier_nonempty env km : startupTier env km <> EmptyString.
Proof.
  unfold startupTier. case_decide; [|done]. by apply getEnvOrDefault_nonempty.
Qed.

Lemma validateTeamRequest_accepts env km req :
  isValidTeamID (CreateTeamRequest.TeamID req) = true ->
  CreateTeamRequest.TeamName req <> EmptyString ->
  CreateTeamRequest.DefaultTier req <> EmptyString ->
  (enablePolicyMgmt km = true -> knownTier (CreateTeamRequest.DefaultTier req)) ->
  validateTeamRequest env km req = (req, None).
Proof.
  intros Hid Hname Htier Hk. unfold validateTeamRequest. rewrite Hid. simpl.
  destruct (decide (CreateTeamRequest.TeamName req = EmptyString)); [done|].
  destruct (decide (CreateTeamRequest.DefaultTier req = EmptyString)); [done|].
  destruct (enablePolicyMgmt km) eqn:Hen; [|done].
  specialize (Hk eq_refl). apply tierCase_known_names in Hk.
  unfold getAvailableTiers. rewrite Hen. simpl.
  destruct Hk as [Ht | [Ht | [Ht | Ht]]]; rewrite Ht; reflexivity.
Qed.

Lemma validateTeamRequest_startup env km :
  (enablePolicyMgmt km = true -> knownTier (startupTier env km)) ->
  validateTeamRequest env km (startupRequest env km) = (startupRequest env km, None).
Proof.
  intros Hk. apply validateTeamRequest_accepts; [done | done | | done].
  apply startupTier_nonempty.
Qed.

Lemma createDefaultTeamOnStartup_unfold fuel env km w :
  createDefaultTeamOnStartup fuel env km w
  = (let* got := Secrets_Get "team-default-config" in
     match got with
     | inl _ => ret None
     | inr _ => createTeamInternal fuel env km (startupRequest env km)
     end) w.
Proof. reflexivity. Qed.

(** Whatever happens at startup, the policy store is neither called nor
    changed: the default team has no enforcement policy of its own. *)
Lemma createDefaultTeamOnStartup_never_publishes fuel env km w r w' :
  createDefaultTeamOnStartup fuel env km w = Returns (r, w') ->
  policyStoreUntouched w w'.
Proof.
  rewrite createDefaultTeamOnStartup_unfold. intros Hrun.
  apply bind_returns in Hrun as (got & w0 & Hget & Hrun).
  assert (H0 : policyStoreUntouched w w0).
  { unfold Secrets_Get, storeCall in Hget.
    destruct (faults w _); [injection Hget as _ <-; by apply policyStoreUntouched_record|].
    simpl in Hget. destruct (secrets w !! _); injection Hget as _ <-;
      by apply policyStoreUntouched_record. }
  destruct got as [existing|e]; [by injection Hrun as _ <-|].
  unfold createTeamInternal in Hrun.
  destruct (validateTeamRequest env km (startupRequest env km)) as [req' verr] eqn:Hv.
  destruct (validateTeamRequest_fields _ _ _ _ _ Hv) as (Hid & _).
  destruct verr as [verr|]; [by injection Hrun as _ <-|].
  apply bind_returns in Hrun as (got & w1 & Hget1 & Hrun).
  assert (H1 : policyStoreUntouched w0 w1).
  { unfold Secrets_Get, storeCall in Hget1.
    destruct (faults w0 _); [injection Hget1 as _ <-; by apply policyStoreUntouched_record|].
    simpl in Hget1. destruct (secrets w0 !! _); injection Hget1 as _ <-;
      by apply policyStoreUntouched_record. }
  destruct got as [existing|e']; [injection Hrun as _ <-; by eapply policyStoreUntouched_trans|].
  apply bind_returns in Hrun as (created & w2 & Hcreate & Hrun).
  assert (H2 : policyStoreUntouched w1 w2).
  { unfold createTeamConfigSecret, bind, time_Now_RFC3339, Secrets_Create, storeCall in Hcreate.
    destruct (faults w1 _); [injection Hcreate as _ <-; by apply policyStoreUntouched_record|].
    simpl in Hcreate. destruct (secrets w1 !! _); injection Hcreate as _ <-;
      [by apply policyStoreUntouched_record | by apply policyStoreUntouched_withSecrets]. }
  assert (H02 : policyStoreUntouched w w2).
  { eapply policyStoreUntouched_trans; [exact H0|].
    eapply policyStoreUntouched_trans; [exact H1|exact H2]. }
  destruct created as [teamSecret|e'']; [|by injection Hrun as _ <-].
  destruct (enablePolicyMgmt km); [|by injection Hrun as _ <-].
  destruct (policyEngine km) as [pe|]; [|by injection Hrun as _ <-].
  apply bind_returns in Hrun as (limits & w3 & Hlimits & Hrun).
  apply teamLimits_world in Hlimits as ->.
  rewrite Hid in Hrun. change (CreateTeamRequest.TeamID (startupRequest env km))
    with "default" in Hrun.
  unfold bind in Hrun. rewrite CreateTeamRateLimitPolicies_skip in Hrun by (by right).
  by injection Hrun as _ <-.
Qed.

(** X17.  createDefaultTeamOnStartup is idempotent and publishes nothing.  With
    a tier for the default team that is in the table (when policy
    management is enabled) and a secret store that serves the get and the
    create, the first run on a store without the default team writes the
    record team-default-config, carrying that tier, and returns success; a
    second run finds the record and returns success without writing; and
    no run ever calls or changes the policy store. *)
Theorem createDefaultTeamOnStartup_idempotent
    (fuel : nat) (env : Environ) (km : KeyManager) (w : World) :
  let name := "team-default-config" in
  (enablePolicyMgmt km = true -> knownTier (startupTier env km)) ->
  secrets w !! name = None ->
  faults w (SecretGet name) = None ->
  faults w (SecretCreate name) = None ->
  exists w1 w2,
    createDefaultTeamOnStartup (S fuel) env km w = Returns (None, w1)
    /\ secrets w1 = <[name := teamConfigSecret (startupRequest env km) (clock w)]> (secrets w)
    /\ annotation (teamConfigSecret (startupRequest env km) (clock w)) "maas/default-tier"
       = startupTier env km
    /\ createDefaultTeamOnStartup (S fuel) env km w1 = Returns (None, w2)
    /\ secrets w2 = secrets w1
    /\ policyStoreUntouched w w1
    /\ policyStoreUntouched w1 w2
    /\ (forall fuel0 w0 r w',
          createDefaultTeamOnStartup fuel0 env km w0 = Returns (r, w') ->
          policyStoreUntouched w0 w').
Proof.
  intros name Hk Habsent Hget Hcreate.
  set (s := teamConfigSecret (startupRequest env km) (clock w)).
  set (w1 := withSecrets
               (record (SecretCreate name) (record (SecretGet name) (record (SecretGet name) w)))
               (<[name := s]> (secrets w))).
  set (w0 := record (SecretGet name) w).
  assert (Hget0 : Secrets_Get name w = Returns (inr (notFound "secrets" name), w0)).
  { unfold Secrets_Get, storeCall. rewrite Hget. simpl. by rewrite Habsent. }
  assert (Hget1 : Secrets_Get name w0
                  = Returns (inr (notFound "secrets" name), record (SecretGet name) w0)).
  { unfold Secrets_Get, storeCall. change (faults w0) with (faults w). rewrite Hget.
    simpl. by rewrite Habsent. }
  assert (Hwrite : createTeamConfigSecret km (startupRequest env km) (record (SecretGet name) w0)
                   = Returns (inl s, w1)).
  { unfold createTeamConfigSecret, bind, time_Now_RFC3339, Secrets_Create, storeCall.
    change (secretName (teamConfigSecret (startupRequest env km)
                          (clock (record (SecretGet name) w0)))) with name.
    change (faults (record (SecretGet name) w0)) with (faults w). rewrite Hcreate.
    simpl. change (secretName (teamConfigSecret (startupRequest env km) (clock w))) with name.
    by rewrite Habsent. }
  assert (Hfirst : createDefaultTeamOnStartup (S fuel) env km w = Returns (None, w1)).
  { rewrite createDefaultTeamOnStartup_unfold.
    unfold bind at 1. fold name. rewrite Hget0.
    unfold createTeamInternal. rewrite (validateTeamRequest_startup env km Hk).
    change (teamConfigName (CreateTeamRequest.TeamID (startupRequest env km))) with name.
    unfold bind at 1. rewrite Hget1.
    unfold bind at 1. rewrite Hwrite.
    destruct (enablePolicyMgmt km) eqn:Hen; [|reflexivity].
    rewrite (policyEngine_enabled km Hen).
    destruct (Hk eq_refl) as [limits Hlimits].
    unfold bind at 1.
    rewrite (teamLimits_eq (S fuel) env (startupRequest env km) limits)
      by (by apply GetTierLimits_known).
    unfold bind. rewrite CreateTeamRateLimitPolicies_skip by (by right).
    reflexivity. }
  assert (Hsecond : createDefaultTeamOnStartup (S fuel) env km w1
                    = Returns (None, record (SecretGet name) w1)).
  { rewrite createDefaultTeamOnStartup_unfold.
    unfold bind, Secrets_Get, storeCall. fold name.
    change (faults w1) with (faults w). rewrite Hget. simpl.
    change (secrets w1) with (<[name := s]> (secrets w)).
    by rewrite lookup_insert_eq. }
  exists w1, (record (SecretGet name) w1).
  split; [exact Hfirst|]. split; [done|]. split; [reflexivity|].
  split; [exact Hsecond|]. split; [done|].
  split; [by eapply createDefaultTeamOnStartup_never_publishes|].
  split; [by eapply createDefaultTeamOnStartup_never_publishes|].
  intros fuel0 wa r wb. apply createDefaultTeamOnStartup_never_publishes.
Qed.

Lemma createDefaultTeamOnStartup_idempotent_witness :
  exists w1 w2,
    createDefaultTeamOnStartup 1 ∅ testManager emptyWorld = Returns (None, w1)
    /\ secrets w1
       = <["team-default-config"
           := teamConfigSecret (startupRequest ∅ testManager) "2025-01-01T00:00:00Z"]> ∅
    /\ annotation (teamConfigSecret (startupRequest ∅ testManager) "2025-01-01T00:00:00Z")
         "maas/default-tier" = "standard"
    /\ createDefaultTeamOnStartup 1 ∅ testManager w1 = Returns (None, w2)
    /\ secrets w2 = secrets w1
    /\ policyStoreUntouched emptyWorld w1
    /\ policyStoreUntouched w1 w2
    /\ (forall fuel0 w0 r w',
          createDefaultTeamOnStartup fuel0 ∅ testManager w0 = Returns (r, w') ->
          policyStoreUntouched w0 w').
Proof.
  apply (createDefaultTeamOnStartup_idempotent 0 ∅ testManager emptyWorld).
  - intros _. apply tierCase_known_names. right. left. reflexivity.
  - reflexivity.
  - reflexivity.
  - reflexivity.
Defined.

(** ** Reading a team back *)

Lemma keepsSecrets_memberOfKey fuel env km teamID userID secret :
  keepsSecrets (memberOfKey fuel env km teamID userID secret).
Proof.
  intros w member w' Hrun. apply memberOfKey_pure in Hrun as [-> _]. done.
Qed.

Lemma keepsSecrets_collectMembers fuel env km teamID items memberMap :
  keepsSecrets (collectMembers fuel env km teamID items memberMap).
Proof.
  revert memberMap. induction items as [|secret rest IH]; intros memberMap; simpl.
  - apply keepsSecrets_ret.
  - case_decide; [apply IH|].
    apply keepsSecrets_bind; [apply keepsSecrets_memberOfKey|]. intros member. apply IH.
Qed.

Lemma keepsSecrets_getTeamMembersFromAPIKeys fuel env rangeMembers km teamID :
  keepsSecrets (getTeamMembersFromAPIKeys fuel env rangeMembers km teamID).
Proof.
  unfold getTeamMembersFromAPIKeys.
  apply keepsSecrets_bind; [auto with keeps|]. intros [items|err]; [|apply keepsSecrets_ret].
  apply keepsSecrets_bind; [apply keepsSecrets_collectMembers|]. intros; apply keepsSecrets_ret.
Qed.

Lemma keepsSecrets_getTeamAPIKeys km teamID : keepsSecrets (getTeamAPIKeys km teamID).
Proof. unfold getTeamAPIKeys. keeps. Qed.

Lemma teamConfigSecret_annotations req now :
  annotation (teamConfigSecret req now) "maas/team-name" = CreateTeamRequest.TeamName req
  /\ annotation (teamConfigSecret req now) "maas/description" = CreateTeamRequest.Description req
  /\ annotation (teamConfigSecret req now) "maas/default-tier" = CreateTeamRequest.DefaultTier req
  /\ annotation (teamConfigSecret req now) "maas/created-at" = now.
Proof. repeat split. Qed.

Lemma teamEntry_teamConfigSecret req now :
  teamEntry (teamConfigSecret req now)
  = teamListed (CreateTeamRequest.TeamID req) (CreateTeamRequest.TeamName req)
      (CreateTeamRequest.Description req) (CreateTeamRequest.DefaultTier req) now.
Proof. reflexivity. Qed.

(** X18.  What CreateTeam has written is what GetTeam and ListTeams read.  After
    a CreateTeam that answered 200, with a default tier that is in the
    table and a store that serves the get and the listing, GetTeam answers
    200 with the id, name and description of the request, the tier of the
    response (the configured default when the request named none) and the
    creation time, without writing; and ListTeams answers 200 with an
    entry carrying the same fields. *)
Theorem team_readable_after_createTeam
    (fuel fuel' : nat) (env : Environ)
    (rangeMembers : gmap string TeamMember.t -> list TeamMember.t)
    (km : KeyManager) (req : CreateTeamRequest.t) (r : CreateTeamResponse.t) (w w1 : World) :
  let id := CreateTeamRequest.TeamID req in
  createTeam fuel env km (BindOk req) w
  = Returns ({| status := StatusOK; body := TeamCreated r |}, w1) ->
  knownTier (policies.GetDefaultTier env) ->
  faults w (SecretGet (teamConfigName id)) = None ->
  faults w (SecretList teamConfigSelector) = None ->
  exists team w2 entries w3,
    getTeam (S (S fuel')) env rangeMembers km id w1
    = Returns ({| code := StatusOK; obj := ATeam team |}, w2)
    /\ GetTeamResponse.TeamID team = id
    /\ GetTeamResponse.TeamName team = CreateTeamRequest.TeamName req
    /\ GetTeamResponse.Description team = CreateTeamRequest.Description req
    /\ GetTeamResponse.DefaultTier team = CreateTeamResponse.DefaultTier r
    /\ GetTeamResponse.CreatedAt team = clock w
    /\ secrets w2 = secrets w1
    /\ listTeams km w1
       = Returns ({| code := StatusOK; obj := AMap [ ("teams", AMaps entries) ] |}, w3)
    /\ teamListed id (CreateTeamRequest.TeamName req) (CreateTeamRequest.Description req)
         (CreateTeamResponse.DefaultTier r) (clock w) ∈ entries.
Proof.
  intros id Hcreate Hdefault Hget Hlist.
  destruct (createTeam_created _ _ _ _ _ _ _ Hcreate)
    as (req' & Hv & Hfresh & Hs1 & Hf1 & _ & _ & Htier).
  destruct (validateTeamRequest_fields _ _ _ _ _ Hv) as (Hid & Hname & Hdesc & _).
  rewrite Hid in Hs1. fold id in Hs1.
  set (s := teamConfigSecret req' (clock w)) in *.
  destruct (teamConfigSecret_annotations req' (clock w)) as (Ha1 & Ha2 & Ha3 & Ha4).
  fold s in Ha1, Ha2, Ha3, Ha4.
  set (w0 := record (SecretGet (teamConfigName id)) w1).
  assert (Hget1 : Secrets_Get (teamConfigName id) w1 = Returns (inl s, w0)).
  { unfold Secrets_Get, storeCall. rewrite Hf1, Hget. simpl.
    by rewrite Hs1, lookup_insert_eq. }
  destruct (total_getTeamMembersFromAPIKeys fuel' env rangeMembers km id Hdefault w0)
    as (members & wa & Hmembers).
  destruct (keepsSecrets_getTeamMembersFromAPIKeys _ _ _ _ _ _ _ _ Hmembers) as [Hsa _].
  destruct (total_getTeamAPIKeys km id wa) as (keys & wb & Hkeys).
  destruct (keepsSecrets_getTeamAPIKeys _ _ _ _ _ Hkeys) as [Hsb _].
  eexists _, wb, _, _. split.
  { unfold getTeam, bind. rewrite Hget1, Hmembers, Hkeys. reflexivity. }
  simpl. rewrite Ha1, Ha2, Ha3, Ha4, Hname, Hdesc, Htier.
  repeat match goal with |- _ /\ _ => split end; try done.
  - by rewrite Hsb, Hsa.
  - unfold listTeams, bind, Secrets_List, storeCall. rewrite Hf1, Hlist. reflexivity.
  - apply list_elem_of_fmap. exists s. split.
    + unfold s. rewrite teamEntry_teamConfigSecret. by rewrite Hid, Hname, Hdesc.
    + apply elem_of_selected. split; [reflexivity|].
      exists (teamConfigName id). simpl. by rewrite Hs1, lookup_insert_eq.
Qed.

Lemma team_readable_after_createTeam_witness :
  exists team w2 entries w3,
    getTeam 2 ∅ keyOrder testManager "t1" teamOneCreated
    = Returns ({| code := 200; obj := ATeam team |}, w2)
    /\ GetTeamResponse.TeamID team = "t1"
    /\ GetTeamResponse.TeamName team = "Team One"
    /\ GetTeamResponse.Description team = EmptyString
    /\ GetTeamResponse.DefaultTier team = "standard"
    /\ GetTeamResponse.CreatedAt team = "2025-01-01T00:00:00Z"
    /\ secrets w2 = secrets teamOneCreated
    /\ listTeams testManager teamOneCreated
       = Returns ({| code := 200; obj := AMap [ ("teams", AMaps entries) ] |}, w3)
    /\ teamListed "t1" "Team One" EmptyString "standard" "2025-01-01T00:00:00Z" ∈ entries.
Proof.
  apply (team_readable_after_createTeam 1 0 ∅ keyOrder testManager teamOne
           {| CreateTeamResponse.TeamID := "t1";
              CreateTeamResponse.TeamName := "Team One";
              CreateTeamResponse.DefaultTier := "standard";
              CreateTeamResponse.PoliciesApplied := true;
              CreateTeamResponse.InheritedLimits :=
                [ ("tier", VString "standard");
                  ("token_limit_per_hour", VInt 50000);
                  ("token_limit_per_day", VInt 500000);
                  ("token_limit", VInt 10000);
                  ("request_limit", VInt 120);
                  ("token_window", VString "1m");
                  ("request_window", VString "1m");
                  ("models_allowed", VStrings ["simulator-model"; "qwen3-0-6b-instruct"]);
                  ("max_concurrent_requests", VInt 10) ] |}
           emptyWorld teamOneCreated).
  - unfold teamOneCreated. apply answer_returns. vm_compute. reflexivity.
  - apply tierCase_known_names. right. left. reflexivity.
  - reflexivity.
  - reflexivity.
Defined.

(** ** Names built from team ids *)

Lemma list_ascii_of_append (a b : string) :
  list_ascii_of_string (a +:+ b) = list_ascii_of_string a ++ list_ascii_of_string b.
Proof. induction a as [|c a IH]; simpl; [done | by rewrite IH]. Qed.

Lemma list_ascii_of_string_inj (a b : string) :
  list_ascii_of_string a = list_ascii_of_string b -> a = b.
Proof.
  intros Heq. rewrite <- (string_of_list_ascii_of_string a),
    <- (string_of_list_ascii_of_string b). by rewrite Heq.
Qed.

Lemma length_list_ascii (s : string) : length (list_ascii_of_string s) = String.length s.
Proof. induction s as [|c s IH]; simpl; [done | by rewrite IH]. Qed.

(** Two strings that end in suffixes of the same length are equal only if
    the suffixes are. *)
Lemma append_inj_suffix (a b s t : string) :
  String.length s = String.length t -> a +:+ s = b +:+ t -> a = b /\ s = t.
Proof.
  intros Hlen Heq. apply (f_equal list_ascii_of_string) in Heq.
  rewrite !list_ascii_of_append in Heq.
  apply app_inj_2 in Heq as [Ha Hs]; [|by rewrite !length_list_ascii].
  split; by apply list_ascii_of_string_inj.
Qed.

Lemma append_assoc (a b c : string) : (a +:+ b) +:+ c = a +:+ (b +:+ c).
Proof.
  induction a as [|x a IH]; [done|].
  change (String x ((a +:+ b) +:+ c) = String x (a +:+ (b +:+ c))). by rewrite IH.
Qed.

Lemma tokenPolicyNameOf_inj t t' :
  policies.tokenPolicyNameOf t = policies.tokenPolicyNameOf t' -> t = t'.
Proof.
  unfold policies.tokenPolicyNameOf. intros Heq. apply (inj (append "team-")) in Heq.
  by apply append_inj_suffix in Heq as [-> _].
Qed.

Lemma requestPolicyNameOf_inj t t' :
  policies.requestPolicyNameOf t = policies.requestPolicyNameOf t' -> t = t'.
Proof.
  unfold policies.requestPolicyNameOf. intros Heq. apply (inj (append "team-")) in Heq.
  by apply append_inj_suffix in Heq as [-> _].
Qed.

Lemma tokenPolicyNameOf_not_request t t' :
  policies.tokenPolicyNameOf t <> policies.requestPolicyNameOf t'.
Proof.
  unfold policies.tokenPolicyNameOf, policies.requestPolicyNameOf. intros Heq.
  apply (inj (append "team-")) in Heq.
  change (t' +:+ "-request-limits") with (t' +:+ ("-r" +:+ "equest-limits")) in Heq.
  rewrite <- append_assoc in Heq.
  by apply append_inj_suffix in Heq as [_ ?].
Qed.

Lemma teamConfigName_inj t t' : teamConfigName t = teamConfigName t' -> t = t'.
Proof.
  unfold teamConfigName. intros Heq. apply (inj (append "team-")) in Heq.
  by apply append_inj_suffix in Heq as [-> _].
Qed.

(** ** DeleteTeam: what is gone afterwards, and what is not touched *)

Lemma Secrets_Get_inv name w got w0 :
  Secrets_Get name w = Returns (got, w0) ->
  w0 = record (SecretGet name) w
  /\ (forall s, got = inl s -> faults w (SecretGet name) = None /\ secrets w !! name = Some s).
Proof.
  unfold Secrets_Get, storeCall. destruct (faults w _); [by intros [= <- <-]|].
  simpl. destruct (secrets w !! name) eqn:Hl; intros [= <- <-]; split; try done.
  by intros s' [= <-].
Qed.

Lemma Secrets_DeleteCollection_inv sel w r w' :
  Secrets_DeleteCollection sel w = Returns (r, w') ->
  faults w' = faults w /\ policyObjects w' = policyObjects w
  /\ (secrets w' = secrets w
      \/ secrets w' = filter (fun kv : string * Secret =>
                                matchesSelector sel (secretLabels kv.2) = false) (secrets w)).
Proof.
  unfold Secrets_DeleteCollection, storeCall.
  destruct (faults w _); intros [= <- <-]; simpl; auto.
Qed.

Lemma Secrets_Delete_inv name w d w' :
  Secrets_Delete name w = Returns (d, w') ->
  faults w' = faults w /\ policyObjects w' = policyObjects w
  /\ match d with
     | inl _ => is_Some (secrets w !! name) /\ secrets w' = delete name (secrets w)
     | inr _ => secrets w' = secrets w
     end.
Proof.
  unfold Secrets_Delete, storeCall. destruct (faults w _); [by intros [= <- <-]|].
  simpl. destruct (secrets w !! name) eqn:Hl; intros [= <- <-]; simpl; eauto.
Qed.

Lemma Policy_Delete_inv gvr name w r w' :
  Policy_Delete gvr name w = Returns (r, w') ->
  secrets w' = secrets w /\ faults w' = faults w
  /\ (forall key, key <> (gvr, name) -> policyObjects w' !! key = policyObjects w !! key).
Proof.
  unfold Policy_Delete, storeCall. destruct (faults w _); [by intros [= <- <-]|].
  simpl. destruct (policyObjects w !! _); intros [= <- <-]; simpl; repeat split; try done.
  intros key Hne. by apply lookup_delete_ne.
Qed.

Lemma DeleteTeamPolicies_inv pe teamID w r w' :
  policies.DeleteTeamPolicies pe teamID w = Returns (r, w') ->
  secrets w' = secrets w /\ faults w' = faults w
  /\ (forall key,
        key <> (policies.tokenRateLimitGVR, policies.tokenPolicyNameOf teamID) ->
        key <> (policies.rateLimitGVR_delete, policies.requestPolicyNameOf teamID) ->
        policyObjects w' !! key = policyObjects w !! key).
Proof.
  unfold policies.DeleteTeamPolicies, policies.DeleteTeamTokenRateLimit,
    policies.DeleteTeamRequestRateLimit. intros Hrun.
  apply bind_returns in Hrun as (x & w1 & Hfirst & Hrun).
  apply bind_returns in Hfirst as (r1 & w1' & Hdel1 & Hfirst).
  apply Policy_Delete_inv in Hdel1 as (Hs1 & Hf1 & Hp1).
  assert (w1 = w1') as -> by (destruct r1; by injection Hfirst as _ <-).
  apply bind_returns in Hrun as (y & w2 & Hsecond & Hrun).
  apply bind_returns in Hsecond as (r2 & w2' & Hdel2 & Hsecond).
  apply Policy_Delete_inv in Hdel2 as (Hs2 & Hf2 & Hp2).
  assert (w2 = w2') as -> by (destruct r2; by injection Hsecond as _ <-).
  injection Hrun as _ <-.
  split; [congruence|]. split; [congruence|].
  intros key Hk1 Hk2. by rewrite Hp2, Hp1.
Qed.

(** The shape of every run of DeleteTeam. *)
Lemma deleteTeam_inv km teamID w resp w' :
  deleteTeam km teamID w = Returns (resp, w') ->
  faults w' = faults w
  /\ (forall key,
        key <> (policies.tokenRateLimitGVR, policies.tokenPolicyNameOf teamID) ->
        key <> (policies.rateLimitGVR_delete, policies.requestPolicyNameOf teamID) ->
        policyObjects w' !! key = policyObjects w !! key)
  /\ ((status resp = StatusNotFound /\ secrets w' = secrets w)
      \/ exists teamSecret kept,
           faults w (SecretGet (teamConfigName teamID)) = None
           /\ secrets w !! teamConfigName teamID = Some teamSecret
           /\ (kept = secrets w
               \/ kept = filter (fun kv : string * Secret =>
                                   matchesSelector (teamKeysSelector teamID)
                                     (secretLabels kv.2) = false) (secrets w))
           /\ ((status resp = StatusInternalServerError /\ secrets w' = kept)
               \/ (resp = teamDeleted teamID
                   /\ secrets w' = delete (secretName teamSecret) kept))).
Proof.
  unfold deleteTeam. intros Hrun.
  apply bind_returns in Hrun as (got & w0 & Hget & Hrun).
  apply Secrets_Get_inv in Hget as [-> Hgot].
  destruct got as [teamSecret|e].
  2: { injection Hrun as <- <-. split; [done|]. split; [done|]. by left. }
  destruct (Hgot _ eq_refl) as [Hfget Hstored].
  apply bind_returns in Hrun as (x & wp & Hpolicies & Hrun).
  assert (Hp : secrets wp = secrets w /\ faults wp = faults w
               /\ (forall key,
                     key <> (policies.tokenRateLimitGVR, policies.tokenPolicyNameOf teamID) ->
                     key <> (policies.rateLimitGVR_delete,
                             policies.requestPolicyNameOf teamID) ->
                     policyObjects wp !! key = policyObjects w !! key)).
  { destruct (enablePolicyMgmt km); [|by injection Hpolicies as _ <-].
    destruct (policyEngine km) as [pe|]; [|done].
    by apply DeleteTeamPolicies_inv in Hpolicies. }
  destruct Hp as (Hsp & Hfp & Hpp).
  apply bind_returns in Hrun as (y & wc & Hkeys & Hrun).
  unfold deleteAllTeamKeys in Hkeys.
  apply bind_returns in Hkeys as (rc & wc' & Hcollection & Hkeys).
  assert (wc = wc') as -> by (destruct rc; by injection Hkeys as _ <-).
  apply Secrets_DeleteCollection_inv in Hcollection as (Hfc & Hpc & Hsc).
  apply bind_returns in Hrun as (d & wd & Hdelete & Hrun).
  apply Secrets_Delete_inv in Hdelete as (Hfd & Hpd & Hsd).
  assert (w' = wd) as -> by (destruct d; by injection Hrun as _ <-).
  split; [congruence|]. split.
  { intros key Hk1 Hk2. rewrite Hpd, Hpc. by apply Hpp. }
  right. exists teamSecret, (secrets wc'). split; [done|]. split; [done|].
  split; [rewrite <- Hsp; exact Hsc|].
  destruct d as [[]|e]; injection Hrun as <-.
  - right. by destruct Hsd as [_ ->].
  - left. done.
Qed.

(** X19.  DeleteTeam does not touch other teams.  Whatever it answers and
    whatever the store does, in a store that files records under their own
    names: every record other than the team's own record and the key
    records labelled with the team is still there, unchanged; no record is
    added or modified; and the token and request policies of every other
    team are as before. *)
Theorem deleteTeam_leaves_other_teams
    (km : KeyManager) (teamID : string) (w w1 : World) (resp : Response) :
  deleteTeam km teamID w = Returns (resp, w1) ->
  wellKeyed (secrets w) ->
  (forall name s,
      secrets w !! name = Some s ->
      name <> teamConfigName teamID ->
      matchesSelector (teamKeysSelector teamID) (secretLabels s) = false ->
      secrets w1 !! name = Some s)
  /\ (forall name s, secrets w1 !! name = Some s -> secrets w !! name = Some s)
  /\ (forall other,
        other <> teamID ->
        publishedTokenRates w1 other = publishedTokenRates w other
        /\ policyObjects w1 !! (policies.rateLimitGVR, policies.requestPolicyNameOf other)
           = policyObjects w !! (policies.rateLimitGVR, policies.requestPolicyNameOf other)).
Proof.
  intros Hrun Hkeyed.
  destruct (deleteTeam_inv _ _ _ _ _ Hrun) as (_ & Hpolicies & Hsecrets).
  split; [|split].
  - intros name s Hl Hname Hm.
    destruct Hsecrets as [[_ ->]|(teamSecret & kept & _ & Hstored & Hkept & Hend)]; [done|].
    assert (Hin : kept !! name = Some s).
    { destruct Hkept as [->| ->]; [done|]. by apply map_lookup_filter_Some. }
    destruct Hend as [[_ ->]|[_ ->]]; [done|].
    rewrite lookup_delete_ne; [done|]. rewrite (Hkeyed _ _ Hstored). congruence.
  - intros name s Hl.
    destruct Hsecrets as [[_ Heq]|(teamSecret & kept & _ & Hstored & Hkept & Hend)];
      [by rewrite <- Heq|].
    assert (Hin : kept !! name = Some s).
    { destruct Hend as [[_ Heq]|[_ Heq]]; rewrite Heq in Hl; [done|].
      by apply lookup_delete_Some in Hl as [_ ?]. }
    destruct Hkept as [->| ->]; [done|]. by apply map_lookup_filter_Some in Hin as [? _].
  - intros other Hother. split.
    + unfold publishedTokenRates. rewrite Hpolicies; [done| |done].
      intros Heq. apply pair_equal_spec in Heq as [_ Heq].
      by apply tokenPolicyNameOf_inj in Heq.
    + apply Hpolicies; [done|]. intros Heq. apply pair_equal_spec in Heq as [_ Heq].
      by apply requestPolicyNameOf_inj in Heq.
Qed.

Lemma wellKeyed_decide (m : gmap string Secret) :
  bool_decide (map_Forall (fun name s => secretName s = name) m) = true -> wellKeyed m.
Proof.
  intros Hall%bool_decide_eq_true name s Hl. by apply (Hall name s).
Qed.

Lemma deleteTeam_leaves_other_teams_witness :
  exists w1,
    deleteTeam testManager "t1" twoTeams = Returns (teamDeleted "t1", w1)
    /\ secrets w1 !! "team-t1-config" = None
    /\ secrets w1 !! "team-t2-config" = secrets twoTeams !! "team-t2-config"
    /\ publishedTokenRates w1 "t2" = Some [ {| rateLimit := 500; rateWindow := "1m" |} ].
Proof.
  assert (Hrun : deleteTeam testManager "t1" twoTeams
                 = Returns (teamDeleted "t1", worldAfter (deleteTeam testManager "t1") twoTeams)).
  { apply answer_returns. vm_compute. reflexivity. }
  destruct (deleteTeam_leaves_other_teams testManager "t1" twoTeams _ _ Hrun)
    as (Hkept & _ & Hpolicies).
  { apply wellKeyed_decide. vm_compute. reflexivity. }
  eexists. split; [exact Hrun|].
  split; [vm_compute; reflexivity|].
  split.
  - assert (Hs : secrets twoTeams !! "team-t2-config"
                 = Some (teamConfigSecret customTeam "2025-01-01T00:00:00Z"))
      by (vm_compute; reflexivity).
    rewrite Hs. apply Hkept; [exact Hs | discriminate | vm_compute; reflexivity].
  - rewrite (proj1 (Hpolicies "t2" ltac:(discriminate))). vm_compute. reflexivity.
Defined.

(** X20.  A deleted team is gone.  After a DeleteTeam that answered 200, in a
    store that files records under their own names, the team's record does
    not exist; GetTeam answers 404 and CreateAPIKey for the team answers
    404 "Team not found", neither of them writing anything. *)
Theorem deleteTeam_then_not_found
    (km : KeyManager) (teamID : string) (w w1 : World) :
  deleteTeam km teamID w = Returns (teamDeleted teamID, w1) ->
  wellKeyed (secrets w) ->
  secrets w1 !! teamConfigName teamID = None
  /\ (forall fuel env rangeMembers,
        exists w2, getTeam fuel env rangeMembers km teamID w1 = Returns (teamNotFound, w2)
                   /\ secrets w2 = secrets w1)
  /\ (forall fuel env req,
        exists w2,
          createTeamKey fuel env km teamID (BindOk req) w1
          = Returns ({| status := StatusNotFound; body := ErrorBody "Team not found" |}, w2)
          /\ secrets w2 = secrets w1).
Proof.
  intros Hrun Hkeyed.
  destruct (deleteTeam_inv _ _ _ _ _ Hrun) as (Hfaults & _ & Hsecrets).
  destruct Hsecrets as [[? _]|(teamSecret & kept & Hfget & Hstored & _ & Hend)]; [done|].
  destruct Hend as [[? _]|[_ Hs1]]; [done|].
  assert (Hgone : secrets w1 !! teamConfigName teamID = None).
  { rewrite Hs1, (Hkeyed _ _ Hstored). apply lookup_delete_eq. }
  assert (Hget : Secrets_Get (teamConfigName teamID) w1
                 = Returns (inr (notFound "secrets" (teamConfigName teamID)),
                            record (SecretGet (teamConfigName teamID)) w1)).
  { unfold Secrets_Get, storeCall. rewrite Hfaults, Hfget. simpl. by rewrite Hgone. }
  split; [exact Hgone|]. split.
  - intros fuel env rangeMembers. eexists. split.
    + unfold getTeam, bind. rewrite Hget. reflexivity.
    + done.
  - intros fuel env req. eexists. split.
    + unfold createTeamKey, bind. rewrite Hget. reflexivity.
    + done.
Qed.

Lemma deleteTeam_then_not_found_witness :
  secrets (worldAfter (deleteTeam testManager "t1") teamOneCreated) !! "team-t1-config" = None
  /\ (forall fuel env rangeMembers,
        exists w2,
          getTeam fuel env rangeMembers testManager "t1"
            (worldAfter (deleteTeam testManager "t1") teamOneCreated)
          = Returns (teamNotFound, w2)
          /\ secrets w2 = secrets (worldAfter (deleteTeam testManager "t1") teamOneCreated))
  /\ (forall fuel env req,
        exists w2,
          createTeamKey fuel env testManager "t1" (BindOk req)
            (worldAfter (deleteTeam testManager "t1") teamOneCreated)
          = Returns ({| status := 404; body := ErrorBody "Team not found" |}, w2)
          /\ secrets w2 = secrets (worldAfter (deleteTeam testManager "t1") teamOneCreated)).
Proof.
  apply (deleteTeam_then_not_found testManager "t1" teamOneCreated).
  - apply answer_returns. vm_compute. reflexivity.
  - apply wellKeyed_decide. vm_compute. reflexivity.
Defined.

(** ** GetTeamPolicies *)

Lemma getTeamPolicies_run fuel env km teamID teamRecord limits w :
  enablePolicyMgmt km = true ->
  faults w (SecretGet (teamConfigName teamID)) = None ->
  secrets w !! teamConfigName teamID = Some teamRecord ->
  policies.GetTierLimits fuel env (annotation teamRecord "maas/default-tier") = Returns limits ->
  exists o,
    getTeamPolicies fuel env km teamID w
    = Returns ({| code := StatusOK; obj := o |},
               record (SecretGet (teamConfigName teamID))
                 (record (SecretGet (teamConfigName teamID)) w))
    /\ o = AMap
         [ ("team_id", AString teamID);
           ("tier", AString (annotation teamRecord "maas/default-tier"));
           ("auth_policy_name", AString "gateway-auth-policy");
           ("rate_limit_name", AString (reportedRateLimitName teamID));
           ("applied_at", AString (clock w));
           ("policy_limits",
            AMap [ ("token_limit_per_hour", AInt (policies.TokenLimitPerHour limits));
                   ("token_limit_per_day", AInt (policies.TokenLimitPerDay limits));
                   ("token_limit", AInt (policies.TokenLimit limits));
                   ("request_limit", AInt (policies.RequestLimit limits));
                   ("token_window", AString (policies.TokenWindow limits));
                   ("request_window", AString (policies.RequestWindow limits));
                   ("models_allowed", AStrings (policies.ModelsAllowed limits));
                   ("max_concurrent_requests",
                    AInt (policies.MaxConcurrentRequests limits)) ]) ].
Proof.
  intros Hen Hget Hstored Hlimits. eexists. split; [|reflexivity].
  assert (Hread : forall w0, faults w0 = faults w -> secrets w0 = secrets w ->
            Secrets_Get (teamConfigName teamID) w0
            = Returns (inl teamRecord, record (SecretGet (teamConfigName teamID)) w0)).
  { intros w0 Hf Hs. unfold Secrets_Get, storeCall. rewrite Hf, Hget. simpl.
    by rewrite Hs, Hstored. }
  unfold getTeamPolicies. rewrite Hen. change (negb true) with false. cbv iota.
  unfold bind at 1. rewrite (Hread w) by done.
  unfold bind at 1. rewrite Hread by done.
  unfold bind, GetTierLimits, lift. rewrite Hlimits. reflexivity.
Qed.

(** X21.  GetTeamPolicies reports the tier table, not what is enforced.  Its
    answer is determined by the team id, the tier annotation of the team
    record and the time: for two stores whose team records carry the same
    tier (whatever limit overrides they store and whatever policies are
    published), read at the same time, it gives the same 200 answer, whose
    token limit is the one of the tier table; and it reads the team record
    only, without ever calling the policy store. *)
Theorem getTeamPolicies_reports_tier_table
    (fuel : nat) (env : Environ) (km : KeyManager) (teamID : string)
    (teamRecord teamRecord' : Secret) (limits : policies.TierLimits) (w w' : World) :
  let name := teamConfigName teamID in
  enablePolicyMgmt km = true ->
  faults w (SecretGet name) = None ->
  faults w' (SecretGet name) = None ->
  secrets w !! name = Some teamRecord ->
  secrets w' !! name = Some teamRecord' ->
  annotation teamRecord' "maas/default-tier" = annotation teamRecord "maas/default-tier" ->
  clock w' = clock w ->
  policies.GetTierLimits fuel env (annotation teamRecord "maas/default-tier") = Returns limits ->
  exists reply w1 w1',
    getTeamPolicies fuel env km teamID w = Returns (reply, w1)
    /\ getTeamPolicies fuel env km teamID w' = Returns (reply, w1')
    /\ code reply = StatusOK
    /\ reportedTokenLimit reply = Some (AInt (policies.TokenLimit limits))
    /\ field "rate_limit_name" (obj reply) = Some (AString (reportedRateLimitName teamID))
    /\ policyStoreUntouched w w1
    /\ secrets w1 = secrets w.
Proof.
  intros name Hen Hf Hf' Hs Hs' Htier Hclock Hlimits.
  destruct (getTeamPolicies_run fuel env km teamID teamRecord limits w Hen Hf Hs Hlimits)
    as (o & Hrun & Ho).
  destruct (getTeamPolicies_run fuel env km teamID teamRecord' limits w' Hen Hf' Hs')
    as (o' & Hrun' & Ho'); [by rewrite Htier|].
  assert (o' = o) as -> by (rewrite Ho, Ho', Htier, Hclock; done).
  eexists _, _, _. split; [exact Hrun|]. split; [exact Hrun'|].
  split; [done|]. rewrite Ho.
  split; [reflexivity|]. split; [reflexivity|]. split; [|done].
  split; [done|]. split; [done|].
  exists [SecretGet name; SecretGet name]. split; [simpl; by rewrite <- app_assoc|].
  by repeat constructor.
Qed.

Lemma getTeamPolicies_reports_tier_table_witness :
  exists reply w1 w1',
    getTeamPolicies 1 ∅ testManager "t2" customTeamCreated = Returns (reply, w1)
    /\ getTeamPolicies 1 ∅ testManager "t2" plainTeamTwoCreated = Returns (reply, w1')
    /\ code reply = 200
    /\ reportedTokenLimit reply = Some (AInt 2000)
    /\ publishedTokenRates customTeamCreated "t2"
       = Some [ {| rateLimit := 500; rateWindow := "1m" |} ]
    /\ policyStoreUntouched customTeamCreated w1.
Proof.
  destruct (getTeamPolicies_reports_tier_table 1 ∅ testManager "t2"
              (teamConfigSecret customTeam "2025-01-01T00:00:00Z")
              (teamConfigSecret plainTeamTwo "2025-01-01T00:00:00Z")
              policies.freeLimits customTeamCreated plainTeamTwoCreated)
    as (reply & w1 & w1' & Hrun & Hrun' & Hcode & Hlimit & _ & Hstore & _);
    try (vm_compute; reflexivity).
  exists reply, w1, w1'. split; [exact Hrun|]. split; [exact Hrun'|].
  split; [exact Hcode|]. split; [exact Hlimit|]. split; [vm_compute; reflexivity|exact Hstore].
Defined.

(** X22.  The name GetTeamPolicies reports as rate_limit_name,
    team-{id}-rate-limits, is not the name of any policy object the
    publisher writes: those are team-{id}-token-limits and
    team-{id}-request-limits, and no choice of the two team ids makes the
    names equal. *)
Theorem reported_rate_limit_name_is_never_published
    (kind : PolicyKind) (pe : policies.PolicyEngine) (teamID published now : string)
    (limits : policies.TierLimits) :
  policyName (kindManifest kind pe published now limits) <> reportedRateLimitName teamID
  /\ policies.tokenPolicyNameOf published <> reportedRateLimitName teamID
  /\ policies.requestPolicyNameOf published <> reportedRateLimitName teamID.
Proof.
  assert (Htoken : policies.tokenPolicyNameOf published <> reportedRateLimitName teamID).
  { unfold policies.tokenPolicyNameOf, reportedRateLimitName. intros Heq.
    apply (inj (append "team-")) in Heq.
    change (published +:+ "-token-limits") with (published +:+ ("-" +:+ "token-limits")) in Heq.
    rewrite <- append_assoc in Heq.
    by apply append_inj_suffix in Heq as [_ ?]. }
  assert (Hrequest : policies.requestPolicyNameOf published <> reportedRateLimitName teamID).
  { unfold policies.requestPolicyNameOf, reportedRateLimitName. intros Heq.
    apply (inj (append "team-")) in Heq.
    change (published +:+ "-request-limits")
      with (published +:+ ("-re" +:+ "quest-limits")) in Heq.
    rewrite <- append_assoc in Heq.
    by apply append_inj_suffix in Heq as [_ ?]. }
  split; [|done]. rewrite kindManifest_name. by destruct kind.
Qed.

(** ** The endpoints that only read *)

#[local] Instance onlyRead_preorder : PreOrder onlyRead.
Proof.
  split.
  - intros w. split; [done|]. split; [done|]. exists []. by rewrite app_nil_r.
  - intros w1 w2 w3 (Hs & Hp & calls & Ht & Hc) (Hs' & Hp' & calls' & Ht' & Hc').
    split; [congruence|]. split; [congruence|].
    exists (calls ++ calls'). split; [by rewrite Ht', Ht, app_assoc|].
    by apply Forall_app.
Qed.

Lemma onlyRead_record c w : isReadCall c = true -> onlyRead w (record c w).
Proof.
  intros Hc. split; [done|]. split; [done|]. exists [c]. split; [done|]. by constructor.
Qed.

Lemma onlyRead_Secrets_Get name : preserves onlyRead (Secrets_Get name).
Proof.
  intros w a w'. unfold Secrets_Get, storeCall.
  destruct (faults w (SecretGet name)); [intros [= <- <-]; by apply onlyRead_record|].
  simpl. destruct (secrets w !! name); intros [= <- <-]; by apply onlyRead_record.
Qed.

Lemma onlyRead_Secrets_List sel : preserves onlyRead (Secrets_List sel).
Proof.
  intros w a w'. unfold Secrets_List, storeCall.
  destruct (faults w (SecretList sel)); intros [= <- <-]; by apply onlyRead_record.
Qed.

Lemma onlyRead_lift {A : Type} (r : Run A) : preserves onlyRead (lift r).
Proof. intros w a w'. unfold lift. destruct r; [|done|done]. by intros [= <- <-]. Qed.

Lemma onlyRead_time_Now : preserves onlyRead time_Now_RFC3339.
Proof. by intros w a w' [= <- <-]. Qed.

Lemma onlyRead_c_JSON code o : preserves onlyRead (c_JSON code o).
Proof. apply preserves_ret; apply _. Qed.

Create HintDb reads discriminated.
#[local] Hint Resolve onlyRead_Secrets_Get onlyRead_Secrets_List onlyRead_lift
  onlyRead_time_Now onlyRead_c_JSON : reads.

Ltac reads :=
  repeat first
    [ solve [auto with reads]
    | apply preserves_bind; [apply _| |intros ?]
    | apply preserves_ret; apply _
    | match goal with
      | |- preserves _ (match ?x with _ => _ end) => destruct x
      | |- preserves _ (if ?b then _ else _) => destruct b
      end ].

Lemma onlyRead_memberOfKey fuel env km teamID userID secret :
  preserves onlyRead (memberOfKey fuel env km teamID userID secret).
Proof. unfold memberOfKey, GetTierLimits. reads. Qed.

Lemma onlyRead_collectMembers fuel env km teamID items memberMap :
  preserves onlyRead (collectMembers fuel env km teamID items memberMap).
Proof.
  revert memberMap. induction items as [|secret rest IH]; intros memberMap; simpl.
  - reads.
  - case_decide; [apply IH|].
    apply preserves_bind; [apply _|apply onlyRead_memberOfKey|]. intros member. apply IH.
Qed.

Lemma onlyRead_getTeamMembersFromAPIKeys fuel env rangeMembers km teamID :
  preserves onlyRead (getTeamMembersFromAPIKeys fuel env rangeMembers km teamID).
Proof.
  unfold getTeamMembersFromAPIKeys.
  apply preserves_bind; [apply _|apply onlyRead_Secrets_List|]. intros [items|err]; [|reads].
  apply preserves_bind; [apply _|apply onlyRead_collectMembers|]. intros m. reads.
Qed.

Lemma onlyRead_getTeamAPIKeys km teamID : preserves onlyRead (getTeamAPIKeys km teamID).
Proof. unfold getTeamAPIKeys. reads. Qed.

#[local] Hint Resolve onlyRead_getTeamMembersFromAPIKeys onlyRead_getTeamAPIKeys : reads.

(** X23.  The GET handlers of the team API (listTeams, getTeam, listTeamMembers,
    getTeamPolicies) only read: whenever one of them answers, whatever the
    answer and whatever failures the store injected, the secrets and the
    policy objects are what they were, and every call it made to a store
    was a Get or a List. *)
Theorem read_endpoints_only_read
    (fuel : nat) (env : Environ)
    (rangeMembers : gmap string TeamMember.t -> list TeamMember.t)
    (km : KeyManager) (e : ReadEndpoint) (w w' : World) (reply : Reply) :
  serveRead fuel env rangeMembers km e w = Returns (reply, w') ->
  onlyRead w w'.
Proof.
  revert w reply w'. change (preserves onlyRead (serveRead fuel env rangeMembers km e)).
  destruct e as [|teamID|teamID|teamID]; simpl.
  - unfold listTeams. reads.
  - unfold getTeam. reads.
  - unfold listTeamMembers. reads.
  - unfold getTeamPolicies, GetTierLimits. reads.
Qed.

Lemma read_endpoints_only_read_witness :
  code <$> answer (serveRead 2 ∅ keyOrder testManager (GetTeam "t1")) teamOneWithKey
  = Some 200
  /\ onlyRead teamOneWithKey
       (worldAfter (serveRead 2 ∅ keyOrder testManager (GetTeam "t1")) teamOneWithKey).
Proof.
  split; [vm_compute; reflexivity|].
  destruct (answer (serveRead 2 ∅ keyOrder testManager (GetTeam "t1")) teamOneWithKey)
    as [reply|] eqn:Hanswer; [|by vm_compute in Hanswer].
  exact (read_endpoints_only_read 2 ∅ keyOrder testManager (GetTeam "t1")
           teamOneWithKey _ reply (answer_returns _ _ _ Hanswer)).
Defined.

(** ** AddUserToTeam *)


(** ** The limits on a key record, written and read back *)

Lemma createEnhancedKeySecret_annotations km teamID req apiKey member w s w' :
  createEnhancedKeySecret km teamID req apiKey member w = Returns (inl s, w') ->
  secretAnnotations s !! "maas/token-limit"
  = Some (Sprintf_d (if decide (CreateTeamKeyRequest.TokenLimit req = 0)
                     then TeamMember.TokenLimit member
                     else CreateTeamKeyRequest.TokenLimit req))
  /\ secretAnnotations s !! "maas/request-limit"
     = Some (Sprintf_d (if decide (CreateTeamKeyRequest.RequestLimit req = 0)
                        then TeamMember.RequestLimit member
                        else CreateTeamKeyRequest.RequestLimit req))
  /\ secretAnnotations s !! "maas/time-window"
     = Some (if decide (CreateTeamKeyRequest.TimeWindow req = EmptyString)
             then TeamMember.TimeWindow member
             else CreateTeamKeyRequest.TimeWindow req)
  /\ secretAnnotations s !! "maas/team-name" = Some (TeamMember.TeamName member)
  /\ secretAnnotations s !! "maas/user-email" = Some (TeamMember.UserEmail member)
  /\ secretLabels s !! "maas/team-role" = Some (TeamMember.Role member).
Proof.
  unfold createEnhancedKeySecret.
  rewrite slice_to_hash8, (proj1 (fingerprint_total apiKey)).
  unfold bind, time_Now_RFC3339, Secrets_Create, storeCall.
  destruct (faults w _) eqn:Hf; [done|]. cbn [secretName].
  destruct (secrets _ !! _) eqn:Hl; [done|].
  intros [= <- <-]. cbn [secretLabels secretAnnotations].
  assert (Hlayers : forall (base : gmap string string) key,
            key <> "maas/alias" -> key <> "maas/custom-limits" ->
            match CreateTeamKeyRequest.CustomLimits req with
            | Some customLimitsJSON =>
                <["maas/custom-limits" := customLimitsJSON]>
                  (if decide (CreateTeamKeyRequest.Alias req <> EmptyString)
                   then <["maas/alias" := CreateTeamKeyRequest.Alias req]> base else base)
            | None =>
                if decide (CreateTeamKeyRequest.Alias req <> EmptyString)
                then <["maas/alias" := CreateTeamKeyRequest.Alias req]> base else base
            end !! key = base !! key).
  { intros base key Ha Hc.
    destruct (CreateTeamKeyRequest.CustomLimits req); [rewrite lookup_insert_ne by done|];
      (case_decide; [by rewrite lookup_insert_ne|done]). }
  rewrite !Hlayers by done. cbn [list_to_map foldr fst snd uncurry].
  repeat split;
    repeat first [ apply lookup_insert_eq | rewrite lookup_insert_ne by done ].
Qed.

(** X25.  The membership read back from a user's first key is the membership the
    key was written for, with the key's own limits in place of the
    member's.  When createEnhancedKeySecret has written the first key
    record of a user in a team (the manager using the selector value
    "rhcl-keys", the default tier being in the table, the store serving
    the listing), validateTeamMembershipFromAPIKey returns a member for
    that user whose token limit, request limit and time window are those
    written on the record (the request's where given, else the member's;
    every integer survives the decimal rendering, negative ones and the
    sentinel -1 included), and whose tier, role, team name and e-mail are
    the member's. *)
Theorem membership_read_back_from_first_key
    (fuel : nat) (env : Environ) (km : KeyManager) (teamID apiKey : string)
    (req : CreateTeamKeyRequest.t) (member : TeamMember.t) (s : Secret) (w w' : World) :
  let userID := CreateTeamKeyRequest.UserID req in
  createEnhancedKeySecret km teamID req apiKey member w = Returns (inl s, w') ->
  secretSelectorValue km = "rhcl-keys" ->
  selected (membershipSelector teamID userID) (secrets w) = [] ->
  knownTier (policies.GetDefaultTier env) ->
  faults w (SecretList (membershipSelector teamID userID)) = None ->
  exists read w2,
    validateTeamMembershipFromAPIKey (S (S fuel)) env km teamID userID w'
    = Returns (inl read, w2)
    /\ TeamMember.TokenLimit read
       = (if decide (CreateTeamKeyRequest.TokenLimit req = 0)
          then TeamMember.TokenLimit member else CreateTeamKeyRequest.TokenLimit req)
    /\ TeamMember.RequestLimit read
       = (if decide (CreateTeamKeyRequest.RequestLimit req = 0)
          then TeamMember.RequestLimit member else CreateTeamKeyRequest.RequestLimit req)
    /\ TeamMember.TimeWindow read
       = (if decide (CreateTeamKeyRequest.TimeWindow req = EmptyString)
          then TeamMember.TimeWindow member else CreateTeamKeyRequest.TimeWindow req)
    /\ TeamMember.UserID read = userID
    /\ TeamMember.TeamID read = teamID
    /\ TeamMember.Tier read = TeamMember.Tier member
    /\ TeamMember.Role read = TeamMember.Role member
    /\ TeamMember.TeamName read = TeamMember.TeamName member
    /\ TeamMember.UserEmail read = TeamMember.UserEmail member.
Proof.
  intros userID Hrun Hvalue Hfirst Hd Hf.
  destruct (createEnhancedKeySecret_created _ _ _ _ _ _ _ _ Hrun)
    as (Hfresh & Hsecrets & Hfaults & _ & _).
  destruct (createEnhancedKeySecret_labels _ _ _ _ _ _ _ _ Hrun)
    as (Hby & Huser & Hteam & Htier).
  destruct (createEnhancedKeySecret_annotations _ _ _ _ _ _ _ _ Hrun)
    as (Htoken & Hrequest & Hwindow & Hname & Hemail & Hrole).
  assert (Hlisted : selected (membershipSelector teamID userID) (secrets w') = [s]).
  { rewrite Hsecrets. apply selected_insert_only; [done| |].
    - apply matches_membershipSelector. split; [|done].
      apply matches_teamKeysSelector. by rewrite Hby, Hvalue.
    - intros n x Hx Hmatch.
      assert (Hin : x ∈ selected (membershipSelector teamID userID) (secrets w))
        by (apply elem_of_selected; eauto).
      rewrite Hfirst in Hin. by apply elem_of_nil in Hin. }
  unfold validateTeamMembershipFromAPIKey, bind at 1.
  unfold Secrets_List, storeCall. rewrite Hfaults, Hf. simpl. rewrite Hlisted.
  assert (Hfields : forall models,
            let read :=
              {| TeamMember.UserID := userID;
                 TeamMember.UserEmail := annotation s "maas/user-email";
                 TeamMember.Role := label s "maas/team-role";
                 TeamMember.TeamID := teamID;
                 TeamMember.TeamName := annotation s "maas/team-name";
                 TeamMember.Tier := label s "maas/tier";
                 TeamMember.DefaultModels := models;
                 TeamMember.JoinedAt := EmptyString;
                 TeamMember.TokenLimit := scannedLimit s "maas/token-limit";
                 TeamMember.RequestLimit := scannedLimit s "maas/request-limit";
                 TeamMember.TimeWindow :=
                   match secretAnnotations s !! "maas/time-window" with
                   | Some timeWindow => timeWindow
                   | None => EmptyString
                   end |} in
            TeamMember.TokenLimit read
            = (if decide (CreateTeamKeyRequest.TokenLimit req = 0)
               then TeamMember.TokenLimit member else CreateTeamKeyRequest.TokenLimit req)
            /\ TeamMember.RequestLimit read
               = (if decide (CreateTeamKeyRequest.RequestLimit req = 0)
                  then TeamMember.RequestLimit member
                  else CreateTeamKeyRequest.RequestLimit req)
            /\ TeamMember.TimeWindow read
               = (if decide (CreateTeamKeyRequest.TimeWindow req = EmptyString)
                  then TeamMember.TimeWindow member else CreateTeamKeyRequest.TimeWindow req)
            /\ TeamMember.UserID read = userID
            /\ TeamMember.TeamID read = teamID
            /\ TeamMember.Tier read = TeamMember.Tier member
            /\ TeamMember.Role read = TeamMember.Role member
            /\ TeamMember.TeamName read = TeamMember.TeamName member
            /\ TeamMember.UserEmail read = TeamMember.UserEmail member).
  { intros models. cbn [TeamMember.TokenLimit TeamMember.RequestLimit TeamMember.TimeWindow
                        TeamMember.UserID TeamMember.TeamID TeamMember.Tier TeamMember.Role
                        TeamMember.TeamName TeamMember.UserEmail].
    unfold scannedLimit, annotation, label.
    rewrite Htoken, Hrequest, Hwindow, Hname, Hemail, Hrole, Htier, !Sscanf_d_Sprintf_d.
    done. }
  destruct (enablePolicyMgmt km).
  - destruct (GetTierLimits_total fuel env (label s "maas/tier") Hd) as [limits Hl].
    unfold bind, GetTierLimits, lift, ret. rewrite Hl.
    eexists _, _. split; [reflexivity|]. apply Hfields.
  - unfold bind, ret. eexists _, _. split; [reflexivity|]. apply Hfields.
Qed.

Lemma membership_read_back_from_first_key_witness :
  exists read w2,
    validateTeamMembershipFromAPIKey 2 ∅ testManager "t1" "alice" teamOneWithKey
    = Returns (inl read, w2)
    /\ TeamMember.TokenLimit read = 10000
    /\ TeamMember.RequestLimit read = 120
    /\ TeamMember.TimeWindow read = "1m"
    /\ TeamMember.Tier read = "standard".
Proof.
  destruct (membership_read_back_from_first_key 0 ∅ testManager "t1" "alice-first-key"
              aliceKey aliceOfTeamOne
              aliceFirstKeyRecord teamOneWorld teamOneWithKey)
    as (read & w2 & Hrun & Htoken & Hrequest & Hwindow & _ & _ & Htier & _).
  - unfold teamOneWithKey. apply answer_returns. vm_compute. reflexivity.
  - reflexivity.
  - vm_compute. reflexivity.
  - apply tierCase_known_names. right. left. reflexivity.
  - reflexivity.
  - exists read, w2. split; [exact Hrun|]. split; [exact Htoken|]. split; [exact Hrequest|].
    split; [exact Hwindow|exact Htier].
Defined.

(** ** ValidateTeamPolicies *)


